(** * Daycare-management backend: access control, referential integrity, reports

    A shallow embedding of the Express/Mongoose controllers of the backend
    (children, finance, activities, messages) and of the middleware in
    [middleware/auth.js], followed by the properties the specification
    states about them.

    Conventions of the embedding.
    - A JavaScript plain object ([req.body], a Mongoose update, the fields of
      a Child or Finance document) is a finite map from field names to values.
    - Documents whose fields the controllers only read and assign one by one
      (users, activities, messages) are records.
    - A collection is the list of its documents in insertion order.
    - An [async] handler is a function of the database that returns a response
      and the database it leaves behind; an exception thrown by the store is
      the [Throw] result, which every handler's [catch] turns into a 500.
    - [new Date()] is the argument [now] of the handlers that read the clock.
    - JavaScript numbers are kept abstract behind the class [Number]; its
      instance [binary64] is the IEEE 754 double of the running program. A
      number that the code only compares with the length of an array
      ([maxParticipants]) is a [Bound]: a rational or [Infinity].
    - A string is the sequence of the bytes of its UTF-8 encoding. *)

From stdpp Require Import gmap strings list pretty.
From Stdlib Require Import ZArith Floats Sorted Ascii.
From Stdlib Require QArith.

Set Warnings "-register-all,-inexact-float,-clear-no-such-hyp".
Local Open Scope Z_scope.

(* ===================================================================== *)
(** * JavaScript values *)
(* ===================================================================== *)

Module Js.

(** The arithmetic the code performs on amounts: [+], [-], [<] and the
    truthiness test of [||]. *)
Class Number (num : Type) := {
  nzero : num;
  nadd : num → num → num;
  nsub : num → num → num;
  nltb : num → num → bool;
  ntruthy : num → bool
}.

(** IEEE 754 binary64, the [Number] of JavaScript and the double of BSON. *)
#[export] Instance binary64 : Number float := {|
  nzero := 0%float;
  nadd := PrimFloat.add;
  nsub := PrimFloat.sub;
  nltb := PrimFloat.ltb;
  ntruthy x := negb (PrimFloat.eqb x 0%float || PrimFloat.is_nan x)
|}.

(** Exact integer arithmetic (amounts counted in indivisible units). *)
#[export] Instance exact : Number Z := {|
  nzero := 0;
  nadd := Z.add;
  nsub := Z.sub;
  nltb := Z.ltb;
  ntruthy x := negb (x =? 0)
|}.

(** [<] never holds in both directions. *)
Class NumberOrder (num : Type) `{!Number num} : Prop := {
  nltb_asym : ∀ x y : num, nltb x y = true → nltb y x = false
}.


Definition ObjectId := nat.
Bind Scope nat_scope with ObjectId.
(** Milliseconds since the epoch, the time value of a JavaScript [Date]. *)
Definition Date := Z.

(** A value of a document or of a JSON body, after Mongoose has cast it to
    the type of its path ([VId], [VDate]). [undefined] is the absence of
    the key. *)
Inductive Value {num : Type} : Type :=
| VNull
| VBool (b : bool)
| VNum (x : num)
| VStr (s : string)
| VId (i : ObjectId)
| VDate (t : Date)
| VArr (l : list Value)
| VObj (fields : list (string * Value)).
Arguments Value : clear implicits.

Section Values.
Context {num : Type} `{!Number num}.

(** ToBoolean. *)
Definition truthy (v : option (Value num)) : bool :=
  match v with
  | None | Some VNull => false
  | Some (VBool b) => b
  | Some (VNum x) => ntruthy x
  | Some (VStr s) => negb (String.eqb s "")
  | Some _ => true
  end.

(** [a || b] on possibly undefined values. *)
Definition orElse (a : option (Value num)) (b : Value num) : Value num :=
  match a with
  | Some v => if truthy a then v else b
  | None => b
  end.

Definition asId (v : option (Value num)) : option ObjectId :=
  match v with Some (VId i) => Some i | _ => None end.

Definition asStr (v : option (Value num)) : option string :=
  match v with Some (VStr s) => Some s | _ => None end.


Definition asNum (v : option (Value num)) : option num :=
  match v with Some (VNum x) => Some x | _ => None end.

(** The ObjectIds of an array path, as Mongoose hands the array to the
    code: a lone id is cast to the array that holds it, elements that are no
    ids are skipped. *)
Definition idsOf (v : option (Value num)) : list ObjectId :=
  match v with
  | Some (VArr l) => omap (λ e, asId (Some e)) l
  | Some (VId i) => [i]
  | _ => []
  end.

Definition isArr (v : option (Value num)) : bool :=
  match v with Some (VArr _) => true | _ => false end.
End Values.

(** A string is kept as the bytes of its UTF-8 encoding.

    [s.length] counts UTF-16 code units: one for a character of the Basic
    Multilingual Plane (a sequence of one, two or three bytes), two for
    every other character (four bytes). The count is taken at the first
    byte of a sequence; the bytes that continue it count nothing. *)
Definition codeUnits (c : Ascii.ascii) : nat :=
  let n := Ascii.nat_of_ascii c in
  if (n <? 128)%nat then 1%nat
  else if (n <? 192)%nat then 0%nat
  else if (n <? 240)%nat then 1%nat
  else 2%nat.

Fixpoint utf16Length (s : string) : nat :=
  match s with
  | String c s' => (codeUnits c + utf16Length s')%nat
  | EmptyString => 0%nat
  end.

(** The white space and the line terminators of ECMAScript, by the bytes of
    their encodings: U+0009 to U+000D and U+0020; U+00A0; U+1680, U+2000 to
    U+200A, U+2028, U+2029, U+202F, U+205F, U+3000 and U+FEFF. *)
Definition space1 (a : Ascii.ascii) : bool :=
  let a := Ascii.nat_of_ascii a in
  ((9 <=? a) && (a <=? 13) || (a =? 32))%nat.

Definition space2 (a b : Ascii.ascii) : bool :=
  let a := Ascii.nat_of_ascii a in
  let b := Ascii.nat_of_ascii b in
  ((a =? 194) && (b =? 160))%nat.

Definition space3 (a b c : Ascii.ascii) : bool :=
  let a := Ascii.nat_of_ascii a in
  let b := Ascii.nat_of_ascii b in
  let c := Ascii.nat_of_ascii c in
  ((a =? 225) && (b =? 154) && (c =? 128)
   || (a =? 226) && (b =? 128)
      && ((128 <=? c) && (c <=? 138) || (c =? 168) || (c =? 169) || (c =? 175))
   || (a =? 226) && (b =? 129) && (c =? 159)
   || (a =? 227) && (b =? 128) && (c =? 128)
   || (a =? 239) && (b =? 187) && (c =? 191))%nat.

(** [String.prototype.trim] (the [trim: true] setter of a String path). *)
Fixpoint trimStart (s : string) : string :=
  match s with
  | String a s1 =>
      if space1 a then trimStart s1
      else match s1 with
           | String b s2 =>
               if space2 a b then trimStart s2
               else match s2 with
                    | String c s3 => if space3 a b c then trimStart s3 else s
                    | EmptyString => s
                    end
           | EmptyString => s
           end
  | EmptyString => EmptyString
  end.

(** The string up to the first place from which only white space follows. *)
Fixpoint trimEnd (s : string) : string :=
  match s with
  | String c s' =>
      if String.eqb (trimStart s) "" then EmptyString else String c (trimEnd s')
  | EmptyString => EmptyString
  end.

Definition trim (s : string) : string := trimEnd (trimStart s).

(** [Math.ceil(a / b)] for integers [a] and [b ≠ 0]. *)
Definition ceilDiv (a b : Z) : Z := - ((- a) / b).

(** A number of a Number path that the code compares with the length of an
    array and with the [min] of its validator. Every finite binary64 value
    is a rational, the length of an array is represented exactly, and the
    comparison of finite binary64 values is the comparison of the rationals
    they are: the finite values range over the rationals. [Infinity], which
    the cast of the path admits, is kept apart; [NaN], which it refuses, is
    left out, and [-Infinity] compares with a length and with a [min] as
    every negative number does. *)
Inductive Bound : Type :=
| Finite (q : QArith_base.Q)
| Infinity.

(** [n >= bound] for the length [n] of an array. *)
Definition reaches (n : nat) (bound : Bound) : bool :=
  match bound with
  | Finite q => QArith_base.Qle_bool q (QArith_base.inject_Z (Z.of_nat n))
  | Infinity => false
  end.

(** [bound >= m], the validator [min: m]. *)
Definition atLeast (m : Z) (bound : Bound) : bool :=
  match bound with
  | Finite q => QArith_base.Qle_bool (QArith_base.inject_Z m) q
  | Infinity => true
  end.

End Js.
Export Js.

(** A JavaScript object used as a record of named fields. *)
Abbreviation Doc num := (gmap string (Value num)).

(* ===================================================================== *)
(** * The document store (MongoDB through Mongoose) *)
(* ===================================================================== *)

Module Store.

(** ** Results of a store operation *)

Inductive Result (A : Type) : Type :=
| Ok (a : A)
| Throw (error : string).
Arguments Ok {A} a.
Arguments Throw {A} error.

(** ** Sorting *)

Section Sort.
Context {A : Type} (before : A → A → bool).

(** [x] goes in front of the first element that is not before it, so
    documents with equal keys keep their order. *)
Fixpoint insertBy (x : A) (l : list A) : list A :=
  match l with
  | [] => [x]
  | y :: l' => if before y x then y :: insertBy x l' else x :: l
  end.

Definition sortBy (l : list A) : list A := foldr insertBy [] l.

(** In a sorted list no element is before its predecessor. *)
Definition inOrder (a b : A) : Prop := before b a = false.

End Sort.

(** [.skip(n).limit(m)]: a negative skip is refused by the server; a negative
    limit is read as its absolute value and a limit of 0 as no limit. *)
Definition skipLimit {A : Type} (skip limit : Z) (l : list A) : Result (list A) :=
  if skip <? 0 then Throw "Skip value must be non-negative"
  else if limit =? 0 then Ok (drop (Z.to_nat skip) l)
  else Ok (take (Z.to_nat (Z.abs limit)) (drop (Z.to_nat skip) l)).

(** ** Grouping *)

Section Group.
Context {K A : Type} `{!EqDecision K}.

(** Adds [x] to the group of key [k], opening a new group at the end when
    there is none: groups appear in the order of their first document. *)
Fixpoint addToGroup (k : K) (x : A) (gs : list (K * list A)) : list (K * list A) :=
  match gs with
  | [] => [(k, [x])]
  | (k', xs) :: gs' =>
      if decide (k' = k) then (k', xs ++ [x]) :: gs' else (k', xs) :: addToGroup k x gs'
  end.

(** [$group] on the key [key]: the documents of each key, in input order. *)
Definition groupBy (key : A → K) (l : list A) : list (K * list A) :=
  foldl (λ gs x, addToGroup (key x) x gs) [] l.

End Group.

(** ** The order of BSON values *)

Section Bson.
Context {num : Type} `{!Number num}.

Definition bsonRank (v : option (Value num)) : nat :=
  match v with
  | None | Some VNull => 0
  | Some (VNum _) => 1
  | Some (VStr _) => 2
  | Some (VObj _) => 3
  | Some (VArr _) => 4
  | Some (VId _) => 5
  | Some (VBool _) => 6
  | Some (VDate _) => 7
  end%nat.

(** Strictly smaller in the sort order: by type first, then by value.
    Objects and arrays are not compared further. *)
Definition bsonLt (a b : option (Value num)) : bool :=
  if (bsonRank a <? bsonRank b)%nat then true
  else if (bsonRank b <? bsonRank a)%nat then false
  else match a, b with
       | Some (VNum x), Some (VNum y) => nltb x y
       | Some (VStr s), Some (VStr t) => String.ltb s t
       | Some (VId i), Some (VId j) => (i <? j)%nat
       | Some (VBool x), Some (VBool y) => negb x && y
       | Some (VDate s), Some (VDate t) => s <? t
       | _, _ => false
       end.

End Bson.

(** ** [$dateToString] *)

(** Proleptic Gregorian date of a time value, in UTC. *)
Definition daysOf (t : Date) : Z := t / 86400000.

Definition civil (t : Date) : Z * Z * Z :=
  let z := daysOf t + 719468 in
  let era := z / 146097 in
  let doe := z - era * 146097 in
  let yoe := (doe - doe / 1460 + doe / 36524 - doe / 146096) / 365 in
  let doy := doe - (365 * yoe + yoe / 4 - yoe / 100) in
  let mp := (5 * doy + 2) / 153 in
  let d := doy - (153 * mp + 2) / 5 + 1 in
  let m := if mp <? 10 then mp + 3 else mp - 9 in
  (yoe + era * 400 + (if m <=? 2 then 1 else 0), m, d).

(** Days from the epoch to the first of January of year [y]. *)
Definition newYear (y : Z) : Z :=
  let y' := y - 1 in
  let era := y' / 400 in
  let yoe := y' - era * 400 in
  era * 146097 + (yoe * 365 + yoe / 4 - yoe / 100 + 306) - 719468.

(** [%U]: weeks begin on Sunday; the days before the first Sunday of the
    year are in week 0. *)
Definition weekOfYear (t : Date) : Z :=
  let '(y, _, _) := civil t in
  let yday := daysOf t - newYear y in
  let wday := (daysOf t + 4) mod 7 in
  (yday + 7 - wday) / 7.

Definition digit (n : Z) : string :=
  String (Ascii.ascii_of_nat (48 + Z.to_nat (n mod 10))) EmptyString.

Definition pad2 (n : Z) : string := digit (n / 10) +:+ digit n.
Definition pad4 (n : Z) : string := pad2 (n / 100) +:+ pad2 n.

(** The specifiers the report uses: [%Y], [%m], [%d], [%U]; every other
    character of the format is copied. *)
Fixpoint dateToString (format : string) (t : Date) : string :=
  match format with
  | String "%"%char (String c rest) =>
      let '(y, m, d) := civil t in
      (if Ascii.eqb c "Y"%char then pad4 y
       else if Ascii.eqb c "m"%char then pad2 m
       else if Ascii.eqb c "d"%char then pad2 d
       else if Ascii.eqb c "U"%char then pad2 (weekOfYear t)
       else String "%"%char (String c EmptyString)) +:+ dateToString rest t
  | String c rest => String c (dateToString rest t)
  | EmptyString => EmptyString
  end.

(** ** Queries *)

(** The external regular-expression engine: [regexTest pattern options s]
    is the verdict of [{ $regex: pattern, $options: options }] (and of a
    schema's [match] validator) on the string [s]. *)
Class Regex := regexTest : string → string → string → bool.

(** A condition on one path of a filter object. *)
Inductive Cond : Type :=
| EqId (i : ObjectId)
| EqStr (s : string)
| EqBool (b : bool)
| Matches (pattern options : string)
| Between (gte lte : option Date).

(** A filter object is the conjunction of its entries; [$or] holds a list of
    filter objects. *)
Inductive Filter : Type :=
| Field (path : string) (c : Cond)
| Or (alternatives : list (list Filter)).

Section Query.
Context {num : Type} `{!Regex}.

(** Equality with a scalar also matches an array that contains it. *)
Definition condMatch (c : Cond) (v : option (Value num)) : bool :=
  let scalar (w : Value num) : bool :=
    match c, w with
    | EqId i, VId j => bool_decide (i = j)
    | EqStr s, VStr t => String.eqb s t
    | EqBool b, VBool b' => Bool.eqb b b'
    | Matches pattern options, VStr t => regexTest pattern options t
    | Between gte lte, VDate t =>
        from_option (λ lo, lo <=? t) true gte && from_option (λ hi, t <=? hi) true lte
    | _, _ => false
    end in
  match v with
  | Some (VArr l) => existsb scalar l
  | Some w => scalar w
  | None => false
  end.

Fixpoint matches (f : Filter) (d : Doc num) : bool :=
  match f with
  | Field path c => condMatch c (d !! path)
  | Or alternatives => existsb (forallb (λ g, matches g d)) alternatives
  end.

Definition matchesAll (filter : list Filter) (d : Doc num) : bool :=
  forallb (λ f, matches f d) filter.

End Query.

(** ** Collections *)

Section Keyed.
Context {A : Type} (key : A → ObjectId).

Fixpoint findByKey (id : ObjectId) (l : list A) : option A :=
  match l with
  | [] => None
  | x :: l' => if decide (key x = id) then Some x else findByKey id l'
  end.

(** Replaces the first document of key [id]. *)
Fixpoint replaceByKey (id : ObjectId) (y : A) (l : list A) : list A :=
  match l with
  | [] => []
  | x :: l' => if decide (key x = id) then y :: l' else x :: replaceByKey id y l'
  end.

(** Removes the first document of key [id]. *)
Fixpoint deleteByKey (id : ObjectId) (l : list A) : list A :=
  match l with
  | [] => []
  | x :: l' => if decide (key x = id) then l' else x :: deleteByKey id l'
  end.

End Keyed.

(** A collection of schema-typed documents: the [_id] and the fields of each
    document, in insertion order. *)
Abbreviation Collection num := (list (ObjectId * Doc num)).

(** ** Schemas and models *)

(** What the model layer needs of a Mongoose schema. [accept path v] is the
    value stored for [v] at [path] once cast, passed through the path's
    setters and checked by its validators; [None] when the cast or a
    validator fails. [required d] lists the paths that the document [d] must
    have ([required] may be a function of the document), [defaults now] the
    values of the paths that have a default ([Date.now] among them). *)
Record Schema {num : Type} : Type := {
  paths : list string;
  required : Doc num → list string;
  defaults : Date → Doc num;
  accept : string → Value num → option (Value num)
}.
Arguments Schema : clear implicits.

Section Model.
Context {num : Type}.

(** *** Schema types *)

Definition trimmed (v : Value num) : option (Value num) :=
  match v with VStr s => Some (VStr (trim s)) | _ => None end.

Definition oneOf (allowed : list string) (v : Value num) : option (Value num) :=
  match v with
  | VStr s => if bool_decide (s ∈ allowed) then Some v else None
  | _ => None
  end.

(** A required, trimmed string of [maxlength: n]. *)
Definition name (n : nat) (v : Value num) : option (Value num) :=
  match v with
  | VStr s =>
      let s' := trim s in
      if negb (String.eqb s' "") && (utf16Length s' <=? n)%nat
      then Some (VStr s') else None
  | _ => None
  end.

Definition optional (f : Value num → option (Value num)) (v : Value num)
    : option (Value num) :=
  match v with VNull => Some VNull | _ => f v end.

(** Keys outside the schema are dropped (strict mode), the others cast and
    validated. *)
Definition castDoc (S : Schema num) (given : Doc num) : option (Doc num) :=
  let known := filter (λ kv, kv.1 ∈ paths S) given in
  if bool_decide (map_Forall (λ k v, is_Some (accept S k v)) known)
  then Some (map_imap (accept S) known)
  else None.

(** The [required] validator of a path: the value is neither [undefined]
    nor [null]. *)
Definition present (d : Doc num) (k : string) : bool :=
  match d !! k with
  | None | Some VNull => false
  | Some _ => true
  end.

(** [new Model(data)] followed by [validate()]: the document is built from
    the known keys and the defaults and must have its required paths. *)
Definition construct (S : Schema num) (now : Date) (data : Doc num)
    : option (Doc num) :=
  d ← castDoc S data;
  let d' := d ∪ defaults S now in
  if forallb (present d') (required S d') then Some d' else None.

(** [Model.create(data)]: the validated document is appended under
    [data._id] when given, a fresh id otherwise. [None] when Mongoose or the
    server throws. *)
Definition create (S : Schema num) (now : Date) (fresh : ObjectId) (data : Doc num)
    (c : Collection num) : option (ObjectId * Doc num) :=
  d' ← construct S now data;
  id ← match data !! "_id" with
       | None => Some fresh
       | Some (VId i) => Some i
       | Some _ => None
       end;
  if bool_decide (findByKey fst id c = None) then Some (id, d') else None.

(** The keys of an update object that are no update operators. *)
Definition plainKeys (update : Doc num) : Doc num :=
  filter (λ kv, String.prefix "$" kv.1 = false) update.

(** The object under [$set], if the update carries one; [None] when [$set]
    is given something that is no object, which Mongoose refuses. *)
Definition setOperator (update : Doc num) : option (Doc num) :=
  match update !! "$set" with
  | None => Some ∅
  | Some (VObj fields) => Some (list_to_map fields)
  | Some _ => None
  end.

(** An update object as Mongoose reads it: the keys that are no operators
    are moved into its [$set], over the entries of the same name that are
    there already. Of the update operators [$set] is the one modelled: the
    others ([$unset], [$inc], ...) are dropped here. *)
Definition assignments (update : Doc num) : option (Doc num) :=
  sets ← setOperator update; Some (plainKeys update ∪ sets).

(** The assignments of the update are cast and validated ([runValidators])
    and laid over the stored fields. An assignment of another id to [_id] is
    refused by the server. *)
Definition applyUpdate (S : Schema num) (id : ObjectId) (update : Doc num)
    (d : Doc num) : option (Doc num) :=
  given ← assignments update;
  u ← castDoc S given;
  match given !! "_id" with
  | None => Some (u ∪ d)
  | Some v => if bool_decide (asId (Some v) = Some id) then Some (u ∪ d) else None
  end.

(** [Model.findByIdAndUpdate(id, update, { new: true, runValidators: true })]:
    [None] when it throws, otherwise the updated document ([null] when there
    is none of that id) and the collection. *)
Definition findByIdAndUpdate (S : Schema num) (id : ObjectId) (update : Doc num)
    (c : Collection num) : option (option (Doc num) * Collection num) :=
  match findByKey fst id c with
  | None => given ← assignments update; _ ← castDoc S given; Some (None, c)
  | Some (_, d) =>
      d' ← applyUpdate S id update d;
      Some (Some d', replaceByKey fst id (id, d') c)
  end.

End Model.

End Store.
Export Store.

(* ===================================================================== *)
(** * The models *)
(* ===================================================================== *)

(** The closed set of roles. *)
Inductive Role : Type := admin | teacher | parent | staff | finance.

#[export] Instance Role_eq_dec : EqDecision Role.
Proof. solve_decision. Defined.

Module User.
(** Modelled from the spec: the User model ([models/User.js]) is not among
    the sources. An actor has an identity, a role, an active flag and, for
    parents, the set of its children; these are the fields the middleware
    and the controllers read ([req.user.id] and [req.user._id] are the
    identity of every Mongoose document).

    [userId] is what [req.user.userId] reads, which the message controller
    does and no other source: [None] is [undefined]. No source gives the
    user document such a path, so a user that [protect] has loaded has
    [None] here unless the model that is not among the sources provides
    one. *)
Record t : Type := {
  _id : ObjectId;
  role : Role;
  isActive : bool;
  children : list ObjectId;
  userId : option ObjectId
}.
End User.

(** [models/Activity.js], the paths the participant operations touch. *)
Module Activity.
Record t : Type := {
  _id : ObjectId;
  teacher : ObjectId;
  participants : list ObjectId;
  maxParticipants : Bound;
  status : string
}.

(** The validation [save()] runs on the modelled paths:
    [maxParticipants: { type: Number, min: 1 }]. *)
Definition valid (a : t) : bool := atLeast 1 (maxParticipants a).

Definition digitOf (c : ascii) : option Z :=
  let n := nat_of_ascii c in
  if ((48 <=? n) && (n <=? 57))%nat then Some (Z.of_nat (n - 48)) else None.

(** The minutes after midnight of a time that passes the [match] validator
    of [startTime] and [endTime], [/^([0-1]?[0-9]|2[0-3]):[0-5][0-9]$/];
    [None] for every other string. *)
Definition timeOfDay (time : string) : option Z :=
  match time with
  | String h (String colon (String m1 (String m2 EmptyString))) =>
      h ← digitOf h; m1 ← digitOf m1; m2 ← digitOf m2;
      if Ascii.eqb colon ":" && (m1 <=? 5)
      then Some (h * 60 + (m1 * 10 + m2)) else None
  | String h1 (String h2 (String colon (String m1 (String m2 EmptyString)))) =>
      h1 ← digitOf h1; h2 ← digitOf h2; m1 ← digitOf m1; m2 ← digitOf m2;
      if Ascii.eqb colon ":" && (h1 * 10 + h2 <=? 23) && (m1 <=? 5)
      then Some ((h1 * 10 + h2) * 60 + (m1 * 10 + m2)) else None
  | _ => None
  end.

(** [Math.floor(diffMins / 60)] and [diffMins % 60]. *)
Definition hoursOf (diffMins : Z) : Z := diffMins / 60.
Definition minutesOf (diffMins : Z) : Z := Z.rem diffMins 60.

(** The virtual [duration]: [null] without both times, otherwise the
    difference of the two times of the same day as hours and minutes. Times
    that the validator of the schema refuses are outside the model. *)
Definition duration (startTime endTime : option string) : option string :=
  match startTime, endTime with
  | Some s, Some e =>
      if String.eqb s "" || String.eqb e "" then None
      else
        start ← timeOfDay s; finish ← timeOfDay e;
        let diffMins := finish - start in
        Some (pretty (hoursOf diffMins) +:+ "h " +:+ pretty (minutesOf diffMins) +:+ "m")
  | _, _ => None
  end.
End Activity.

(** [models/Message.js]. *)
Module Message.
Record t : Type := {
  _id : ObjectId;
  sender : ObjectId;
  recipient : ObjectId;
  child : ObjectId;
  subject : string;
  content : string;
  messageType : string;
  priority : string;
  isRead : bool;
  readAt : option Date;
  parentMessage : option ObjectId
}.

(** [messageSchema.pre('save')]: [original] is the document as loaded,
    [this] the document being saved. *)
Definition preSave (now : Date) (original this : t) : t :=
  if negb (Bool.eqb (isRead this) (isRead original)) && isRead this
     && negb (bool_decide (is_Some (readAt this)))
  then {| _id := _id this; sender := sender this; recipient := recipient this;
          child := child this; subject := subject this; content := content this;
          messageType := messageType this; priority := priority this;
          isRead := isRead this; readAt := Some now;
          parentMessage := parentMessage this |}
  else this.

Definition messageTypes : list string :=
  ["general"; "incident"; "achievement"; "concern"; "reminder"; "emergency"].
Definition priorities : list string := ["low"; "medium"; "high"; "urgent"].

(** [new Message(fields)] as [save()] validates it, under the id [id]:
    [None] when a required path is missing or a cast or validator fails. A
    new message is unread. *)
Definition construct {num : Type} (id : ObjectId) (fields : Doc num) : option t :=
  sender ← asId (fields !! "sender");
  recipient ← asId (fields !! "recipient");
  child ← asId (fields !! "child");
  subject ← asStr (fields !! "subject" ≫= name 200);
  content ← asStr (fields !! "content" ≫= name 1000);
  messageType ← asStr (fields !! "messageType" ≫= oneOf messageTypes);
  priority ← asStr (fields !! "priority" ≫= oneOf priorities);
  parentMessage ← match fields !! "parentMessage" with
                  | None | Some VNull => Some None
                  | Some (VId p) => Some (Some p)
                  | Some _ => None
                  end;
  Some {| _id := id; sender := sender; recipient := recipient; child := child;
          subject := subject; content := content; messageType := messageType;
          priority := priority; isRead := false; readAt := None;
          parentMessage := parentMessage |}.
End Message.

(** [models/Child.js]. *)
Module Child.
Section Schema.
Context {num : Type} `{!Number num} `{!Regex}.

Definition phonePattern : string := "^\+?[\d\s-()]+$".
Definition emailPattern : string := "^\w+([.-]?\w+)*@\w+([.-]?\w+)*(\.\w{2,3})+$".

Definition field (fields : list (string * Value num)) (k : string) : option (Value num) :=
  snd <$> List.find (λ kv, String.eqb kv.1 k) fields.

Definition nonEmptyStr (v : option (Value num)) : bool :=
  match v with Some (VStr s) => negb (String.eqb s "") | _ => false end.

(** One entry of [emergencyContacts]. *)
Definition contactValid (v : Value num) : bool :=
  match v with
  | VObj fs =>
      nonEmptyStr (field fs "name") && nonEmptyStr (field fs "relationship")
      && match field fs "phone" with
         | Some (VStr p) => negb (String.eqb p "") && regexTest phonePattern "" p
         | _ => false
         end
      && match field fs "email" with
         | None | Some VNull => true
         | Some (VStr e) => regexTest emailPattern "" e
         | Some _ => false
         end
  | _ => false
  end.

Definition accept (path : string) (v : Value num) : option (Value num) :=
  if String.eqb path "firstName" then name 50 v
  else if String.eqb path "lastName" then name 50 v
  else if String.eqb path "dateOfBirth" then
    (match v with VDate _ => Some v | _ => None end)
  else if String.eqb path "gender" then oneOf ["male"; "female"; "other"] v
  else if String.eqb path "profileImage" then
    optional (λ v, match v with VStr _ => Some v | _ => None end) v
  else if String.eqb path "parents" then
    (match v with
     | VArr l => if forallb (λ e, bool_decide (is_Some (asId (Some e)))) l
                 then Some v else None
     | _ => None
     end)
  else if String.eqb path "emergencyContacts" then
    (match v with
     | VArr l => if forallb contactValid l then Some v else None
     | _ => None
     end)
  else if String.eqb path "medicalInfo" then
    optional (λ v, match v with VObj _ => Some v | _ => None end) v
  else if String.eqb path "enrollmentDate" then
    (match v with VDate _ => Some v | _ => None end)
  else if String.eqb path "classroom" then
    (match v with
     | VStr s => if String.eqb s "" then None else Some v
     | _ => None
     end)
  else if String.eqb path "teacher" then (match v with VId _ => Some v | _ => None end)
  else if String.eqb path "schedule" then
    optional (λ v, match v with VObj _ => Some v | _ => None end) v
  else if String.eqb path "specialNeeds" then optional trimmed v
  else if String.eqb path "dietaryRestrictions" then
    (match v with
     | VArr l => VArr <$> mapM trimmed l
     | _ => None
     end)
  else if String.eqb path "notes" then
    optional (λ v, match v with
                   | VStr s => if (utf16Length (trim s) <=? 500)%nat
                               then Some (VStr (trim s)) else None
                   | _ => None
                   end) v
  else if String.eqb path "isActive" then (match v with VBool _ => Some v | _ => None end)
  else if String.eqb path "monthlyFee" then
    (match v with VNum x => if nltb x nzero then None else Some v | _ => None end)
  else if String.eqb path "feeStatus" then oneOf ["paid"; "pending"; "overdue"] v
  else None.

(** [medicalInfo] and [schedule] are kept as objects: the casts and defaults
    of their nested paths are not modelled, nor are the [createdAt] and
    [updatedAt] stamps that [timestamps: true] lets the store maintain. *)
Definition schema : Schema num := {|
  paths := ["firstName"; "lastName"; "dateOfBirth"; "gender"; "profileImage";
            "parents"; "emergencyContacts"; "medicalInfo"; "enrollmentDate";
            "classroom"; "teacher"; "schedule"; "specialNeeds";
            "dietaryRestrictions"; "notes"; "isActive"; "monthlyFee"; "feeStatus"];
  required := λ _, ["firstName"; "lastName"; "dateOfBirth"; "gender"; "enrollmentDate";
                    "classroom"; "teacher"; "monthlyFee"];
  defaults := λ _, list_to_map [("profileImage", VStr ""); ("parents", VArr []);
                                ("emergencyContacts", VArr []);
                                ("dietaryRestrictions", VArr []);
                                ("isActive", VBool true); ("feeStatus", VStr "pending")];
  Store.accept := accept
|}.

(** [child.parents] *)
Definition parents (c : Doc num) : list ObjectId := idsOf (c !! "parents").
(** [child.teacher] *)
Definition teacherOf (c : Doc num) : option ObjectId := asId (c !! "teacher").

End Schema.

(** The virtual [age], read at the time [today]. [calendar t] is the year,
    the month and the day of the month of [t] in the time zone of the
    server ([getFullYear], [getMonth], [getDate]); [None] is [null]. *)
Definition age (calendar : Date → Z * Z * Z) (today : Date) (dateOfBirth : option Date)
    : option Z :=
  birthDate ← dateOfBirth;
  let '(todayYear, todayMonth, todayDate) := calendar today in
  let '(birthYear, birthMonth, birthDay) := calendar birthDate in
  let age := todayYear - birthYear in
  let monthDiff := todayMonth - birthMonth in
  Some (if (monthDiff <? 0) || ((monthDiff =? 0) && (todayDate <? birthDay))
        then age - 1 else age).
End Child.

(** [models/Calendar.js]: the virtual [duration] of an event. *)
Module Calendar.
Definition duration (isAllDay : bool) (startTime endTime : option string)
    : option string :=
  if isAllDay then Some "All Day" else Activity.duration startTime endTime.
End Calendar.

(** [models/Finance.js]. *)
Module Finance.
Section Schema.
Context {num : Type} `{!Number num}.

Definition categories : list string :=
  ["tuition_fees"; "registration_fees"; "late_fees"; "activity_fees"; "donations";
   "grants"; "other_income";
   "salaries"; "utilities"; "supplies"; "food"; "maintenance"; "insurance"; "rent";
   "equipment"; "training"; "other_expense"].

Definition statuses : list string := ["pending"; "completed"; "cancelled"; "refunded"].

(** The categories for which [child] and [parent] are required of an income
    transaction. *)
Definition feeCategories : list string :=
  ["tuition_fees"; "registration_fees"; "late_fees"; "activity_fees"].

(** A trimmed string of at most [n] characters. *)
Definition text (n : nat) (v : Value num) : option (Value num) :=
  match v with
  | VStr s => if (utf16Length (trim s) <=? n)%nat then Some (VStr (trim s)) else None
  | _ => None
  end.

Definition accept (path : string) (v : Value num) : option (Value num) :=
  let str := match v with VStr _ => Some v | _ => None end in
  let ref := match v with VId _ => Some v | _ => None end in
  let date := match v with VDate _ => Some v | _ => None end in
  if String.eqb path "transactionType" then oneOf ["income"; "expense"] v
  else if String.eqb path "category" then oneOf categories v
  else if String.eqb path "amount" then
    (match v with VNum x => if nltb x nzero then None else Some v | _ => None end)
  else if String.eqb path "description" then name 500 v
  else if String.eqb path "transactionDate" then date
  else if String.eqb path "paymentMethod" then
    oneOf ["cash"; "check"; "credit_card"; "debit_card"; "bank_transfer";
           "online_payment"] v
  else if bool_decide (path ∈ ["child"; "parent"; "employee"; "approvedBy"]) then
    optional (λ _, ref) v
  else if String.eqb path "vendor" then
    optional (λ v, match v with VObj _ => Some v | _ => None end) v
  else if bool_decide (path ∈ ["invoiceNumber"; "receiptNumber"]) then optional trimmed v
  else if String.eqb path "status" then oneOf statuses v
  else if String.eqb path "notes" then optional (text 1000) v
  else if String.eqb path "isRecurring" then
    (match v with VBool _ => Some v | _ => None end)
  else if String.eqb path "recurringFrequency" then
    optional (oneOf ["weekly"; "monthly"; "quarterly"; "yearly"]) v
  else if bool_decide (path ∈ ["nextDueDate"; "approvedAt"]) then optional (λ _, date) v
  else if String.eqb path "createdBy" then ref
  else None.

(** The paths that are required of the document [d]: those required of
    every transaction and those whose [required] is a function of [this]. *)
Definition required (d : Doc num) : list string :=
  ["transactionType"; "category"; "amount"; "description"; "transactionDate";
   "paymentMethod"; "createdBy"]
  ++ (if bool_decide (asStr (d !! "transactionType") = Some "income")
         && from_option (λ c, bool_decide (c ∈ feeCategories)) false
              (asStr (d !! "category"))
      then ["child"; "parent"] else [])
  ++ (if bool_decide (asStr (d !! "category") = Some "salaries") then ["employee"] else [])
  ++ (if truthy (d !! "isRecurring") then ["recurringFrequency"; "nextDueDate"] else []).

(** [vendor] is kept as an object; the [createdAt] and [updatedAt] stamps of
    [timestamps: true] are not modelled. *)
Definition schema : Schema num := {|
  paths := ["transactionType"; "category"; "amount"; "description"; "transactionDate";
            "paymentMethod"; "child"; "parent"; "vendor"; "employee"; "invoiceNumber";
            "receiptNumber"; "status"; "notes"; "isRecurring"; "recurringFrequency";
            "nextDueDate"; "createdBy"; "approvedBy"; "approvedAt"];
  Store.required := required;
  defaults := λ now, list_to_map [("transactionDate", VDate now);
                                  ("status", VStr "completed");
                                  ("isRecurring", VBool false)];
  Store.accept := accept
|}.

End Schema.
End Finance.

(* ===================================================================== *)
(** * Requests, responses and the database *)
(* ===================================================================== *)

Module Http.

(** [res.status(status).json({ message, data })]. *)
Record Response (D : Type) : Type := json {
  status : nat;
  message : string;
  data : option D
}.
Arguments json {D} status message data.
Arguments status {D} r.
Arguments message {D} r.
Arguments data {D} r.

(** What the handlers read of [req]. [validationErrors] is the result the
    route's express-validator chain has left for [validationResult(req)];
    [query] is the parsed query string. *)
Record Request {num : Type} {Q : Type} : Type := {
  user : User.t;
  params_id : ObjectId;
  params_childId : ObjectId;
  query : Q;
  body : Doc num;
  validationErrors : list string
}.
Arguments Request : clear implicits.

Definition setUser {num Q} (u : User.t) (req : Request num Q) : Request num Q :=
  {| user := u; params_id := params_id req; params_childId := params_childId req;
     query := query req; body := body req;
     validationErrors := validationErrors req |}.

End Http.
Export Http.

Record DB {num : Type} : Type := {
  Users : list User.t;
  Children : Collection num;
  Activities : list Activity.t;
  Finances : Collection num;
  Messages : list Message.t;
  nextId : ObjectId
}.
Arguments DB : clear implicits.

(** An [async] computation over the database. A [Throw] keeps the writes made
    before it: the store has no transactions. *)
Definition Async (num : Type) (A : Type) : Type := DB num → Result A * DB num.

Section Async.
Context {num : Type}.

#[export] Instance Async_ret : MRet (Async num) := λ A a db, (Ok a, db).

#[export] Instance Async_bind : MBind (Async num) := λ A B f m db,
  match m db with
  | (Ok a, db') => f a db'
  | (Throw e, db') => (Throw e, db')
  end.

Definition throw {A : Type} (e : string) : Async num A := λ db, (Throw e, db).

Definition get : Async num (DB num) := λ db, (Ok db, db).

(** [try { body } catch (error) { handler }], run to its response. *)
Definition tryCatch {A : Type} (body : Async num A) (handler : string → A)
    (db : DB num) : A * DB num :=
  match body db with
  | (Ok a, db') => (a, db')
  | (Throw error, db') => (handler error, db')
  end.

Definition setUsers (us : list User.t) (db : DB num) : DB num :=
  {| Users := us; Children := Children db; Activities := Activities db;
     Finances := Finances db; Messages := Messages db; nextId := nextId db |}.

Definition setChildren (cs : Collection num) (fresh : ObjectId) (db : DB num) : DB num :=
  {| Users := Users db; Children := cs; Activities := Activities db;
     Finances := Finances db; Messages := Messages db; nextId := fresh |}.

Definition setActivities (acts : list Activity.t) (db : DB num) : DB num :=
  {| Users := Users db; Children := Children db; Activities := acts;
     Finances := Finances db; Messages := Messages db; nextId := nextId db |}.

Definition setFinances (fs : Collection num) (db : DB num) : DB num :=
  {| Users := Users db; Children := Children db; Activities := Activities db;
     Finances := fs; Messages := Messages db; nextId := nextId db |}.

Definition setMessages (ms : list Message.t) (db : DB num) : DB num :=
  {| Users := Users db; Children := Children db; Activities := Activities db;
     Finances := Finances db; Messages := ms; nextId := nextId db |}.

(** The ObjectId the next new document gets. *)
Definition setNextId (fresh : ObjectId) (db : DB num) : DB num :=
  {| Users := Users db; Children := Children db; Activities := Activities db;
     Finances := Finances db; Messages := Messages db; nextId := fresh |}.

(** [Model.findById(id)] on a value of the request: [undefined] and [null]
    find nothing, a value that is no ObjectId fails the cast (an object,
    which the store would read as a query selector, is counted among
    these). *)
Definition findRef {A : Type} (find : ObjectId → DB num → option A)
    (id : option (Value num)) : Async num (option A) :=
  λ db,
    match id with
    | None | Some VNull => (Ok None, db)
    | Some (VId i) => (Ok (find i db), db)
    | Some _ => (Throw "CastError", db)
    end.

End Async.

(* ===================================================================== *)
(** * middleware/auth.js *)
(* ===================================================================== *)

Module Auth.

(** The [Authorization] header as [jwt.verify] reads it: absent, refused, or
    a token that decodes to a user id. *)
Inductive Authorization : Type :=
| NoToken
| BadToken
| Bearer (id : ObjectId).

Section Middleware.
Context {num : Type}.

(** [protect]: the response that ends the request, or the user handed to the
    next handler as [req.user]. *)
Definition protect {D : Type} (auth : Authorization) (db : DB num)
    : Response D + User.t :=
  match auth with
  | NoToken => inl (json 401 "Not authorized, no token" None)
  | BadToken => inl (json 401 "Not authorized, token failed" None)
  | Bearer id =>
      match findByKey User._id id (Users db) with
      | None => inl (json 401 "User not found" None)
      | Some u =>
          if negb (User.isActive u) then inl (json 401 "Account is deactivated" None)
          else inr u
      end
  end.

(** The role gates: [None] is [next()]. *)
Definition adminOnly {D : Type} (u : User.t) : option (Response D) :=
  if bool_decide (User.role u ≠ admin)
  then Some (json 403 "Admin access required" None) else None.

Definition teacherOrAdmin {D : Type} (u : User.t) : option (Response D) :=
  if negb (bool_decide (User.role u ∈ [teacher; admin]))
  then Some (json 403 "Teacher or Admin access required" None) else None.

Definition financeAccess {D : Type} (u : User.t) : option (Response D) :=
  if negb (bool_decide (User.role u ∈ [finance; admin]))
  then Some (json 403 "Finance Manager or Admin access required" None) else None.

Definition roleName (r : Role) : string :=
  match r with
  | admin => "admin" | teacher => "teacher" | parent => "parent"
  | staff => "staff" | finance => "finance"
  end.

(** [authorize(...roles)] *)
Definition authorize {D : Type} (roles : list Role) (u : User.t) : option (Response D) :=
  if negb (bool_decide (User.role u ∈ roles))
  then Some (json 403 ("User role '" +:+ roleName (User.role u)
                       +:+ "' is not authorized to access this route") None)
  else None.

(** [parentAccess]; [childId] is [req.params.childId || req.params.id]. *)
Definition parentAccess {D : Type} (childId : option ObjectId) (u : User.t)
    : option (Response D) :=
  if bool_decide (User.role u = admin) then None
  else if bool_decide (User.role u = parent)
          && from_option (λ c, negb (bool_decide (c ∈ User.children u))) false childId
  then Some (json 403 "Access denied: You can only access your own children's data" None)
  else None.

(** [ownerOrAdmin]; [resourceUserId] is [req.params.userId || req.body.userId]. *)
Definition ownerOrAdmin {D : Type} (resourceUserId : option ObjectId) (u : User.t)
    : option (Response D) :=
  if bool_decide (User.role u = admin) || bool_decide (resourceUserId = Some (User._id u))
  then None
  else Some (json 403 "Access denied: You can only access your own resources" None).

(** [router.METHOD(path, protect, gate..., validators, handler)]. *)
Definition route {D Q : Type} (gates : list (User.t → option (Response D)))
    (handler : Request num Q → DB num → Response D * DB num)
    (auth : Authorization) (req : Request num Q) (db : DB num)
    : Response D * DB num :=
  match protect auth db with
  | inl denied => (denied, db)
  | inr u =>
      match omap (λ gate, gate u) gates with
      | denied :: _ => (denied, db)
      | [] => handler (setUser u req) db
      end
  end.

End Middleware.
End Auth.

(* ===================================================================== *)
(** * controllers/childController.js *)
(* ===================================================================== *)

Module ChildController.

(** [req.query] of [GET /api/children]: [page] and [limit] are the results
    of [parseInt] ([None] for [NaN]), the others the raw strings. *)
Record Query : Type := {
  page : option Z;
  limit : option Z;
  classroom : option string;
  isActive : option string;
  search : option string
}.

Record Page {num : Type} : Type := {
  count : nat;
  total : nat;
  currentPage : Z;
  pages : Z;
  items : Collection num
}.
Arguments Page : clear implicits.

Section Controller.
Context {num : Type} `{!Number num} `{!Regex}.

(** [parseInt(x) || dflt] *)
Definition parsedOr (x : option Z) (dflt : Z) : Z :=
  match x with
  | Some n => if n =? 0 then dflt else n
  | None => dflt
  end.

(** The filter object [getChildren] builds. *)
Definition childrenFilter (u : User.t) (q : Query) : list Filter :=
  (match User.role u with
   | parent => [Field "parents" (EqId (User._id u))]
   | teacher => [Field "teacher" (EqId (User._id u))]
   | _ => []
   end)
  ++ (match classroom q with
      | Some c => if String.eqb c "" then [] else [Field "classroom" (EqStr c)]
      | None => []
      end)
  ++ (match isActive q with
      | Some a => [Field "isActive" (EqBool (String.eqb a "true"))]
      | None => []
      end)
  ++ (match search q with
      | Some s => if String.eqb s "" then []
                  else [Or [[Field "firstName" (Matches s "i")];
                            [Field "lastName" (Matches s "i")]]]
      | None => []
      end).

(** [Child.find(filter)] *)
Definition Child_find (filter : list Filter) (db : DB num) : Collection num :=
  List.filter (λ c, matchesAll filter c.2) (Children db).

(** [Child.findById(id)]; [populate] only decorates the references of the
    document that is sent and is not modelled. *)
Definition Child_findById (id : ObjectId) : Async num (option (ObjectId * Doc num)) :=
  λ db, (Ok (findByKey fst id (Children db)), db).

Definition getChildren (req : Request num Query)
    : DB num → Response (Page num) * DB num :=
  tryCatch
    (let page := parsedOr (page (query req)) 1 in
     let limit := parsedOr (limit (query req)) 10 in
     let skip := (page - 1) * limit in
     let filter := childrenFilter (user req) (query req) in
     db ← get;
     let found := sortBy (λ a b, bsonLt (a.2 !! "firstName") (b.2 !! "firstName"))
                         (Child_find filter db) in
     match skipLimit skip limit found with
     | Throw e => throw e
     | Ok children =>
         let total := length (Child_find filter db) in
         mret (json 200 ""
                 (Some {| count := length children; total := total;
                          currentPage := page;
                          pages := ceilDiv (Z.of_nat total) limit;
                          items := children |}))
     end)
    (λ _, json 500 "Server error" None).

(** [Child.create(childData)] *)
Definition Child_create (now : Date) (childData : Doc num)
    : Async num (ObjectId * Doc num) :=
  λ db,
    match create Child.schema now (nextId db) childData (Children db) with
    | Some child => (Ok child, setChildren (Children db ++ [child]) (S (nextId db)) db)
    | None => (Throw "ValidationError", db)
    end.

(** [$addToSet] *)
Definition addToSet (x : ObjectId) (l : list ObjectId) : list ObjectId :=
  if bool_decide (x ∈ l) then l else l ++ [x].

(** [User.updateMany({ _id: { $in: ids } }, { $addToSet: { children: child } })] *)
Definition User_addChild (ids : list ObjectId) (child : ObjectId) : Async num unit :=
  λ db,
    (Ok tt,
     setUsers
       (map (λ u, if bool_decide (User._id u ∈ ids)
                  then {| User._id := User._id u; User.role := User.role u;
                          User.isActive := User.isActive u;
                          User.children := addToSet child (User.children u);
                          User.userId := User.userId u |}
                  else u)
            (Users db))
       db).

Definition createChild (now : Date) (req : Request num unit)
    : DB num → Response (ObjectId * Doc num) * DB num :=
  tryCatch
    (if negb (bool_decide (validationErrors req = []))
     then mret (json 400 "Validation failed" None)
     else
       let childData :=
         <["enrollmentDate" := orElse (body req !! "enrollmentDate") (VDate now)]>
           (body req) in
       child ← Child_create now childData;
       (if (0 <? length (Child.parents child.2))%nat
        then User_addChild (Child.parents child.2) child.1
        else mret tt);;
       populatedChild ← Child_findById child.1;
       mret (json 201 "Child created successfully" populatedChild))
    (λ _, json 500 "Server error during child creation" None).

(** The fields each role may update. *)
Definition teacherFields : list string :=
  ["classroom"; "schedule"; "notes"; "specialNeeds"; "dietaryRestrictions"].
Definition parentFields : list string :=
  ["emergencyContacts"; "medicalInfo"; "dietaryRestrictions"; "specialNeeds"].

(** [allowedFields.forEach(field => { if (req.body[field] !== undefined)
    fieldsToUpdate[field] = req.body[field] })] *)
Definition pick (allowedFields : list string) (body : Doc num) : Doc num :=
  filter (λ kv, kv.1 ∈ allowedFields) body.

Definition fieldsToUpdate (r : Role) (body : Doc num) : Doc num :=
  match r with
  | admin => body
  | teacher => pick teacherFields body
  | parent => pick parentFields body
  | _ => ∅
  end.

(** [Child.findByIdAndUpdate(id, fields, { new: true, runValidators: true })] *)
Definition Child_findByIdAndUpdate (id : ObjectId) (fields : Doc num)
    : Async num (option (ObjectId * Doc num)) :=
  λ db,
    match findByIdAndUpdate Child.schema id fields (Children db) with
    | Some (updated, cs) => (Ok (pair id <$> updated), setChildren cs (nextId db) db)
    | None => (Throw "ValidationError", db)
    end.

Definition updateChild (req : Request num unit)
    : DB num → Response (ObjectId * Doc num) * DB num :=
  tryCatch
    (found ← Child_findById (params_id req);
     match found with
     | None => mret (json 404 "Child not found" None)
     | Some child =>
         if bool_decide (User.role (user req) = parent)
            && negb (bool_decide (User._id (user req) ∈ Child.parents child.2))
         then mret (json 403 "Access denied: You can only update your own children" None)
         else
           notOwnClass ←
             (if bool_decide (User.role (user req) = teacher)
              then match Child.teacherOf child.2 with
                   | Some t => mret (negb (bool_decide (t = User._id (user req))))
                   | None => throw "TypeError"
                   end
              else mret false);
           if notOwnClass : bool
           then mret (json 403 "Access denied: You can only update children in your class"
                        None)
           else
             updatedChild ←
               Child_findByIdAndUpdate (params_id req)
                 (fieldsToUpdate (User.role (user req)) (body req));
             mret (json 200 "Child updated successfully" updatedChild)
     end)
    (λ _, json 500 "Server error during child update" None).

(** [.populate(path)] on an array of user references: the users that
    exist, in the order of the references. *)
Definition populated (ids : list ObjectId) (db : DB num) : list User.t :=
  omap (λ i, findByKey User._id i (Users db)) ids.

Definition getChild (req : Request num unit)
    : DB num → Response (ObjectId * Doc num) * DB num :=
  tryCatch
    (db ← get;
     match findByKey fst (params_id req) (Children db) with
     | None => mret (json 404 "Child not found" None)
     | Some child =>
         if bool_decide (User.role (user req) = parent)
            && negb (existsb (λ p, bool_decide (User._id p = User._id (user req)))
                       (populated (Child.parents child.2) db))
         then mret (json 403 "Access denied: You can only view your own children" None)
         else
           notOwnClass ←
             (if bool_decide (User.role (user req) = teacher)
              then (* [child.teacher] is populated: [null] when the user is gone *)
                   match Child.teacherOf child.2
                         ≫= λ t, findByKey User._id t (Users db) with
                   | Some t => mret (negb (bool_decide (User._id t = User._id (user req))))
                   | None => throw "TypeError"
                   end
              else mret false);
           if notOwnClass : bool
           then mret (json 403 "Access denied: You can only view children in your class"
                        None)
           else mret (json 200 "" (Some child))
     end)
    (λ _, json 500 "Server error" None).

(** [$pull] *)
Definition pull (x : ObjectId) (l : list ObjectId) : list ObjectId :=
  filter (λ y, y ≠ x) l.

(** [User.updateMany({ _id: { $in: ids } }, { $pull: { children: child } })] *)
Definition User_pullChild (ids : list ObjectId) (child : ObjectId) : Async num unit :=
  λ db,
    (Ok tt,
     setUsers
       (map (λ u, if bool_decide (User._id u ∈ ids)
                  then {| User._id := User._id u; User.role := User.role u;
                          User.isActive := User.isActive u;
                          User.children := pull child (User.children u);
                          User.userId := User.userId u |}
                  else u)
            (Users db))
       db).

(** [Child.findByIdAndDelete(id)] *)
Definition Child_findByIdAndDelete (id : ObjectId) : Async num unit :=
  λ db, (Ok tt, setChildren (deleteByKey fst id (Children db)) (nextId db) db).

Definition deleteChild (req : Request num unit) : DB num → Response unit * DB num :=
  tryCatch
    (found ← Child_findById (params_id req);
     match found with
     | None => mret (json 404 "Child not found" None)
     | Some child =>
         (if (0 <? length (Child.parents child.2))%nat
          then User_pullChild (Child.parents child.2) child.1
          else mret tt);;
         Child_findByIdAndDelete (params_id req);;
         mret (json 200 "Child deleted successfully" None)
     end)
    (λ _, json 500 "Server error during child deletion" None).

(** The filter object [getChildrenByClassroom] builds. *)
Definition classroomFilter (u : User.t) (classroom : string) : list Filter :=
  [Field "classroom" (EqStr classroom); Field "isActive" (EqBool true)]
  ++ match User.role u with
     | teacher => [Field "teacher" (EqId (User._id u))]
     | parent => [Field "parents" (EqId (User._id u))]
     | _ => []
     end.

(** [classroom] is [req.params.classroom]. *)
Definition getChildrenByClassroom (classroom : string) (req : Request num unit)
    : DB num → Response (Collection num) * DB num :=
  tryCatch
    (db ← get;
     let children :=
       sortBy (λ a b, bsonLt (a.2 !! "firstName") (b.2 !! "firstName"))
              (Child_find (classroomFilter (user req) classroom) db) in
     mret (json 200 "" (Some children)))
    (λ _, json 500 "Server error" None).

End Controller.
End ChildController.

(* ===================================================================== *)
(** * controllers/financeController.js *)
(* ===================================================================== *)

Module FinanceController.

(** [req.query] of [GET /api/finance/report]; the dates are the time values
    of [new Date(startDate)] and [new Date(endDate)], [None] when the
    parameter is absent or empty. *)
Record Query : Type := {
  startDate : option Date;
  endDate : option Date;
  groupBy : option string
}.

(** A row of [periodReport]. *)
Module PeriodRow.
Record t {num : Type} : Type := {
  period : option string;
  income : num;
  expenses : num;
  incomeCount : nat;
  expenseCount : nat;
  netIncome : num
}.
Arguments t : clear implicits.
End PeriodRow.

(** A row of [categoryBreakdown]. *)
Module CategoryRow.
Record t {num : Type} : Type := {
  category : option string;
  type : option string;
  total : num;
  count : nat
}.
Arguments t : clear implicits.
End CategoryRow.

Module Summary.
Record t {num : Type} : Type := {
  totalIncome : num;
  totalExpenses : num;
  netIncome : num
}.
Arguments t : clear implicits.
End Summary.

Record Report {num : Type} : Type := {
  periodReport : list (PeriodRow.t num);
  categoryBreakdown : list (CategoryRow.t num);
  summary : Summary.t num
}.
Arguments Report : clear implicits.

Section Controller.
Context {num : Type} `{!Number num} `{!Regex}.

Definition Finance_findById (id : ObjectId) : Async num (option (ObjectId * Doc num)) :=
  λ db, (Ok (findByKey fst id (Finances db)), db).

Definition Finance_findByIdAndUpdate (id : ObjectId) (fields : Doc num)
    : Async num (option (ObjectId * Doc num)) :=
  λ db,
    match findByIdAndUpdate Finance.schema id fields (Finances db) with
    | Some (updated, fs) => (Ok (pair id <$> updated), setFinances fs db)
    | None => (Throw "ValidationError", db)
    end.

(** [const updateFields = { ...req.body }; delete updateFields.createdBy;
    delete updateFields.approvedBy] *)
Definition updateFields (req : Request num unit) : Doc num :=
  delete "approvedBy" (delete "createdBy" (body req)).

(** [transaction.status === s] *)
Definition statusIs (s : string) (transaction : Doc num) : bool :=
  bool_decide (asStr (transaction !! "status") = Some s).

Definition updateTransaction (req : Request num unit)
    : DB num → Response (ObjectId * Doc num) * DB num :=
  tryCatch
    (if negb (bool_decide (validationErrors req = []))
     then mret (json 400 "Validation failed" None)
     else
       found ← Finance_findById (params_id req);
       match found with
       | None => mret (json 404 "Transaction not found" None)
       | Some transaction =>
           if statusIs "approved" transaction.2
              && bool_decide (User.role (user req) ≠ admin)
           then mret (json 403 "Cannot modify approved transactions" None)
           else
             updatedTransaction ←
               Finance_findByIdAndUpdate (params_id req) (updateFields req);
             mret (json 200 "Transaction updated successfully" updatedTransaction)
       end)
    (λ _, json 500 "Server error while updating transaction" None).

(** [transaction.save()] of a stored transaction: the paths of the schema
    are validated, then written over the stored fields; what was assigned to
    the document outside the schema is not saved. *)
Definition Finance_save (transaction : ObjectId * Doc num) : Async num unit :=
  λ db,
    match castDoc Finance.schema transaction.2, findByKey fst transaction.1 (Finances db) with
    | Some d, Some stored =>
        if forallb (present d) (required Finance.schema d)
        then (Ok tt, setFinances
                       (replaceByKey fst transaction.1 (transaction.1, d ∪ stored.2)
                          (Finances db)) db)
        else (Throw "ValidationError", db)
    | _, _ => (Throw "ValidationError", db)
    end.

Definition approveTransaction (now : Date) (req : Request num unit)
    : DB num → Response (ObjectId * Doc num) * DB num :=
  tryCatch
    (if negb (bool_decide (validationErrors req = []))
     then mret (json 400 "Validation failed" None)
     else
       let approved := truthy (body req !! "approved") in
       let approvalNotes := body req !! "approvalNotes" in
       found ← Finance_findById (params_id req);
       match found with
       | None => mret (json 404 "Transaction not found" None)
       | Some transaction =>
           let t1 := <["status" := VStr (if approved then "approved" else "rejected")]>
                       transaction.2 in
           let t2 := <["approvedBy" := VId (User._id (user req))]> t1 in
           let t3 := <["approvedAt" := VDate now]> t2 in
           let t4 := match approvalNotes with
                     | Some notes => if truthy approvalNotes
                                     then <["approvalNotes" := notes]> t3 else t3
                     | None => t3
                     end in
           Finance_save (transaction.1, t4);;
           populatedTransaction ← Finance_findById transaction.1;
           mret (json 200 (if approved then "Transaction approved successfully"
                           else "Transaction rejected successfully")
                   populatedTransaction)
       end)
    (λ _, json 500 "Server error while processing transaction approval" None).

(** [new Finance(data)] and [transaction.save()]. *)
Definition Finance_create (now : Date) (data : Doc num)
    : Async num (ObjectId * Doc num) :=
  λ db,
    match create Finance.schema now (nextId db) data (Finances db) with
    | Some t => (Ok t, setNextId (S (nextId db)) (setFinances (Finances db ++ [t]) db))
    | None => (Throw "ValidationError", db)
    end.

(** The object handed to [new Finance]: the keys destructured from
    [req.body], those that are [undefined] left out, and the keys the
    handler sets itself. *)
Definition newTransaction (now : Date) (req : Request num unit) : Doc num :=
  let given :=
    filter (λ kv, kv.1 ∈ ["type"; "category"; "amount"; "description"; "relatedChild";
                          "relatedParent"; "relatedEmployee"; "paymentMethod";
                          "recurringFrequency"])
           (body req) in
  <["status" := VStr "pending"]>
    (<["createdBy" := VId (User._id (user req))]>
       (<["tags" := orElse (body req !! "tags") (VArr [])]>
          (<["isRecurring" := orElse (body req !! "isRecurring") (VBool false)]>
             (<["date" := orElse (body req !! "date") (VDate now)]> given)))).

Definition createTransaction (now : Date) (req : Request num unit)
    : DB num → Response (ObjectId * Doc num) * DB num :=
  tryCatch
    (if negb (bool_decide (validationErrors req = []))
     then mret (json 400 "Validation failed" None)
     else
       let relatedChild := body req !! "relatedChild" in
       let relatedParent := body req !! "relatedParent" in
       let relatedEmployee := body req !! "relatedEmployee" in
       childMissing ←
         (if truthy relatedChild
          then child ← findRef (λ i db, findByKey fst i (Children db)) relatedChild;
               mret (negb (bool_decide (is_Some child)))
          else mret false);
       if childMissing : bool
       then mret (json 400 "Related child not found" None)
       else
         userMissing ←
           (if truthy relatedParent || truthy relatedEmployee
            then
              let userId := if truthy relatedParent then relatedParent
                            else relatedEmployee in
              user ← findRef (λ i db, findByKey User._id i (Users db)) userId;
              mret (negb (bool_decide (is_Some user)))
            else mret false);
         if userMissing : bool
         then mret (json 400 "Related user not found" None)
         else
           transaction ← Finance_create now (newTransaction now req);
           populatedTransaction ← Finance_findById transaction.1;
           mret (json 201 "Transaction created successfully" populatedTransaction))
    (λ _, json 500 "Server error while creating transaction" None).

(** [Finance.findByIdAndDelete(id)] *)
Definition Finance_findByIdAndDelete (id : ObjectId) : Async num unit :=
  λ db, (Ok tt, setFinances (deleteByKey fst id (Finances db)) db).

Definition deleteTransaction (req : Request num unit)
    : DB num → Response unit * DB num :=
  tryCatch
    (if negb (bool_decide (validationErrors req = []))
     then mret (json 400 "Validation failed" None)
     else
       found ← Finance_findById (params_id req);
       match found with
       | None => mret (json 404 "Transaction not found" None)
       | Some _ =>
           Finance_findByIdAndDelete (params_id req);;
           mret (json 200 "Transaction deleted successfully" None)
       end)
    (λ _, json 500 "Server error while deleting transaction" None).

(** *** The report *)

(** [matchStage] *)
Definition matchStage (q : Query) : list Filter :=
  Field "status" (EqStr "approved")
  :: (if bool_decide (is_Some (startDate q)) || bool_decide (is_Some (endDate q))
      then [Field "date" (Between (startDate q) (endDate q))]
      else []).

(** [dateFormat], by the [switch] on [groupBy]. *)
Definition dateFormat (q : Query) : string :=
  match groupBy q with
  | Some g =>
      if String.eqb g "day" then "%Y-%m-%d"
      else if String.eqb g "week" then "%Y-%U"
      else if String.eqb g "year" then "%Y"
      else "%Y-%m"
  | None => "%Y-%m"
  end.

(** [{ $match: matchStage }] *)
Definition matched (q : Query) (db : DB num) : list (Doc num) :=
  List.filter (matchesAll (matchStage q)) (snd <$> Finances db).

(** [{ $dateToString: { format, date: '$date' } }]: [null] for a missing or
    null date; the aggregation fails on any other value that is no date. *)
Definition periodOf (format : string) (d : Doc num) : option (option string) :=
  match d !! "date" with
  | None | Some VNull => Some None
  | Some (VDate t) => Some (Some (dateToString format t))
  | Some _ => None
  end.

(** ['$type'] and ['$category'] as grouping keys. *)
Definition typeOf (d : Doc num) : option string := asStr (d !! "type").
Definition categoryOf (d : Doc num) : option string := asStr (d !! "category").

(** [{ $sum: '$amount' }]: the values that are no numbers are skipped. The
    amounts are added in input order; the server may add doubles in another
    way, which gives the same sum for a group of one amount and for
    arithmetic without rounding. *)
Definition sumAmounts (ds : list (Doc num)) : num :=
  foldl (λ acc d, from_option (nadd acc) acc (asNum (d !! "amount"))) nzero ds.

(** [{ $sum: { $cond: [{ $eq: ['$_id.type', ty] }, x, 0] } }] over the
    groups of one period. *)
Definition sumWhere {A : Type} (ty : string) (x : A → num)
    (groups : list (option string * A)) : num :=
  foldl (λ acc g, nadd acc (if bool_decide (g.1 = Some ty) then x g.2 else nzero))
        nzero groups.

Definition countWhere {A : Type} (ty : string) (x : A → nat)
    (groups : list (option string * A)) : nat :=
  foldl (λ acc g, (acc + (if bool_decide (g.1 = Some ty) then x g.2 else 0))%nat)
        0%nat groups.

(** The first pipeline: [$match], [$group] by period and type, [$group] by
    period, [$addFields], [$sort] by period. *)
Definition periodPipeline (q : Query) (db : DB num) : option (list (PeriodRow.t num)) :=
  keyed ← mapM (λ d, p ← periodOf (dateFormat q) d; Some ((p, typeOf d), d))
               (matched q db);
  let byPeriodType :=
    (λ g, (g.1.1, (g.1.2, (sumAmounts (snd <$> g.2), length g.2))))
      <$> Store.groupBy fst keyed in
  let byPeriod := Store.groupBy fst byPeriodType in
  let rows :=
    (λ g, let groups := snd <$> g.2 in
          let income := sumWhere "income" fst groups in
          let expenses := sumWhere "expense" fst groups in
          {| PeriodRow.period := g.1;
             PeriodRow.income := income;
             PeriodRow.expenses := expenses;
             PeriodRow.incomeCount := countWhere "income" snd groups;
             PeriodRow.expenseCount := countWhere "expense" snd groups;
             PeriodRow.netIncome := nsub income expenses |})
      <$> byPeriod in
  Some (sortBy (λ a b, bsonLt (num:=num) (VStr <$> PeriodRow.period a)
                              (VStr <$> PeriodRow.period b)) rows).

(** The second pipeline: [$match], [$group] by category and type,
    [{ $sort: { total: -1 } }]. *)
Definition categoryPipeline (q : Query) (db : DB num) : list (CategoryRow.t num) :=
  let groups := Store.groupBy (λ d, (categoryOf d, typeOf d)) (matched q db) in
  let rows :=
    (λ g, {| CategoryRow.category := g.1.1; CategoryRow.type := g.1.2;
             CategoryRow.total := sumAmounts g.2;
             CategoryRow.count := length g.2 |})
      <$> groups in
  sortBy (λ a b, nltb (CategoryRow.total b) (CategoryRow.total a)) rows.

(** [report.reduce((sum, period) => sum + f(period), 0)] *)
Definition reduceSum (f : PeriodRow.t num → num) (report : list (PeriodRow.t num)) : num :=
  foldl (λ sum period, nadd sum (f period)) nzero report.

Definition getFinancialReport (req : Request num Query)
    : DB num → Response (Report num) * DB num :=
  tryCatch
    (db ← get;
     match periodPipeline (query req) db with
     | None => throw "MongoServerError"
     | Some report =>
         mret (json 200 ""
                 (Some {| periodReport := report;
                          categoryBreakdown := categoryPipeline (query req) db;
                          summary :=
                            {| Summary.totalIncome := reduceSum PeriodRow.income report;
                               Summary.totalExpenses := reduceSum PeriodRow.expenses report;
                               Summary.netIncome := reduceSum PeriodRow.netIncome report |}
                       |}))
     end)
    (λ _, json 500 "Server error while generating financial report" None).

End Controller.
End FinanceController.

(* ===================================================================== *)
(** * controllers/activityController.js *)
(* ===================================================================== *)

Module ActivityController.
Section Controller.
Context {num : Type} `{!Number num}.

Definition setParticipants (ps : list ObjectId) (a : Activity.t) : Activity.t :=
  {| Activity._id := Activity._id a; Activity.teacher := Activity.teacher a;
     Activity.participants := ps;
     Activity.maxParticipants := Activity.maxParticipants a;
     Activity.status := Activity.status a |}.

(** [activity.save()] *)
Definition Activity_save (a : Activity.t) : Async num unit :=
  λ db,
    if Activity.valid a
    then (Ok tt, setActivities (replaceByKey Activity._id (Activity._id a) a (Activities db)) db)
    else (Throw "ValidationError", db).

(** [Child.findById(childId)]: [undefined] finds nothing; a value that is no
    ObjectId fails the cast. *)
Definition Child_findById (childId : option (Value num)) : Async num (option (Doc num)) :=
  λ db,
    match childId with
    | None => (Ok None, db)
    | Some (VId c) => (Ok (snd <$> findByKey fst c (Children db)), db)
    | Some _ => (Throw "CastError", db)
    end.

Definition addParticipant (req : Request num unit)
    : DB num → Response Activity.t * DB num :=
  tryCatch
    (db ← get;
     match findByKey Activity._id (params_id req) (Activities db) with
     | None => mret (json 404 "Activity not found" None)
     | Some activity =>
         let childId := body req !! "childId" in
         child ← Child_findById childId;
         if negb (bool_decide (is_Some child))
            || negb (truthy (child ≫= λ c, c !! "isActive"))
         then mret (json 404 "Child not found or inactive" None)
         else if bool_decide (asId childId ∈ Some <$> Activity.participants activity)
         then mret (json 400 "Child is already participating in this activity" None)
         else if reaches (length (Activity.participants activity))
                         (Activity.maxParticipants activity)
         then mret (json 400 "Activity has reached maximum participants" None)
         else
           let activity' :=
             setParticipants
               (Activity.participants activity ++ option_list (asId childId)) activity in
           Activity_save activity';;
           db' ← get;
           mret (json 200 "Participant added successfully"
                   (findByKey Activity._id (Activity._id activity) (Activities db')))
     end)
    (λ _, json 500 "Server error" None).

Definition removeParticipant (req : Request num unit)
    : DB num → Response unit * DB num :=
  tryCatch
    (db ← get;
     match findByKey Activity._id (params_id req) (Activities db) with
     | None => mret (json 404 "Activity not found" None)
     | Some activity =>
         let childId := params_childId req in
         if negb (bool_decide (childId ∈ Activity.participants activity))
         then mret (json 400 "Child is not participating in this activity" None)
         else
           Activity_save
             (setParticipants
                (filter (λ participant, participant ≠ childId)
                        (Activity.participants activity))
                activity);;
           mret (json 200 "Participant removed successfully" None)
     end)
    (λ _, json 500 "Server error" None).

(** [Activity.findByIdAndDelete(id)] *)
Definition Activity_findByIdAndDelete (id : ObjectId) : Async num unit :=
  λ db, (Ok tt, setActivities (deleteByKey Activity._id id (Activities db)) db).

Definition deleteActivity (req : Request num unit)
    : DB num → Response unit * DB num :=
  tryCatch
    (db ← get;
     match findByKey Activity._id (params_id req) (Activities db) with
     | None => mret (json 404 "Activity not found" None)
     | Some activity =>
         if bool_decide (User.role (user req) = teacher)
            && negb (bool_decide (Activity.teacher activity = User._id (user req)))
         then mret (json 403 "Access denied: You can only delete your own activities"
                      None)
         else if String.eqb (Activity.status activity) "completed"
                 && bool_decide (User.role (user req) ≠ admin)
         then mret (json 400 "Cannot delete completed activities" None)
         else
           Activity_findByIdAndDelete (params_id req);;
           mret (json 200 "Activity deleted successfully" None)
     end)
    (λ _, json 500 "Server error during activity deletion" None).

End Controller.
End ActivityController.

(* ===================================================================== *)
(** * controllers/messageController.js *)
(* ===================================================================== *)

Module MessageController.

(** [req.query] of the listings: [page] and [limit] as the integers their
    strings denote, the filters of [getMessages] as the raw strings; [None]
    when absent. *)
Record Query : Type := {
  page : option Z;
  limit : option Z;
  type : option string;
  priority : option string;
  isRead : option string
}.

(** [totalPages] is [None] when [Math.ceil(total / limit)] is no finite
    number. *)
Record Page : Type := {
  messages : list Message.t;
  totalPages : option Z;
  currentPage : Z;
  total : nat
}.

Section Controller.
Context {num : Type}.

Definition setRead (now : Date) (m : Message.t) : Message.t :=
  {| Message._id := Message._id m; Message.sender := Message.sender m;
     Message.recipient := Message.recipient m; Message.child := Message.child m;
     Message.subject := Message.subject m; Message.content := Message.content m;
     Message.messageType := Message.messageType m;
     Message.priority := Message.priority m;
     Message.isRead := true; Message.readAt := Some now;
     Message.parentMessage := Message.parentMessage m |}.

(** [message.save()], through the [pre('save')] hook. *)
Definition Message_save (now : Date) (original this : Message.t) : Async num unit :=
  λ db,
    (Ok tt,
     setMessages
       (replaceByKey Message._id (Message._id this)
          (Message.preSave now original this) (Messages db))
       db).

Definition getMessageById (now : Date) (req : Request num unit)
    : DB num → Response Message.t * DB num :=
  tryCatch
    (db ← get;
     match findByKey Message._id (params_id req) (Messages db) with
     | None => mret (json 404 "Message not found" None)
     | Some message =>
         (* [message.recipient] is populated: [null] when the user is gone *)
         match findByKey User._id (Message.recipient message) (Users db) with
         | None => throw "TypeError"
         | Some recipient =>
             if bool_decide (User.userId (user req) = Some (User._id recipient))
                && negb (Message.isRead message)
             then
               let message' := setRead now message in
               Message_save now message message';;
               mret (json 200 "" (Some message'))
             else mret (json 200 "" (Some message))
         end
     end)
    (λ error, json 500 error None).

Definition markAsRead (now : Date) (req : Request num unit)
    : DB num → Response bool * DB num :=
  tryCatch
    (db ← get;
     match findByKey Message._id (params_id req) (Messages db) with
     | None => mret (json 404 "Message not found" None)
     | Some message =>
         if bool_decide (Some (Message.recipient message) ≠ User.userId (user req))
         then mret (json 403 "Not authorized to mark this message as read" None)
         else
           Message_save now message (setRead now message);;
           mret (json 200 "Message marked as read" (Some true))
     end)
    (λ error, json 500 error None).

(** [limit * 1], [(page - 1) * limit] and [Math.ceil(total / limit)] on the
    defaults [page = 1], [limit = 20]. *)
Definition paged (q : Query) (found : list Message.t) : Async num (Response Page) :=
  let page := default 1 (page q) in
  let limit := default 20 (limit q) in
  match skipLimit ((page - 1) * limit) limit found with
  | Throw e => throw e
  | Ok ms =>
      mret (json 200 ""
              (Some {| messages := ms;
                       totalPages := if limit =? 0 then None
                                     else Some (ceilDiv (Z.of_nat (length found)) limit);
                       currentPage := page;
                       total := length found |}))
  end.

(** [.sort({ createdAt: -1 })]: newest first, the reverse of insertion. *)
Definition newestFirst (ms : list Message.t) : list Message.t := reverse ms.

(** The query object [getMessages] builds, as the test it is on a message:
    by role, then by the filters that are given and not empty. *)
Definition messagesQuery (u : User.t) (q : Query) (m : Message.t) : bool :=
  (match User.role u with
   | parent => bool_decide (Some (Message.recipient m) = User.userId u)
   | teacher | admin => bool_decide (Some (Message.sender m) = User.userId u)
   | _ => true
   end)
  && (match type q with
      | Some t => String.eqb t "" || String.eqb (Message.messageType m) t
      | None => true
      end)
  && (match priority q with
      | Some p => String.eqb p "" || String.eqb (Message.priority m) p
      | None => true
      end)
  && (match isRead q with
      | Some r => Bool.eqb (Message.isRead m) (String.eqb r "true")
      | None => true
      end).

Definition getMessages (req : Request num Query)
    : DB num → Response Page * DB num :=
  tryCatch
    (db ← get;
     paged (query req)
       (newestFirst (List.filter (messagesQuery (user req) (query req)) (Messages db))))
    (λ error, json 500 error None).

Definition getMessagesByChild (req : Request num Query)
    : DB num → Response Page * DB num :=
  tryCatch
    (db ← get;
     paged (query req)
       (newestFirst
          (List.filter (λ m, bool_decide (Message.child m = params_childId req))
                       (Messages db))))
    (λ error, json 500 error None).

Definition getConversation (req : Request num Query)
    : DB num → Response Page * DB num :=
  tryCatch
    (db ← get;
     paged (query req)
       (newestFirst
          (List.filter
             (λ m, bool_decide (Message.child m = params_childId req)
                   && (bool_decide (Some (Message.sender m) = User.userId (user req))
                       || bool_decide (Some (Message.recipient m)
                                       = User.userId (user req))))
             (Messages db))))
    (λ error, json 500 error None).

(** [new Message(fields).save()]: the message gets the next ObjectId. *)
Definition Message_create (fields : Doc num) : Async num Message.t :=
  λ db,
    match Message.construct (nextId db) fields with
    | Some message =>
        (Ok message,
         setNextId (S (nextId db)) (setMessages (Messages db ++ [message]) db))
    | None => (Throw "ValidationError", db)
    end.

(** The keys of [source] that are not [undefined], under the same names. *)
Definition given (keys : list string) (source : Doc num) : Doc num :=
  filter (λ kv, kv.1 ∈ keys) source.

(** [a || b] where [a] may be [undefined]. *)
Definition orValue `{!Number num} (a : option (Value num)) (b : Value num) : Value num :=
  orElse a b.

(** [{ sender: req.user.userId, ...fields }]: the key is [undefined] when
    [userId] is. *)
Definition fromSender (u : User.t) (fields : Doc num) : Doc num :=
  match User.userId u with
  | Some sender => <["sender" := VId sender]> fields
  | None => delete "sender" fields
  end.

Definition sendMessage `{!Number num} (req : Request num unit)
    : DB num → Response Message.t * DB num :=
  tryCatch
    (recipientUser ←
       findRef (λ i db, findByKey User._id i (Users db)) (body req !! "recipient");
     if negb (bool_decide (is_Some recipientUser))
     then mret (json 404 "Recipient not found" None)
     else
       childData ← findRef (λ i db, findByKey fst i (Children db)) (body req !! "child");
       if negb (bool_decide (is_Some childData))
       then mret (json 404 "Child not found" None)
       else
         savedMessage ←
           Message_create
             (fromSender (user req)
                (<["messageType" := orValue (body req !! "messageType") (VStr "general")]>
                   (<["priority" := orValue (body req !! "priority") (VStr "medium")]>
                      (<["parentMessage" := orValue (body req !! "parentMessage") VNull]>
                         (given ["recipient"; "child"; "subject"; "content"]
                                (body req))))));
         mret (json 201 "" (Some savedMessage)))
    (λ error, json 500 error None).

Definition replyToMessage `{!Number num} (req : Request num unit)
    : DB num → Response Message.t * DB num :=
  tryCatch
    (db ← get;
     match findByKey Message._id (params_id req) (Messages db) with
     | None => mret (json 404 "Original message not found" None)
     | Some originalMessage =>
         let recipient :=
           if bool_decide (Some (Message.sender originalMessage) = User.userId (user req))
           then Message.recipient originalMessage
           else Message.sender originalMessage in
         savedReply ←
           Message_create
             (fromSender (user req)
                (<["recipient" := VId recipient]>
                   (<["child" := VId (Message.child originalMessage)]>
                      (<["subject" := VStr ("Re: " +:+ Message.subject originalMessage)]>
                         (<["messageType" := VStr (Message.messageType originalMessage)]>
                            (<["priority" :=
                                 orValue (body req !! "priority")
                                         (VStr (Message.priority originalMessage))]>
                               (<["parentMessage" := VId (Message._id originalMessage)]>
                                  (given ["content"] (body req)))))))));
         mret (json 201 "" (Some savedReply))
     end)
    (λ error, json 500 error None).

(** [Message.findByIdAndDelete(id)] *)
Definition Message_findByIdAndDelete (id : ObjectId) : Async num unit :=
  λ db, (Ok tt, setMessages (deleteByKey Message._id id (Messages db)) db).

Definition deleteMessage (req : Request num unit)
    : DB num → Response unit * DB num :=
  tryCatch
    (db ← get;
     match findByKey Message._id (params_id req) (Messages db) with
     | None => mret (json 404 "Message not found" None)
     | Some message =>
         if bool_decide (Some (Message.sender message) ≠ User.userId (user req))
            && bool_decide (Some (Message.recipient message) ≠ User.userId (user req))
         then mret (json 403 "Not authorized to delete this message" None)
         else
           Message_findByIdAndDelete (params_id req);;
           mret (json 200 "Message deleted successfully" None)
     end)
    (λ error, json 500 error None).

(** [Message.countDocuments({ recipient, isRead: false })]; a [recipient]
    that is [undefined] is the recipient of no message. *)
Definition unread (recipient : option ObjectId) (ms : list Message.t) : nat :=
  length (List.filter (λ m, bool_decide (Some (Message.recipient m) = recipient)
                            && negb (Message.isRead m)) ms).

Definition getUnreadCount (req : Request num unit)
    : DB num → Response nat * DB num :=
  tryCatch
    (db ← get;
     mret (json 200 "" (Some (unread (User.userId (user req)) (Messages db)))))
    (λ error, json 500 error None).

End Controller.
End MessageController.

(* ===================================================================== *)
(** * routes/*.js *)
(* ===================================================================== *)

(** The routes of the handlers above, with the gates each is mounted behind.
    [getMessagesByChild] is exported by its controller but mounted on no
    route of [routes/messages.js]. *)
Module Routes.
Section Routes.
Context {num : Type} `{!Number num} `{!Regex}.

Definition GET_children := Auth.route (num:=num) [] ChildController.getChildren.
Definition POST_children (now : Date) :=
  Auth.route (num:=num) [Auth.teacherOrAdmin] (ChildController.createChild now).
Definition PUT_children_id := Auth.route (num:=num) [] ChildController.updateChild.
Definition GET_children_id := Auth.route (num:=num) [] ChildController.getChild.
Definition DELETE_children_id :=
  Auth.route (num:=num) [Auth.adminOnly] ChildController.deleteChild.
Definition GET_children_classroom (classroom : string) :=
  Auth.route (num:=num) [] (ChildController.getChildrenByClassroom classroom).

Definition GET_finance_report :=
  Auth.route (num:=num) [Auth.financeAccess] FinanceController.getFinancialReport.
Definition PUT_finance_id :=
  Auth.route (num:=num) [Auth.financeAccess] FinanceController.updateTransaction.
Definition PUT_finance_id_approve (now : Date) :=
  Auth.route (num:=num) [Auth.adminOnly] (FinanceController.approveTransaction now).
Definition POST_finance (now : Date) :=
  Auth.route (num:=num) [Auth.financeAccess] (FinanceController.createTransaction now).
Definition DELETE_finance_id :=
  Auth.route (num:=num) [Auth.adminOnly] FinanceController.deleteTransaction.

Definition POST_activities_id_participants :=
  Auth.route (num:=num) [Auth.teacherOrAdmin] ActivityController.addParticipant.
Definition DELETE_activities_id_participants_childId :=
  Auth.route (num:=num) [Auth.teacherOrAdmin] ActivityController.removeParticipant.
Definition DELETE_activities_id :=
  Auth.route (num:=num) [Auth.adminOnly] ActivityController.deleteActivity.

Definition GET_messages := Auth.route (num:=num) [] MessageController.getMessages.
Definition GET_messages_conversation_childId :=
  Auth.route (num:=num) [] MessageController.getConversation.
Definition GET_messages_id (now : Date) :=
  Auth.route (num:=num) [] (MessageController.getMessageById now).
Definition PUT_messages_id_read (now : Date) :=
  Auth.route (num:=num) [] (MessageController.markAsRead now).
Definition GET_messages_unread_count :=
  Auth.route (num:=num) [] MessageController.getUnreadCount.
Definition POST_messages := Auth.route (num:=num) [] MessageController.sendMessage.
Definition POST_messages_id_reply :=
  Auth.route (num:=num) [] MessageController.replyToMessage.

(** [routes/progress.js]: the handler is a placeholder. *)
Definition GET_progress_child_childId (auth : Auth.Authorization)
    (req : Request num unit) : DB num → Response unit * DB num :=
  Auth.route (num:=num) [Auth.parentAccess (Some (params_childId req))]
    (λ _ db, (json 501 "Progress controller not yet implemented" None, db)) auth req.

End Routes.
End Routes.

(* ===================================================================== *)
(** * The vocabulary of the specification *)
(* ===================================================================== *)

(** The names the specification gives to what the handlers answer and to
    the field sets of its access rules, stated in its own words for
    comparison with the code. *)
Module Spec.

(** The reason tags, as the responses that carry them. *)
Definition ValidationError {D : Type} (r : Response D) : Prop := status r = 400%nat.
Definition Immutable {D : Type} : Response D :=
  json 403 "Cannot modify approved transactions" None.
Definition CapacityExceeded {D : Type} : Response D :=
  json 400 "Activity has reached maximum participants" None.
Definition DuplicateParticipant {D : Type} : Response D :=
  json 400 "Child is already participating in this activity" None.
Definition ChildNotFoundOrInactive {D : Type} : Response D :=
  json 404 "Child not found or inactive" None.

(** The fields of a child a role may update (section 4.1). *)
Definition allowedFields (r : Role) : list string :=
  match r with
  | parent => ["emergencyContacts"; "medicalInfo"; "dietaryRestrictions"; "specialNeeds"]
  | teacher => ["classroom"; "schedule"; "notes"; "specialNeeds"; "dietaryRestrictions"]
  | _ => []
  end.

(** The ownership rule of section 4.1: a parent owns the children it is a
    parent of, a teacher those of its class. *)
Definition owns {num : Type} (u : User.t) (child : Doc num) : Prop :=
  match User.role u with
  | parent => User._id u ∈ Child.parents child
  | teacher => Child.teacherOf child = Some (User._id u)
  | _ => True
  end.

(** A payload of field assignments only: none of its keys is an update
    operator. *)
Definition plainPayload {num : Type} (payload : Doc num) : Prop :=
  map_Forall (λ k _, String.prefix "$" k = false) payload.

(** A payload whose only update operator, if it has one, is [$set]: the
    update objects that [Store.assignments] reads in full. *)
Definition setOnly {num : Type} (payload : Doc num) : Prop :=
  map_Forall (λ k _, String.prefix "$" k = true → k = "$set") payload.

(** [n <= bound], the capacity invariant of 3 and 7 for a list of length
    [n]. *)
Definition within (n : nat) (bound : Bound) : Prop :=
  match bound with
  | Finite q => QArith_base.Qle (QArith_base.inject_Z (Z.of_nat n)) q
  | Infinity => True
  end.

(** A bound that is a whole number, as the capacity of an activity is meant
    to be, or no bound at all. *)
Definition whole (bound : Bound) : Prop :=
  match bound with
  | Finite q => ∃ m : Z, QArith_base.Qeq q (QArith_base.inject_Z m)
  | Infinity => True
  end.

(** The order of calendar dates: year, then month, then day. *)
Definition notAfter (a b : Z * Z * Z) : Prop :=
  a.1.1 < b.1.1
  ∨ (a.1.1 = b.1.1 ∧ (a.1.2 < b.1.2 ∨ (a.1.2 = b.1.2 ∧ a.2 ≤ b.2))).

(** A parent id resolves when it is the id of an active user of role parent. *)
Definition resolves {num : Type} (db : DB num) (id : ObjectId) : Prop :=
  ∃ u, u ∈ Users db ∧ User._id u = id ∧ User.role u = parent ∧ User.isActive u = true.



End Spec.

(* ===================================================================== *)
(** * Sample data *)
(* ===================================================================== *)

Module Sample.
Local Open Scope nat_scope.

(** The regular-expression engine on patterns without metacharacters: a
    substring search, case-insensitive under the option [i]. *)
Fixpoint includes (p s : string) : bool :=
  String.prefix p s
  || match s with
     | String _ s' => includes p s'
     | EmptyString => false
     end.

Definition lowerChar (c : ascii) : ascii :=
  let n := nat_of_ascii c in
  if (65 <=? n) && (n <=? 90) then ascii_of_nat (n + 32) else c.

Fixpoint lower (s : string) : string :=
  match s with
  | String c s' => String (lowerChar c) (lower s')
  | EmptyString => EmptyString
  end.

#[global] Instance literal : Regex := λ pattern options s,
  if includes "i" options then includes (lower pattern) (lower s) else includes pattern s.

Definition anAdmin : User.t :=
  {| User._id := 1; User.role := admin; User.isActive := true; User.children := [];
     User.userId := None |}.
Definition aTeacher : User.t :=
  {| User._id := 2; User.role := teacher; User.isActive := true; User.children := [];
     User.userId := None |}.
Definition aParent : User.t :=
  {| User._id := 3; User.role := parent; User.isActive := true; User.children := [10];
     User.userId := None |}.
Definition anotherParent : User.t :=
  {| User._id := 4; User.role := parent; User.isActive := true; User.children := [11];
     User.userId := None |}.
(** [req.user] as a caller of a handler of the message controller makes it:
    the user with its identity under [userId]. *)
Definition withUserId (u : User.t) : User.t :=
  {| User._id := User._id u; User.role := User.role u; User.isActive := User.isActive u;
     User.children := User.children u; User.userId := Some (User._id u) |}.

Definition aFinanceManager : User.t :=
  {| User._id := 5; User.role := finance; User.isActive := true; User.children := [];
     User.userId := None |}.

Section Data.
Context {num : Type} `{!Number num}.

Definition aChild (first : string) (room : string) (ps : list ObjectId) : Doc num :=
  list_to_map [("firstName", VStr first); ("lastName", VStr "Silva");
               ("dateOfBirth", VDate 1577836800000%Z); ("gender", VStr "female");
               ("parents", VArr (VId <$> ps)); ("enrollmentDate", VDate 1693526400000%Z);
               ("classroom", VStr room); ("teacher", VId 2);
               ("isActive", VBool true); ("monthlyFee", VNum nzero);
               ("feeStatus", VStr "pending")].

Definition aTransaction (ty category : string) (amount : num) (date : Date)
    (st : string) : Doc num :=
  list_to_map [("type", VStr ty); ("category", VStr category); ("amount", VNum amount);
               ("description", VStr "fees"); ("date", VDate date);
               ("createdBy", VId 5); ("status", VStr st)].

Definition db : DB num := {|
  Users := [anAdmin; aTeacher; aParent; anotherParent; aFinanceManager];
  Children := [(10, aChild "Nimal" "Sunflower" [3]);
               (11, aChild "Kamal" "Sunflower" [4])];
  Activities := [];
  Finances := [];
  Messages := [];
  nextId := 100
|}.

Definition users : list User.t :=
  [anAdmin; aTeacher; aParent; anotherParent; aFinanceManager].

Definition request {Q : Type} (u : User.t) (id : ObjectId) (q : Q) (b : Doc num)
    : Request num Q :=
  {| user := u; params_id := id; params_childId := id; query := q; body := b;
     validationErrors := [] |}.


(** Three approved transactions over two months, of amounts [a], [b] and
    [c], and a pending one. *)
Definition ledger (a b c : num) : DB num := {|
  Users := users;
  Children := [];
  Activities := [];
  Finances :=
    [(50, aTransaction "income" "tuition_fees" a 1705276800000%Z "approved");
     (51, aTransaction "expense" "supplies" b 1705708800000%Z "approved");
     (52, aTransaction "income" "donations" c 1707955200000%Z "approved");
     (53, aTransaction "income" "tuition_fees" a 1707955200000%Z "pending")];
  Messages := [];
  nextId := 100
|}.

(** An activity for two with both places taken, and a third child. *)
Definition aFullActivity : Activity.t :=
  {| Activity._id := 20; Activity.teacher := 2; Activity.participants := [10; 11];
     Activity.maxParticipants := Finite (QArith_base.inject_Z 2);
     Activity.status := "planned" |}.

(** The same activity once an update has lowered [maxParticipants] to 1. *)
Definition anOverfullActivity : Activity.t :=
  {| Activity._id := 21; Activity.teacher := 2; Activity.participants := [10; 11];
     Activity.maxParticipants := Finite (QArith_base.inject_Z 1);
     Activity.status := "planned" |}.

(** The same activity once an update has set [maxParticipants] to 2.5. *)
Definition aFractionalActivity : Activity.t :=
  {| Activity._id := 23; Activity.teacher := 2; Activity.participants := [10; 11];
     Activity.maxParticipants := Finite (QArith_base.Qmake 5 2);
     Activity.status := "planned" |}.

Definition aRoomyActivity : Activity.t :=
  {| Activity._id := 22; Activity.teacher := 2; Activity.participants := [10];
     Activity.maxParticipants := Finite (QArith_base.inject_Z 2);
     Activity.status := "planned" |}.

(** A note of the teacher to the first parent about that parent's child. *)
Definition aNote : Message.t :=
  {| Message._id := 30; Message.sender := 2; Message.recipient := 3;
     Message.child := 10; Message.subject := "Nap time";
     Message.content := "Slept well today"; Message.messageType := "general";
     Message.priority := "medium"; Message.isRead := false;
     Message.readAt := None; Message.parentMessage := None |}.

Definition school : DB num := {|
  Users := users;
  Children := [(10, aChild "Nimal" "Sunflower" [3]);
               (11, aChild "Kamal" "Sunflower" [4]);
               (12, aChild "Amal" "Sunflower" [4])];
  Activities := [aFullActivity; anOverfullActivity; aRoomyActivity; aFractionalActivity];
  Finances := [];
  Messages := [aNote];
  nextId := 100
|}.

Definition firstPage : MessageController.Query :=
  {| MessageController.page := None; MessageController.limit := None;
     MessageController.type := None; MessageController.priority := None;
     MessageController.isRead := None |}.

Definition wholeReport : FinanceController.Query :=
  {| FinanceController.startDate := None; FinanceController.endDate := None;
     FinanceController.groupBy := None |}.

End Data.

End Sample.

(* ===================================================================== *)
(** * The ways a handler ends *)
(* ===================================================================== *)

Section Runs.
Context {num : Type} `{!Number num} `{!Regex}.
Import FinanceController.

(** The five ways [updateTransaction] ends. *)
Inductive updateTransaction_run (req : Request num unit) (db : DB num)
    : Response (ObjectId * Doc num) * DB num → Prop :=
| run_invalid :
    validationErrors req ≠ [] →
    updateTransaction_run req db (json 400 "Validation failed" None, db)
| run_missing :
    validationErrors req = [] →
    findByKey fst (params_id req) (Finances db) = None →
    updateTransaction_run req db (json 404 "Transaction not found" None, db)
| run_locked t :
    validationErrors req = [] →
    findByKey fst (params_id req) (Finances db) = Some t →
    asStr (t.2 !! "status") = Some "approved" →
    User.role (user req) ≠ admin →
    updateTransaction_run req db (Spec.Immutable, db)
| run_refused t :
    validationErrors req = [] →
    findByKey fst (params_id req) (Finances db) = Some t →
    ¬ (asStr (t.2 !! "status") = Some "approved" ∧ User.role (user req) ≠ admin) →
    applyUpdate Finance.schema (params_id req) (updateFields req) t.2 = None →
    updateTransaction_run req db
      (json 500 "Server error while updating transaction" None, db)
| run_updated t d' :
    validationErrors req = [] →
    findByKey fst (params_id req) (Finances db) = Some t →
    ¬ (asStr (t.2 !! "status") = Some "approved" ∧ User.role (user req) ≠ admin) →
    applyUpdate Finance.schema (params_id req) (updateFields req) t.2 = Some d' →
    updateTransaction_run req db
      (json 200 "Transaction updated successfully" (Some (params_id req, d')),
       setFinances (replaceByKey fst (params_id req) (params_id req, d') (Finances db)) db).

(** The handlers of the finance controller that write. *)
Inductive FinanceCall : Type :=
| CreateTransaction (now : Date)
| UpdateTransaction
| ApproveTransaction (now : Date)
| DeleteTransaction.

(** The database a call leaves behind. *)
Definition afterCall (db : DB num) (c : FinanceCall * Request num unit) : DB num :=
  match c.1 with
  | CreateTransaction now => (createTransaction now c.2 db).2
  | UpdateTransaction => (updateTransaction c.2 db).2
  | ApproveTransaction now => (approveTransaction now c.2 db).2
  | DeleteTransaction => (deleteTransaction c.2 db).2
  end.

(** The report over no transaction. *)
Definition emptyReport : Report num :=
  {| periodReport := []; categoryBreakdown := [];
     summary := {| Summary.totalIncome := nzero; Summary.totalExpenses := nzero;
                   Summary.netIncome := nzero |} |}.

End Runs.

(** Runs the monadic plumbing of a handler. *)
Ltac async :=
  unfold tryCatch, mbind, Async_bind, mret, Async_ret, get, throw in *;
  simpl in *.

(* ===================================================================== *)
(** * Facts about the store *)
(* ===================================================================== *)

Section KeyedFacts.
Context {A : Type} (key : A → ObjectId).

Lemma findByKey_Some (id : ObjectId) (l : list A) (x : A) :
  findByKey key id l = Some x → key x = id ∧ x ∈ l.
Proof.
  induction l as [|y l IH]; simpl; [done|].
  destruct (decide (key y = id)) as [Hy|Hy].
  - intros [= <-]. split; [done|]. apply list_elem_of_here.
  - intros Hx. destruct (IH Hx) as [? ?]. split; [done|]. by apply list_elem_of_further.
Qed.

Lemma findByKey_replace_eq (id : ObjectId) (y : A) (l : list A) :
  key y = id →
  findByKey key id (replaceByKey key id y l) = (λ _, y) <$> findByKey key id l.
Proof.
  intros Hy. induction l as [|x l IH]; simpl; [done|].
  destruct (decide (key x = id)) as [Hx|Hx]; simpl.
  - by rewrite decide_True.
  - by rewrite decide_False.
Qed.

Lemma findByKey_replace_ne (id id' : ObjectId) (y : A) (l : list A) :
  key y = id → id' ≠ id →
  findByKey key id' (replaceByKey key id y l) = findByKey key id' l.
Proof.
  intros Hy Hne. induction l as [|x l IH]; simpl; [done|].
  destruct (decide (key x = id)) as [Hx|Hx]; simpl.
  - rewrite !decide_False by congruence. done.
  - destruct (decide (key x = id')); [done|]. apply IH.
Qed.

Lemma replaceByKey_absent (id : ObjectId) (y : A) (l : list A) :
  findByKey key id l = None → replaceByKey key id y l = l.
Proof.
  induction l as [|x l IH]; simpl; [done|].
  destruct (decide (key x = id)); [done|]. intros H. by rewrite IH.
Qed.

Lemma length_replaceByKey (id : ObjectId) (y : A) (l : list A) :
  length (replaceByKey key id y l) = length l.
Proof.
  induction l as [|x l IH]; simpl; [done|].
  destruct (decide (key x = id)); simpl; by rewrite ?IH.
Qed.

Lemma findByKey_None (id : ObjectId) (l : list A) :
  findByKey key id l = None ↔ id ∉ key <$> l.
Proof.
  induction l as [|x l IH]; simpl.
  - split; [intros _; apply not_elem_of_nil|done].
  - rewrite not_elem_of_cons. destruct (decide (key x = id)) as [Hx|Hx].
    + split; [done|]. intros [? _]. congruence.
    + rewrite IH. split; [intros ?; split; [congruence|done]|tauto].
Qed.

Lemma findByKey_app_last (id : ObjectId) (l : list A) (x : A) :
  findByKey key id l = None → key x = id → findByKey key id (l ++ [x]) = Some x.
Proof.
  intros Hl Hx. induction l as [|y l IH]; simpl in *; [by rewrite decide_True|].
  destruct (decide (key y = id)); [done|]. by apply IH.
Qed.

Lemma elem_of_replaceByKey (id : ObjectId) (y x : A) (l : list A) :
  x ∈ replaceByKey key id y l → x = y ∨ x ∈ l.
Proof.
  induction l as [|z l IH]; simpl; [by right|].
  destruct (decide (key z = id)).
  - rewrite !elem_of_cons. tauto.
  - rewrite !elem_of_cons. intros [->|Hx]; [tauto|]. destruct (IH Hx); tauto.
Qed.

Lemma elem_of_deleteByKey (id : ObjectId) (x : A) (l : list A) :
  x ∈ deleteByKey key id l → x ∈ l.
Proof.
  induction l as [|z l IH]; simpl; [done|].
  destruct (decide (key z = id)).
  - apply list_elem_of_further.
  - rewrite !elem_of_cons. intros [->|Hx]; [tauto|]. right. by apply IH.
Qed.

Lemma findByKey_delete_ne (id id' : ObjectId) (l : list A) :
  id' ≠ id → findByKey key id' (deleteByKey key id l) = findByKey key id' l.
Proof.
  intros Hne. induction l as [|x l IH]; simpl; [done|].
  destruct (decide (key x = id)) as [Hx|Hx]; simpl.
  - by rewrite decide_False by congruence.
  - destruct (decide (key x = id')); [done|]. apply IH.
Qed.

Lemma findByKey_delete_eq (id : ObjectId) (l : list A) :
  NoDup (key <$> l) → findByKey key id (deleteByKey key id l) = None.
Proof.
  induction l as [|x l IH]; simpl; [done|].
  intros [Hx Hl]%NoDup_cons. destruct (decide (key x = id)) as [<-|Hne]; simpl.
  - by apply findByKey_None.
  - rewrite decide_False by done. by apply IH.
Qed.

Lemma deleteByKey_absent (id : ObjectId) (l : list A) :
  findByKey key id l = None → deleteByKey key id l = l.
Proof.
  induction l as [|x l IH]; simpl; [done|].
  destruct (decide (key x = id)); [done|]. intros H. by rewrite IH.
Qed.

Lemma deleteByKey_app_last (id : ObjectId) (l : list A) (x : A) :
  findByKey key id l = None → key x = id → deleteByKey key id (l ++ [x]) = l.
Proof.
  intros Hl Hx. induction l as [|y l IH]; simpl in *; [by rewrite decide_True|].
  destruct (decide (key y = id)); [done|]. by rewrite IH.
Qed.

End KeyedFacts.

Section SortFacts.
Context {A : Type} (before : A → A → bool).

Lemma insertBy_perm (x : A) (l : list A) : insertBy before x l ≡ₚ x :: l.
Proof.
  induction l as [|y l IH]; simpl; [done|].
  destruct (before y x); [|done].
  rewrite IH. apply Permutation_swap.
Qed.

Lemma sortBy_perm (l : list A) : sortBy before l ≡ₚ l.
Proof.
  induction l as [|x l IH]; simpl; [done|].
  unfold sortBy in *. simpl. rewrite insertBy_perm. by rewrite IH.
Qed.

Lemma elem_of_sortBy (x : A) (l : list A) : x ∈ sortBy before l ↔ x ∈ l.
Proof. by rewrite sortBy_perm. Qed.

Hypothesis before_asym : ∀ a b, before a b = true → before b a = false.

Lemma insertBy_sorted (x : A) (l : list A) :
  Sorted (inOrder before) l → Sorted (inOrder before) (insertBy before x l).
Proof using before_asym.
  induction l as [|y l IH]; simpl; intros Hs.
  - repeat constructor.
  - destruct (before y x) eqn:Hyx.
    + apply Sorted_inv in Hs as [Hs Hhd].
      constructor; [by apply IH|].
      destruct l as [|z l]; simpl.
      * constructor. by apply before_asym.
      * destruct (before z x); constructor.
        -- by apply HdRel_inv in Hhd.
        -- by apply before_asym.
    + constructor; [done|]. by constructor.
Qed.

Lemma sortBy_sorted (l : list A) : Sorted (inOrder before) (sortBy before l).
Proof using before_asym.
  induction l as [|x l IH]; [constructor|].
  unfold sortBy in *. simpl. by apply insertBy_sorted.
Qed.

End SortFacts.

Lemma skipLimit_subset {A : Type} (skip limit : Z) (l l' : list A) :
  skipLimit skip limit l = Ok l' → l' ⊆ l.
Proof.
  unfold skipLimit. destruct (skip <? 0); [done|].
  destruct (limit =? 0); intros [= <-].
  - apply subseteq_drop.
  - etrans; [apply subseteq_take|apply subseteq_drop].
Qed.

(* ===================================================================== *)
(** * Children: scope of the listing, field sets of the update, creation *)
(* ===================================================================== *)

Section ChildProperties.
Context {num : Type} `{!Number num} `{!Regex}.
Import ChildController.

Lemma condMatch_EqId (i : ObjectId) (v : option (Value num)) :
  condMatch (EqId i) v = true → i ∈ idsOf v.
Proof.
  destruct v as [[]|]; simpl; try done.
  - intros Hi. apply bool_decide_eq_true in Hi as <-. apply list_elem_of_here.
  - rewrite existsb_exists. intros (w & Hw & Hi).
    apply list_elem_of_omap. exists w. split; [by apply list_elem_of_In|].
    destruct w; try done. by apply bool_decide_eq_true in Hi as <-.
Qed.

Lemma childrenFilter_parent (u : User.t) (q : Query) (c : Doc num) :
  User.role u = parent →
  matchesAll (childrenFilter u q) c = true → User._id u ∈ Child.parents c.
Proof.
  intros Hrole. unfold childrenFilter, matchesAll. rewrite Hrole. simpl.
  intros [Hp _]%andb_prop. by apply condMatch_EqId.
Qed.

(** C4. Whatever filters a parent supplies, [getChildren] answers with
    stored children only, and the parent is among the parents of each. *)
Theorem getChildren_parent_scope (req : Request num Query) (db : DB num)
    (page : Page num) :
  User.role (user req) = parent →
  data (getChildren req db).1 = Some page →
  ∀ c, c ∈ items page →
       c ∈ Children db ∧ User._id (user req) ∈ Child.parents c.2.
Proof.
  intros Hrole. unfold getChildren. async.
  destruct (skipLimit _ _ _) as [children|e] eqn:Hpage; simpl; [|done].
  intros [= <-] c Hc. simpl in Hc.
  apply (skipLimit_subset _ _ _ _ Hpage), elem_of_sortBy in Hc.
  unfold Child_find in Hc. apply list_elem_of_In, filter_In in Hc as [Hc Hm].
  split; [by apply list_elem_of_In|]. by eapply childrenFilter_parent.
Qed.

End ChildProperties.

Lemma getChildren_parent_scope_witness :
  let req : Request float ChildController.Query :=
    Sample.request Sample.aParent 0
      {| ChildController.page := None; ChildController.limit := Some 5;
         ChildController.classroom := Some "Sunflower";
         ChildController.isActive := Some "true";
         ChildController.search := Some "MAL" |} ∅ in
  ∃ page, data (ChildController.getChildren req Sample.db).1 = Some page
    ∧ ChildController.items page = [(10%nat, Sample.aChild "Nimal" "Sunflower" [3%nat])]
    ∧ ∀ c, c ∈ ChildController.items page →
           c ∈ Children Sample.db ∧ 3%nat ∈ Child.parents c.2.
Proof.
  eexists. split; [vm_compute; reflexivity|]. split; [reflexivity|].
  apply (getChildren_parent_scope
           (Sample.request Sample.aParent 0
              {| ChildController.page := None; ChildController.limit := Some 5;
                 ChildController.classroom := Some "Sunflower";
                 ChildController.isActive := Some "true";
                 ChildController.search := Some "MAL" |} ∅) Sample.db);
    [reflexivity|vm_compute; reflexivity].
Defined.

Section ModelFacts.
Context {num : Type}.
Implicit Types (S : Schema num) (given update d u : Doc num).

Lemma castDoc_lookup S given u (k : string) :
  castDoc S given = Some u →
  u !! k = (if decide (k ∈ paths S) then given !! k else None) ≫= accept S k.
Proof.
  unfold castDoc. case_bool_decide; [|done]. intros [= <-].
  rewrite map_lookup_imap, map_lookup_filter. f_equal.
  destruct (given !! k) as [v|] eqn:Hk; simpl.
  - destruct (decide (k ∈ paths S)).
    + by rewrite option_guard_True.
    + by rewrite option_guard_False.
  - by destruct (decide (k ∈ paths S)).
Qed.

Lemma castDoc_accepts S given :
  (∀ k v, k ∈ paths S → given !! k = Some v → is_Some (accept S k v)) →
  is_Some (castDoc S given).
Proof.
  intros Hok. unfold castDoc. rewrite bool_decide_eq_true_2; [done|].
  apply map_Forall_lookup. intros k v [Hk Hin]%map_lookup_filter_Some. by eapply Hok.
Qed.

(** A payload of field assignments is its own list of assignments. *)
Lemma assignments_plain update :
  Spec.plainPayload update → assignments update = Some update.
Proof.
  intros Hplain. unfold assignments, setOperator.
  destruct (update !! "$set") as [v|] eqn:Hset.
  - by specialize (Hplain "$set" v Hset).
  - simpl. f_equal. rewrite (right_id_L ∅ (∪)). apply map_filter_id.
    intros k v Hk. simpl. by eapply Hplain.
Qed.

(** A known key outside the assignments keeps its stored value; an assigned
    key is stored as the schema accepts it. *)
Lemma applyUpdate_assigned S (id : ObjectId) update given d d' (k : string) :
  assignments update = Some given →
  applyUpdate S id update d = Some d' →
  d' !! k = match (if decide (k ∈ paths S) then given !! k else None) with
            | Some v => accept S k v
            | None => d !! k
            end.
Proof.
  unfold applyUpdate. intros ->. simpl.
  destruct (castDoc S given) as [u|] eqn:Hu; simpl; [|done].
  intros Hd'.
  assert (d' = u ∪ d) as ->.
  { destruct (given !! "_id"); [case_bool_decide|]; congruence. }
  rewrite lookup_union, (castDoc_lookup _ _ _ k Hu).
  destruct (if decide (k ∈ paths S) then given !! k else None) as [v|] eqn:Hv; simpl.
  - destruct (accept S k v) as [w|] eqn:Hw; [by destruct (d !! k)|].
    exfalso. revert Hu. unfold castDoc. case_bool_decide as Hall; [|done]. intros _.
    destruct (decide (k ∈ paths S)); [|done].
    rewrite map_Forall_lookup in Hall.
    destruct (Hall k v) as [? ?]; [|congruence].
    by apply map_lookup_filter_Some.
  - by destruct (d !! k).
Qed.

Lemma applyUpdate_lookup S (id : ObjectId) update d d' (k : string) :
  Spec.plainPayload update →
  applyUpdate S id update d = Some d' →
  d' !! k = match (if decide (k ∈ paths S) then update !! k else None) with
            | Some v => accept S k v
            | None => d !! k
            end.
Proof.
  intros Hplain. apply applyUpdate_assigned. by apply assignments_plain.
Qed.

Lemma applyUpdate_accepts S (id : ObjectId) update d :
  Spec.plainPayload update →
  update !! "_id" = None →
  (∀ k v, k ∈ paths S → update !! k = Some v → is_Some (accept S k v)) →
  is_Some (applyUpdate S id update d).
Proof.
  intros Hplain Hid Hok. unfold applyUpdate.
  rewrite (assignments_plain _ Hplain). simpl. rewrite Hid.
  by destruct (castDoc_accepts S update Hok) as [u ->].
Qed.

Lemma castDoc_refused S given (k : string) (v : Value num) :
  given !! k = Some v → k ∈ paths S → accept S k v = None → castDoc S given = None.
Proof.
  intros Hk Hpath Hrefused. unfold castDoc. rewrite bool_decide_eq_false_2; [done|].
  intros Hall. destruct (Hall k v) as [w Hw]; [|congruence].
  by apply map_lookup_filter_Some.
Qed.

(** A validated document has the paths that are required of it. *)
Lemma construct_required S (now : Date) data d (k : string) :
  construct S now data = Some d → k ∈ required S d → present d k = true.
Proof.
  unfold construct. destruct (castDoc S data) as [u|]; simpl; [|done].
  destruct (forallb _ _) eqn:Hall; [|done]. intros [= <-] Hk.
  rewrite forallb_forall in Hall. by apply Hall, list_elem_of_In.
Qed.

(** It has no path that neither the data nor the defaults give. *)
Lemma construct_lookup_None S (now : Date) data d (k : string) :
  construct S now data = Some d →
  data !! k = None → defaults S now !! k = None → d !! k = None.
Proof.
  unfold construct. destruct (castDoc S data) as [u|] eqn:Hu; simpl; [|done].
  destruct (forallb _ _); [|done]. intros [= <-] Hdata Hdefault.
  apply lookup_union_None. split; [|done].
  rewrite (castDoc_lookup _ _ _ k Hu), Hdata. by destruct (decide _).
Qed.

(** What an update leaves at each path. *)
Lemma applyUpdate_stored S (id : ObjectId) update d d' :
  applyUpdate S id update d = Some d' →
  ∃ given, assignments update = Some given
    ∧ ∀ k : string,
        d' !! k = match (if decide (k ∈ paths S) then given !! k else None) with
                  | Some v => accept S k v
                  | None => d !! k
                  end.
Proof.
  intros Happly. destruct (assignments update) as [given|] eqn:Hgiven.
  - exists given. split; [done|]. intros k. by eapply applyUpdate_assigned.
  - unfold applyUpdate in Happly. by rewrite Hgiven in Happly.
Qed.

(** An assignment that the schema refuses makes the whole update fail. *)
Lemma applyUpdate_refused S (id : ObjectId) update d (k : string) (v : Value num) :
  update !! k = Some v →
  String.prefix "$" k = false →
  k ∈ paths S →
  accept S k v = None →
  applyUpdate S id update d = None.
Proof.
  intros Hk Hplain Hpath Hrefused. unfold applyUpdate, assignments.
  destruct (setOperator update) as [sets|]; simpl; [|done].
  assert (castDoc S (plainKeys update ∪ sets) = None) as ->; [|done].
  unfold castDoc. rewrite bool_decide_eq_false_2; [done|].
  intros Hall. destruct (Hall k v) as [w Hw]; [|congruence].
  apply map_lookup_filter_Some. split; [|done].
  apply lookup_union_Some_l. by apply map_lookup_filter_Some.
Qed.

Lemma findByIdAndUpdate_found S (id : ObjectId) update (c : Collection num)
    (e : ObjectId * Doc num) :
  findByKey fst id c = Some e →
  Spec.plainPayload update →
  update !! "_id" = None →
  (∀ k v, k ∈ paths S → update !! k = Some v → is_Some (accept S k v)) →
  ∃ d', applyUpdate S id update e.2 = Some d'
        ∧ findByIdAndUpdate S id update c
          = Some (Some d', replaceByKey fst id (id, d') c).
Proof.
  intros He Hplain Hid Hok. unfold findByIdAndUpdate. rewrite He.
  destruct e as [i d]. simpl.
  destruct (applyUpdate_accepts S id update d Hplain Hid Hok) as [d' Hd'].
  rewrite Hd'. by eexists.
Qed.

(** Whatever [findByIdAndUpdate] does, the documents keep their ids. *)
Lemma findByIdAndUpdate_result S (id : ObjectId) update (c c' : Collection num)
    (r : option (Doc num)) :
  findByIdAndUpdate S id update c = Some (r, c') →
  match findByKey fst id c with
  | Some e => ∃ d', applyUpdate S id update e.2 = Some d' ∧ r = Some d'
                    ∧ c' = replaceByKey fst id (id, d') c
  | None => r = None ∧ c' = c
  end.
Proof.
  unfold findByIdAndUpdate. destruct (findByKey fst id c) as [[i d]|]; simpl.
  - destruct (applyUpdate S id update d) as [d'|]; simpl; [|done].
    intros [= <- <-]. by eexists.
  - destruct (assignments update) as [given|]; simpl; [|done].
    destruct (castDoc S given); simpl; [|done]. by intros [= <- <-].
Qed.

End ModelFacts.

Section ChildUpdate.
Context {num : Type} `{!Number num} `{!Regex}.
Import ChildController.

Lemma fieldsToUpdate_lookup (r : Role) (body : Doc num) (k : string) :
  r = parent ∨ r = teacher →
  fieldsToUpdate r body !! k
  = if decide (k ∈ Spec.allowedFields r) then body !! k else None.
Proof.
  intros [-> | ->]; simpl; unfold pick; rewrite map_lookup_filter;
    destruct (body !! k) as [v|]; simpl.
  all: try by destruct (decide _).
  all: destruct (decide (k ∈ _)) as [Hk|Hk];
    [by rewrite option_guard_True|by rewrite option_guard_False].
Qed.

Lemma allowedFields_paths (r : Role) (k : string) :
  k ∈ Spec.allowedFields r → k ∈ paths (Child.schema (num:=num)).
Proof.
  destruct r; simpl; set_solver.
Qed.

(** The fields picked for a parent or a teacher carry no update operator. *)
Lemma fieldsToUpdate_plain (r : Role) (body : Doc num) :
  r = parent ∨ r = teacher → Spec.plainPayload (fieldsToUpdate r body).
Proof.
  intros Hr k v Hk. rewrite fieldsToUpdate_lookup in Hk by done.
  destruct (decide (k ∈ Spec.allowedFields r)) as [Hin|]; [|done].
  clear Hk. destruct Hr as [-> | ->]; simpl in Hin;
    repeat (apply elem_of_cons in Hin as [-> | Hin]; [reflexivity|]);
    by apply elem_of_nil in Hin.
Qed.

(** C8. A parent's or teacher's update of a child it owns succeeds whenever
    the store accepts the values of the allowed fields; it stores exactly
    those fields of the payload, and every other field of the child, requested
    or not, keeps its stored value. Nothing else in the database changes. *)
Theorem updateChild_applies_allowed_fields_only (req : Request num unit)
    (db : DB num) (child : ObjectId * Doc num) :
  User.role (user req) = parent ∨ User.role (user req) = teacher →
  findByKey fst (params_id req) (Children db) = Some child →
  Spec.owns (user req) child.2 →
  (∀ k v, k ∈ Spec.allowedFields (User.role (user req)) →
          body req !! k = Some v → is_Some (Child.accept k v)) →
  ∃ child' : Doc num,
    updateChild req db
    = (json 200 "Child updated successfully" (Some (params_id req, child')),
       setChildren (replaceByKey fst (params_id req) (params_id req, child') (Children db))
                   (nextId db) db)
    ∧ (∀ k, k ∉ Spec.allowedFields (User.role (user req)) →
            child' !! k = child.2 !! k)
    ∧ (∀ k, k ∈ Spec.allowedFields (User.role (user req)) →
            child' !! k = match body req !! k with
                          | Some v => Child.accept k v
                          | None => child.2 !! k
                          end).
Proof.
  intros Hrole Hfound Howns Hok.
  set (r := User.role (user req)) in *.
  destruct (findByIdAndUpdate_found Child.schema (params_id req)
              (fieldsToUpdate r (body req)) (Children db) child Hfound)
    as (child' & Happly & Hupdate).
  { by apply fieldsToUpdate_plain. }
  { rewrite fieldsToUpdate_lookup by done.
    destruct (decide (_ ∈ _)) as [Hin|]; [|done].
    exfalso. clear -Hrole Hin. destruct Hrole as [-> | ->]; set_solver. }
  { intros k v _. rewrite fieldsToUpdate_lookup by done.
    destruct (decide (k ∈ Spec.allowedFields r)); [|done]. by apply Hok. }
  exists child'. split; [|split].
  - unfold updateChild, Child_findById, Child_findByIdAndUpdate. async.
    rewrite Hfound. simpl. fold r.
    unfold Spec.owns in Howns. fold r in Howns.
    destruct Hrole as [Hr | Hr]; rewrite Hr in *; simpl in *.
    + rewrite (bool_decide_eq_true_2 _ Howns). simpl. by rewrite Hupdate.
    + rewrite Howns. simpl. rewrite bool_decide_eq_true_2 by done. simpl.
      by rewrite Hupdate.
  - intros k Hk.
    rewrite (applyUpdate_lookup _ _ _ _ _ k (fieldsToUpdate_plain r _ Hrole) Happly).
    rewrite fieldsToUpdate_lookup by done.
    destruct (decide (k ∈ paths _)); [|done]. by rewrite decide_False.
  - intros k Hk.
    rewrite (applyUpdate_lookup _ _ _ _ _ k (fieldsToUpdate_plain r _ Hrole) Happly).
    rewrite fieldsToUpdate_lookup by done.
    rewrite decide_True by by eapply allowedFields_paths.
    by rewrite decide_True.
Qed.

End ChildUpdate.

Lemma updateChild_applies_allowed_fields_only_witness :
  let payload : Doc float :=
    list_to_map [("firstName", VStr "Renamed"); ("monthlyFee", VStr "free");
                 ("specialNeeds", VStr " nut allergy ")] in
  let req := Sample.request Sample.aParent 10 tt payload in
  ∃ child' : Doc float,
    (ChildController.updateChild req Sample.db).1
    = json 200 "Child updated successfully" (Some (10%nat, child'))
    ∧ child' !! "firstName" = Some (VStr "Nimal")
    ∧ child' !! "monthlyFee" = Some (VNum 0%float)
    ∧ child' !! "specialNeeds" = Some (VStr "nut allergy").
Proof.
  cbv zeta.
  destruct (updateChild_applies_allowed_fields_only
              (Sample.request Sample.aParent 10 tt
                 (list_to_map [("firstName", VStr "Renamed"); ("monthlyFee", VStr "free");
                               ("specialNeeds", VStr " nut allergy ")] : Doc float))
              Sample.db
              (10%nat, Sample.aChild "Nimal" "Sunflower" [3%nat]))
    as (child' & Hrun & Hkept & Hset).
  - by left.
  - reflexivity.
  - apply list_elem_of_here.
  - intros k v Hk. simpl in Hk.
    repeat (apply elem_of_cons in Hk as [-> | Hk];
            [intros Hv; vm_compute in Hv; try discriminate;
             injection Hv as <-; vm_compute; by eexists|]).
    by apply elem_of_nil in Hk.
  - exists child'. rewrite Hrun. split; [done|]. split; [|split].
    + rewrite Hkept; [vm_compute; reflexivity|compute_done].
    + rewrite Hkept; [vm_compute; reflexivity|compute_done].
    + rewrite Hset; [vm_compute; reflexivity|compute_done].
Defined.

Section ChildCreate.
Context {num : Type} `{!Number num} `{!Regex}.
Import ChildController.

Lemma User_addChild_spec (ids : list ObjectId) (child : ObjectId) (db : DB num) :
  let db' := (User_addChild ids child db).2 in
  Children db' = Children db
  ∧ User._id <$> Users db' = User._id <$> Users db
  ∧ ∀ u', u' ∈ Users db' →
          if decide (User._id u' ∈ ids) then child ∈ User.children u'
          else u' ∈ Users db.
Proof.
  simpl. split; [done|]. split.
  - rewrite <- list_fmap_compose. apply list_fmap_ext. intros _ u _. simpl.
    by case_bool_decide.
  - intros u' (u & -> & Hu)%list_elem_of_fmap.
    case_bool_decide as Hin; simpl.
    + rewrite decide_True by done. unfold addToSet.
      case_bool_decide; [done|]. apply elem_of_app. right. apply list_elem_of_here.
    + by rewrite decide_False.
Qed.

(** C1 fails on the code: [createChild] performs none of the lookups the
    claim demands of it. Its answer and the children it persists are the
    same whatever the users collection holds, so no parent id, resolved or
    not, is ever the reason of a refusal. What the claim says of the other
    cases holds: a request that is not answered 201 leaves the database as
    it was, and one that is answered 201 has appended the child and put its
    id into the child-set of every user whose id is in the child's parents
    list, the other users being as they were. *)
Theorem createChild_links_existing_parents (now : Date) (req : Request num unit)
    (db : DB num) :
  let out := createChild now req db in
  (∀ us, status (createChild now req (setUsers us db)).1 = status out.1
         ∧ Children (createChild now req (setUsers us db)).2 = Children out.2)
  ∧ (status out.1 ≠ 201%nat → out.2 = db)
  ∧ (status out.1 = 201%nat →
     ∃ child, data out.1 = Some child
       ∧ Children out.2 = Children db ++ [child]
       ∧ User._id <$> Users out.2 = User._id <$> Users db
       ∧ ∀ u', u' ∈ Users out.2 →
               if decide (User._id u' ∈ Child.parents child.2)
               then child.1 ∈ User.children u'
               else u' ∈ Users db).
Proof.
  cbv zeta. unfold createChild, Child_create, Child_findById. async.
  destruct (bool_decide (validationErrors req = [])); simpl.
  2: { split; [done|]. split; [done|]. intros [=]. }
  destruct (create Child.schema now (nextId db) _ (Children db)) as [child|] eqn:Hnew;
    simpl.
  2: { split; [done|]. split; [done|]. intros [=]. }
  assert (findByKey fst child.1 (Children db ++ [child]) = Some child) as Hfind.
  { unfold create in Hnew. apply bind_Some in Hnew as (d & _ & Hnew).
    apply bind_Some in Hnew as (id & _ & Hnew).
    case_bool_decide as Hfresh; [|done].
    injection Hnew as <-. simpl.
    clear -Hfresh. induction (Children db) as [|x l IH]; simpl in *.
    - by rewrite decide_True.
    - destruct (decide (x.1 = id)); [done|]. by apply IH. }
  destruct (0 <? length (Child.parents child.2))%nat eqn:Hlen; simpl.
  - rewrite Hfind. simpl. split; [done|]. split; [done|]. intros _.
    exists child. split; [done|]. split; [done|].
    apply (User_addChild_spec (Child.parents child.2) child.1
             (setChildren (Children db ++ [child]) (S (nextId db)) db)).
  - rewrite Hfind. simpl. split; [done|]. split; [done|]. intros _.
    exists child. split; [done|]. split; [done|]. split; [done|].
    intros u' Hu'. apply Nat.ltb_ge in Hlen.
    destruct (Child.parents child.2); [|simpl in Hlen; lia].
    by rewrite decide_False by apply not_elem_of_nil.
Qed.

End ChildCreate.

(** The failing input of C1: a child whose only parent id resolves to no
    user is answered 201, not [ValidationError], and is persisted. *)
Lemma createChild_accepts_dangling_parent :
  let req : Request float unit :=
    Sample.request Sample.aTeacher 0 tt (Sample.aChild "Sahan" "Rose" [99%nat]) in
  let out := ChildController.createChild 1700000000000 req Sample.db in
  ¬ Spec.resolves (num:=float) Sample.db 99
  ∧ ¬ Spec.ValidationError out.1
  ∧ status out.1 = 201%nat
  ∧ findByKey fst 100%nat (Children Sample.db) = None
  ∧ ∃ child, findByKey fst 100%nat (Children out.2) = Some (100%nat, child)
             ∧ Child.parents child = [99%nat].
Proof.
  cbv zeta. split; [|split; [|split; [|split]]].
  - intros (u & Hu & Hid & _). revert Hid. vm_compute in Hu.
    repeat (apply elem_of_cons in Hu as [-> | Hu]; [by vm_compute|]).
    by apply elem_of_nil in Hu.
  - by vm_compute.
  - by vm_compute.
  - reflexivity.
  - match goal with
    | |- ∃ child, ?found = _ ∧ _ => remember found as stored eqn:Hstored
    end.
    assert (Child.parents <$> (snd <$> stored) = Some [99%nat]) as Hparents
      by (rewrite Hstored; vm_compute; reflexivity).
    destruct stored as [[i child]|]; [|done].
    symmetry in Hstored. destruct (findByKey_Some _ _ _ _ Hstored) as [Hi _].
    simpl in Hi. subst i. exists child. split; [done|]. by injection Hparents.
Qed.

(* ===================================================================== *)
(** * Finance: the approval lock, the update and the report *)
(* ===================================================================== *)

Section FinanceUpdate.
Context {num : Type} `{!Number num} `{!Regex}.
Import FinanceController.

Lemma updateTransaction_runs (req : Request num unit) (db : DB num) :
  updateTransaction_run req db (updateTransaction req db).
Proof.
  unfold updateTransaction, Finance_findById, Finance_findByIdAndUpdate, statusIs. async.
  case_bool_decide as Hv; simpl; [|by constructor].
  destruct (findByKey fst (params_id req) (Finances db)) as [t|] eqn:Hfound; simpl;
    [|by constructor].
  case_bool_decide as Hst; simpl.
  - case_bool_decide as Hrole; simpl; [by econstructor|].
    unfold findByIdAndUpdate. rewrite Hfound. destruct t as [i d]. simpl.
    destruct (applyUpdate _ _ _ d) as [d'|] eqn:Hd'; simpl.
    + eapply run_updated; eauto. tauto.
    + eapply run_refused; eauto. tauto.
  - unfold findByIdAndUpdate. rewrite Hfound. destruct t as [i d]. simpl.
    destruct (applyUpdate _ _ _ d) as [d'|] eqn:Hd'; simpl.
    + eapply run_updated; eauto. tauto.
    + eapply run_refused; eauto. tauto.
Qed.

Lemma updateFields_plain (req : Request num unit) :
  Spec.plainPayload (body req) → Spec.plainPayload (updateFields req).
Proof.
  intros Hplain k v Hk. unfold updateFields in Hk.
  apply lookup_delete_Some in Hk as [_ Hk]. apply lookup_delete_Some in Hk as [_ Hk].
  by eapply Hplain.
Qed.

(** What a successful update with a payload of field assignments stores at
    each key. *)
Lemma updateFields_stored (req : Request num unit) (d d' : Doc num) (k : string) :
  Spec.plainPayload (body req) →
  applyUpdate Finance.schema (params_id req) (updateFields req) d = Some d' →
  d' !! k = match (if decide (k ∈ paths Finance.schema ∧ k ≠ "createdBy" ∧ k ≠ "approvedBy")
                   then body req !! k else None) with
            | Some v => accept Finance.schema k v
            | None => d !! k
            end.
Proof.
  intros Hplain Happly.
  rewrite (applyUpdate_lookup _ _ _ _ _ k (updateFields_plain req Hplain) Happly).
  unfold updateFields.
  destruct (decide (k = "approvedBy")) as [->|Ha].
  { rewrite lookup_delete_eq. rewrite (decide_False (P:=_ ∧ _)) by tauto.
    by destruct (decide _). }
  rewrite lookup_delete_ne by done.
  destruct (decide (k = "createdBy")) as [->|Hc].
  { rewrite lookup_delete_eq. rewrite (decide_False (P:=_ ∧ _)) by tauto.
    by destruct (decide _). }
  rewrite lookup_delete_ne by done.
  destruct (decide (k ∈ paths Finance.schema)).
  - by rewrite decide_True.
  - by rewrite decide_False by tauto.
Qed.

Lemma updateFields_accepted (req : Request num unit) (t : Doc num) :
  Spec.plainPayload (body req) →
  body req !! "_id" = None →
  (∀ k v, k ∈ paths Finance.schema → k ≠ "createdBy" → k ≠ "approvedBy" →
          body req !! k = Some v → is_Some (accept Finance.schema k v)) →
  is_Some (applyUpdate Finance.schema (params_id req) (updateFields req) t).
Proof.
  intros Hplain Hid Hok. apply applyUpdate_accepts.
  - by apply updateFields_plain.
  - unfold updateFields. by rewrite !lookup_delete_ne.
  - unfold updateFields. intros k v Hk Hv.
    apply lookup_delete_Some in Hv as [? Hv]. apply lookup_delete_Some in Hv as [? Hv].
    eauto.
Qed.

(** C3. An update of an approved transaction by an actor who is no admin
    writes nothing, and a request that has passed the validators is answered
    [Immutable]. *)
Theorem updateTransaction_approved_immutable (req : Request num unit) (db : DB num)
    (t : ObjectId * Doc num) :
  findByKey fst (params_id req) (Finances db) = Some t →
  asStr (t.2 !! "status") = Some "approved" →
  User.role (user req) ≠ admin →
  (updateTransaction req db).2 = db
  ∧ (validationErrors req = [] → (updateTransaction req db).1 = Spec.Immutable).
Proof.
  intros Hfound Happroved Hrole.
  destruct (updateTransaction_runs req db)
    as [Hv|Hv Hf|t' Hv Hf|t' Hv Hf Hopen|t' d' Hv Hf Hopen]; simpl.
  - by split.
  - congruence.
  - by split.
  - rewrite Hfound in Hf. injection Hf as <-. tauto.
  - rewrite Hfound in Hf. injection Hf as <-. tauto.
Qed.

(** The same through the route: whoever the actor, if it is no admin the
    stored transactions are untouched. *)
Lemma PUT_finance_approved_untouched (auth : Auth.Authorization)
    (req : Request num unit) (db : DB num) (t : ObjectId * Doc num) :
  findByKey fst (params_id req) (Finances db) = Some t →
  asStr (t.2 !! "status") = Some "approved" →
  (∀ u, auth = Auth.Bearer (User._id u) → u ∈ Users db → User.role u ≠ admin) →
  (Routes.PUT_finance_id auth req db).2 = db.
Proof.
  intros Hfound Happroved Hrole. unfold Routes.PUT_finance_id, Auth.route, Auth.protect.
  destruct auth as [| |id]; try done.
  destruct (findByKey User._id id (Users db)) as [u|] eqn:Hu; [|done].
  destruct (negb (User.isActive u)); [done|].
  destruct (omap _ _); [|done].
  apply findByKey_Some in Hu as [<- Hin].
  destruct (updateTransaction_runs (setUser u req) db)
    as [Hv|Hv Hf|t' Hv Hf| t' Hv Hf Hopen|t' d' Hv Hf Hopen]; simpl; try done.
  simpl in *. rewrite Hfound in Hf. injection Hf as <-.
  exfalso. apply Hopen. split; [done|]. by apply Hrole.
Qed.

(** An update whose payload is made of field assignments changes neither
    the [createdBy] nor the [approvedBy] of a stored transaction, whoever
    the actor; when it succeeds, every other known field of the payload is
    stored as the schema accepts it and the fields the payload does not name
    are kept. *)
Lemma updateTransaction_plain_payload (req : Request num unit) (db : DB num) :
  Spec.plainPayload (body req) →
  let out := updateTransaction req db in
  (∀ id t, findByKey fst id (Finances db) = Some t →
     ∃ t', findByKey fst id (Finances out.2) = Some (id, t')
           ∧ t' !! "createdBy" = t.2 !! "createdBy"
           ∧ t' !! "approvedBy" = t.2 !! "approvedBy")
  ∧ (∀ t, status out.1 = 200%nat →
          findByKey fst (params_id req) (Finances db) = Some t →
     ∃ t', findByKey fst (params_id req) (Finances out.2) = Some (params_id req, t')
           ∧ ∀ k, k ∈ paths Finance.schema → k ≠ "createdBy" → k ≠ "approvedBy" →
                  t' !! k = match body req !! k with
                            | Some v => accept Finance.schema k v
                            | None => t.2 !! k
                            end).
Proof.
  intros Hplain. cbv zeta.
  assert (∀ id t, findByKey fst id (Finances db) = Some t →
                  ∃ t', findByKey fst id (Finances db) = Some (id, t')
                        ∧ t' !! "createdBy" = t.2 !! "createdBy"
                        ∧ t' !! "approvedBy" = t.2 !! "approvedBy") as Hsame.
  { intros id [i d] Hf. destruct (findByKey_Some _ _ _ _ Hf) as [<- _]. by exists d. }
  destruct (updateTransaction_runs req db)
    as [Hv|Hv Hf|t0 Hv Hf| t0 Hv Hf Hopen|t0 d' Hv Hf Hopen Happly]; simpl;
    try (split; [done|]; by intros ? [=]).
  split.
  - intros id t Hfound. destruct (decide (id = params_id req)) as [->|Hne].
    + rewrite findByKey_replace_eq by done. rewrite Hf. simpl.
      exists d'. split; [done|]. assert (t = t0) as -> by congruence.
      rewrite !(updateFields_stored req _ _ _ Hplain Happly).
      by rewrite !(decide_False (P:=_ ∧ _)) by tauto.
    + rewrite findByKey_replace_ne by done. by apply Hsame.
  - intros t _ Hfound. rewrite findByKey_replace_eq by done. rewrite Hf. simpl.
    exists d'. split; [done|]. intros k Hk Hc Ha. assert (t = t0) as -> by congruence.
    rewrite (updateFields_stored req _ _ _ Hplain Happly). by rewrite decide_True.
Qed.

(** C10. The handler deletes the payload's own [createdBy] and [approvedBy]
    keys and nothing below them: an update of a transaction that is open to
    the actor and names either field under [$set] is answered 200 and stores
    the reference it gives. *)
Theorem updateTransaction_set_operator_rewrites (req : Request num unit) (db : DB num)
    (t : ObjectId * Doc num) (field : string) (x : ObjectId) :
  field = "createdBy" ∨ field = "approvedBy" →
  validationErrors req = [] →
  findByKey fst (params_id req) (Finances db) = Some t →
  asStr (t.2 !! "status") ≠ Some "approved" →
  body req = {[ "$set" := VObj [(field, (VId x : Value num))] ]} →
  ∃ t', updateTransaction req db
        = (json 200 "Transaction updated successfully" (Some (params_id req, t')),
           setFinances
             (replaceByKey fst (params_id req) (params_id req, t') (Finances db)) db)
        ∧ t' !! field = Some (VId x).
Proof.
  intros Hfield Hvalid Hfound Hopen Hbody.
  assert (field ∈ paths (Finance.schema (num:=num))) as Hpath.
  { destruct Hfield as [-> | ->]; set_solver. }
  assert (accept Finance.schema field (VId x : Value num) = Some (VId x)) as Haccept.
  { by destruct Hfield as [-> | ->]. }
  assert (assignments (updateFields req) = Some {[ field := (VId x : Value num) ]})
    as Hgiven.
  { unfold updateFields. rewrite Hbody, !delete_id by done.
    unfold assignments, setOperator, plainKeys. rewrite lookup_singleton_eq. simpl.
    rewrite map_filter_singleton_False by (simpl; discriminate).
    by rewrite (left_id_L ∅ (∪)), insert_empty. }
  assert (is_Some (applyUpdate Finance.schema (params_id req) (updateFields req) t.2))
    as [d Hd].
  { unfold applyUpdate. rewrite Hgiven. simpl.
    rewrite lookup_singleton_ne by (destruct Hfield as [-> | ->]; done).
    destruct (castDoc_accepts Finance.schema {[ field := (VId x : Value num) ]})
      as [u ->]; [|done].
    intros k v _ [<- <-]%lookup_singleton_Some. by rewrite Haccept. }
  destruct (updateTransaction_runs req db)
    as [Hv|Hv Hf|t0 Hv Hf Hst|t0 Hv Hf Hnot Happly|t0 d' Hv Hf Hnot Happly];
    try congruence.
  assert (t0 = t) as -> by congruence.
  exists d'. split; [done|].
  rewrite (applyUpdate_assigned _ _ _ _ _ _ field Hgiven Happly).
  by rewrite decide_True, lookup_singleton_eq.
Qed.

Lemma Finance_accept_status (s : string) :
  accept (num:=num) Finance.schema "status" (VStr s)
  = if bool_decide (s ∈ Finance.statuses) then Some (VStr s) else None.
Proof. reflexivity. Qed.

(** What the finance role can do to the status through an update:
    [pending] is the one status that the validator of the route and the enum
    of the model both admit. With a payload of field assignments it is
    stored, and neither [approvedBy] nor [approvedAt] is stamped. *)
Lemma finance_role_sets_pending_through_update (req : Request num unit)
    (db : DB num) (actor : User.t) (t : ObjectId * Doc num) :
  findByKey User._id (User._id actor) (Users db) = Some actor →
  User.isActive actor = true →
  User.role actor = finance →
  validationErrors req = [] →
  findByKey fst (params_id req) (Finances db) = Some t →
  asStr (t.2 !! "status") ≠ Some "approved" →
  body req !! "status" = Some (VStr "pending") →
  Spec.plainPayload (body req) →
  body req !! "_id" = None →
  (∀ k v, k ∈ paths Finance.schema → k ≠ "createdBy" → k ≠ "approvedBy" →
          body req !! k = Some v → is_Some (accept Finance.schema k v)) →
  let out := Routes.PUT_finance_id (Auth.Bearer (User._id actor)) req db in
  status out.1 = 200%nat
  ∧ (∃ t', findByKey fst (params_id req) (Finances out.2) = Some (params_id req, t')
           ∧ t' !! "status" = Some (VStr "pending")
           ∧ t' !! "approvedBy" = t.2 !! "approvedBy"
           ∧ (body req !! "approvedAt" = None →
              t' !! "approvedAt" = t.2 !! "approvedAt")).
Proof.
  intros Hactor Hactive Hrole Hvalid Hfound Hpending Hstatus Hplain Hid Hok.
  cbv zeta. unfold Routes.PUT_finance_id.
  unfold Auth.route, Auth.protect. rewrite Hactor, Hactive. simpl.
  unfold Auth.financeAccess. rewrite Hrole. simpl.
  destruct (updateFields_accepted req t.2 Hplain Hid Hok) as [d0 Hd0].
  destruct (updateTransaction_runs (setUser actor req) db)
    as [Hv|Hv Hf|t0 Hv Hf Hst| t0 Hv Hf Hopen Happly|t0 d' Hv Hf Hopen Happly];
    simpl in *; change (updateFields (setUser actor req)) with (updateFields req) in *;
    try congruence.
  assert (t0 = t) as -> by congruence.
  split; [done|].
  exists d'. rewrite findByKey_replace_eq by done. rewrite Hfound. simpl.
  split; [done|]. rewrite !(updateFields_stored req _ _ _ Hplain Happly).
  split; [|split].
  - rewrite decide_True by (split; [set_solver|done]). by rewrite Hstatus.
  - by rewrite (decide_False (P:=_ ∧ _)) by tauto.
  - intros ->. by destruct (decide _).
Qed.

(** An update whose payload gives [status] a value outside the enum of the
    model writes nothing, whoever sends it. *)
Lemma updateTransaction_status_outside_enum (req : Request num unit) (db : DB num)
    (s : string) :
  body req !! "status" = Some (VStr s) →
  s ∉ Finance.statuses →
  (updateTransaction req db).2 = db
  ∧ status (updateTransaction req db).1 ≠ 200%nat.
Proof.
  intros Hstatus Hs.
  destruct (updateTransaction_runs req db)
    as [Hv|Hv Hf|t0 Hv Hf Hst| t0 Hv Hf Hopen Happly|t0 d' Hv Hf Hopen Happly];
    simpl; try done.
  exfalso.
  rewrite (applyUpdate_refused Finance.schema _ _ _ "status" (VStr s)) in Happly;
    [done| |done|set_solver|].
  - unfold updateFields. by rewrite !lookup_delete_ne.
  - by rewrite Finance_accept_status, bool_decide_eq_false_2.
Qed.

(** C9. The finance role cannot set [approved] through an update. The route
    lets the statuses [pending], [approved] and [rejected] through, but the
    enum of the model has neither [approved] nor [rejected]: a finance-role
    actor's update of a transaction that is not approved, with one of the
    two as [status], is answered 500 and writes nothing. The approve
    operation is refused to that actor. *)
Theorem finance_role_cannot_set_approved_through_update (req : Request num unit)
    (db : DB num) (actor : User.t) (t : ObjectId * Doc num) (s : string) :
  findByKey User._id (User._id actor) (Users db) = Some actor →
  User.isActive actor = true →
  User.role actor = finance →
  validationErrors req = [] →
  findByKey fst (params_id req) (Finances db) = Some t →
  asStr (t.2 !! "status") ≠ Some "approved" →
  body req !! "status" = Some (VStr s) →
  s ∈ ["approved"; "rejected"] →
  Routes.PUT_finance_id (Auth.Bearer (User._id actor)) req db
  = (json 500 "Server error while updating transaction" None, db)
  ∧ (∀ now, Routes.PUT_finance_id_approve now (Auth.Bearer (User._id actor)) req db
            = (json 403 "Admin access required" None, db)).
Proof.
  intros Hactor Hactive Hrole Hvalid Hfound Hpending Hstatus Hs.
  unfold Routes.PUT_finance_id, Routes.PUT_finance_id_approve.
  unfold Auth.route, Auth.protect. rewrite Hactor, Hactive. simpl.
  unfold Auth.financeAccess, Auth.adminOnly. rewrite Hrole. simpl.
  split; [|done].
  destruct (updateTransaction_runs (setUser actor req) db)
    as [Hv|Hv Hf|t0 Hv Hf Hst| t0 Hv Hf Hopen Happly|t0 d' Hv Hf Hopen Happly];
    simpl in *; try congruence.
  exfalso.
  rewrite (applyUpdate_refused Finance.schema _ _ _ "status" (VStr s)) in Happly;
    [done| |done|set_solver|].
  - unfold updateFields. simpl. by rewrite !lookup_delete_ne.
  - rewrite Finance_accept_status, bool_decide_eq_false_2; [done|].
    unfold Finance.statuses. set_solver.
Qed.

End FinanceUpdate.

Lemma updateTransaction_approved_immutable_witness :
  let req : Request float unit :=
    Sample.request Sample.aFinanceManager 50 tt
      (list_to_map [("amount", VNum 9000%float); ("status", VStr "pending")]) in
  (FinanceController.updateTransaction req (Sample.ledger 0.1 0.3 0.2)%float).2 = (Sample.ledger 0.1 0.3 0.2)%float
  ∧ (FinanceController.updateTransaction req (Sample.ledger 0.1 0.3 0.2)%float).1 = Spec.Immutable.
Proof.
  cbv zeta.
  destruct (updateTransaction_approved_immutable
              (Sample.request Sample.aFinanceManager 50 tt
                 (list_to_map [("amount", VNum 9000%float); ("status", VStr "pending")]
                  : Doc float))
              (Sample.ledger 0.1 0.3 0.2)%float
              (50%nat, Sample.aTransaction "income" "tuition_fees" 0.1%float
                         1705276800000 "approved"))
    as [Hdb Hres]; [reflexivity|vm_compute; reflexivity|done|].
  split; [exact Hdb|]. by apply Hres.
Defined.

Lemma finance_role_cannot_set_approved_through_update_witness :
  let req : Request float unit :=
    Sample.request Sample.aFinanceManager 53 tt
      (list_to_map [("status", VStr "approved")]) in
  let db := Sample.ledger 0.1%float 0.3%float 0.2%float in
  Routes.PUT_finance_id (Auth.Bearer 5) req db
  = (json 500 "Server error while updating transaction" None, db).
Proof.
  cbv zeta.
  destruct (finance_role_cannot_set_approved_through_update
              (Sample.request Sample.aFinanceManager 53 tt
                 (list_to_map [("status", VStr "approved")] : Doc float))
              (Sample.ledger 0.1 0.3 0.2)%float Sample.aFinanceManager
              (53%nat, Sample.aTransaction "income" "tuition_fees" 0.1%float
                         1707955200000 "pending")
              "approved")
    as [Hrun _].
  - reflexivity.
  - reflexivity.
  - reflexivity.
  - reflexivity.
  - reflexivity.
  - vm_compute. discriminate.
  - vm_compute. reflexivity.
  - compute_done.
  - exact Hrun.
Defined.

Lemma updateTransaction_set_operator_rewrites_witness :
  let payload : Doc float := {[ "$set" := VObj [("approvedBy", VId 1)] ]} in
  let req := Sample.request Sample.aFinanceManager 53 tt payload in
  let db := Sample.ledger 0.1%float 0.3%float 0.2%float in
  (∃ t, findByKey fst 53%nat (Finances db) = Some (53%nat, t)
        ∧ t !! "approvedBy" = None)
  ∧ ∃ t', (FinanceController.updateTransaction req db).1
          = json 200 "Transaction updated successfully" (Some (53%nat, t'))
          ∧ t' !! "approvedBy" = Some (VId 1).
Proof.
  cbv zeta. split.
  { exists (Sample.aTransaction "income" "tuition_fees" 0.1%float 1707955200000 "pending").
    split; [reflexivity|vm_compute; reflexivity]. }
  destruct (updateTransaction_set_operator_rewrites
              (Sample.request Sample.aFinanceManager 53 tt
                 ({[ "$set" := VObj [("approvedBy", VId 1)] ]} : Doc float))
              (Sample.ledger 0.1 0.3 0.2)%float
              (53%nat, Sample.aTransaction "income" "tuition_fees" 0.1%float
                         1707955200000 "pending")
              "approvedBy" 1%nat)
    as (t' & Hrun & Hby).
  - by right.
  - reflexivity.
  - reflexivity.
  - vm_compute. discriminate.
  - reflexivity.
  - exists t'. split; [by rewrite Hrun|exact Hby].
Defined.

(** C10, as the specification states it, fails. The finance manager's update
    of the pending transaction with [createdBy] and [approvedBy] as keys of
    the payload leaves both fields as they were; with the same two
    assignments under [$set], the handler's two deletions find nothing to
    delete and the transaction is stored with another creator and an
    approver, its status still pending. *)
Lemma updateTransaction_set_operator_forges_approver :
  let fields : list (string * Value float) :=
    [("createdBy", VId 3); ("approvedBy", VId 1)] in
  let db := Sample.ledger 0.1%float 0.3%float 0.2%float in
  let stored (out : Response (ObjectId * Doc float) * DB float) (k : string) :=
    (findByKey fst 53%nat (Finances out.2)) ≫= λ t, t.2 !! k in
  let plain :=
    Routes.PUT_finance_id (Auth.Bearer 5)
      (Sample.request Sample.aFinanceManager 53 tt (list_to_map fields)) db in
  let nested :=
    Routes.PUT_finance_id (Auth.Bearer 5)
      (Sample.request Sample.aFinanceManager 53 tt {[ "$set" := VObj fields ]}) db in
  FinanceController.updateFields
    (Sample.request Sample.aFinanceManager 53 tt {[ "$set" := VObj fields ]})
  = {[ "$set" := VObj fields ]}
  ∧ status plain.1 = 200%nat
  ∧ stored plain "createdBy" = Some (VId 5) ∧ stored plain "approvedBy" = None
  ∧ status nested.1 = 200%nat
  ∧ stored nested "createdBy" = Some (VId 3)
  ∧ stored nested "approvedBy" = Some (VId 1)
  ∧ stored nested "status" = Some (VStr "pending").
Proof.
  cbv zeta. repeat split; vm_compute; reflexivity.
Qed.

Section FinanceReport.
Context {num : Type} `{!Number num} `{!Regex}.
Import FinanceController.










End FinanceReport.

(** The two carriers of amounts. *)

Lemma SFltb_asym (x y : spec_float) : SFltb x y = true → SFltb y x = false.
Proof.
  unfold SFltb, SFcompare.
  destruct x as [sx|sx| |sx mx ex], y as [sy|sy| |sy my ey];
    repeat match goal with s : bool |- _ => destruct s end; try done.
  all: rewrite (Z.compare_antisym ex ey); destruct (ex ?= ey); simpl; try done.
  all: change (PosDef.Pos.compare_cont Eq my mx) with (my ?= mx)%positive;
       change (PosDef.Pos.compare_cont Eq mx my) with (mx ?= my)%positive;
       rewrite (Pos.compare_antisym mx my); by destruct (mx ?= my)%positive.
Qed.

#[export] Instance binary64_order : NumberOrder float.
Proof. split. intros x y. simpl. rewrite !ltb_spec. apply SFltb_asym. Qed.

#[export] Instance exact_order : NumberOrder Z.
Proof. split. intros x y. simpl. rewrite Z.ltb_lt, Z.ltb_ge. lia. Qed.




(* ===================================================================== *)
(** * Activities: the capacity of the participant list *)
(* ===================================================================== *)

Section ActivityProperties.
Context {num : Type} `{!Number num}.
Import ActivityController.

(** A list that has not reached a whole bound is within it with one
    element more. *)
Lemma within_S (n : nat) (bound : Bound) :
  reaches n bound = false → Spec.whole bound → Spec.within (S n) bound.
Proof.
  destruct bound as [q|]; [|done]. simpl. intros Hroom [m Hm].
  unfold QArith_base.Qle_bool in Hroom. apply Z.leb_gt in Hroom.
  unfold QArith_base.Qeq in Hm. unfold QArith_base.Qle.
  simpl in *. rewrite Hm in *.
  assert (Z.of_nat n < m) as Hlt
    by (apply (Z.mul_lt_mono_pos_r (Z.pos (QArith_base.Qden q))); lia).
  apply Z.mul_le_mono_nonneg_r; lia.
Qed.

(** C2, as the code has it. A call that is not answered 200 leaves the
    database as it was. A call answered 200 has appended the child to
    participants that had not reached [maxParticipants]; they are within
    [maxParticipants] after the call when that is a whole number, which the
    schema does not ask of it. So a whole bound, once it holds, holds after
    every call. A call for a stored, active child that does not participate
    yet is answered [CapacityExceeded] when the participants have reached
    [maxParticipants] or passed it. *)
Theorem addParticipant_capacity (req : Request num unit) (db : DB num)
    (a : Activity.t) :
  findByKey Activity._id (params_id req) (Activities db) = Some a →
  let out := addParticipant req db in
  (status out.1 ≠ 200%nat → out.2 = db)
  ∧ (∃ a', findByKey Activity._id (params_id req) (Activities out.2) = Some a'
           ∧ Activity.maxParticipants a' = Activity.maxParticipants a
           ∧ (status out.1 = 200%nat →
              (∃ c, body req !! "childId" = Some (VId c)
                    ∧ Activity.participants a' = Activity.participants a ++ [c])
              ∧ reaches (length (Activity.participants a))
                        (Activity.maxParticipants a) = false
              ∧ (Spec.whole (Activity.maxParticipants a) →
                 Spec.within (length (Activity.participants a'))
                             (Activity.maxParticipants a')))
           ∧ (Spec.whole (Activity.maxParticipants a) →
              Spec.within (length (Activity.participants a))
                          (Activity.maxParticipants a) →
              Spec.within (length (Activity.participants a'))
                          (Activity.maxParticipants a')))
  ∧ (∀ c child,
       body req !! "childId" = Some (VId c) →
       findByKey fst c (Children db) = Some child →
       truthy (child.2 !! "isActive") = true →
       if decide (c ∈ Activity.participants a) then out.1 = Spec.DuplicateParticipant
       else reaches (length (Activity.participants a)) (Activity.maxParticipants a) = true →
            out.1 = Spec.CapacityExceeded)
  ∧ (∀ c,
       body req !! "childId" = Some (VId c) →
       match findByKey fst c (Children db) with
       | Some child => truthy (child.2 !! "isActive") = false
       | None => True
       end →
       out.1 = Spec.ChildNotFoundOrInactive).
Proof.
  intros Hfound. cbv zeta.
  destruct (findByKey_Some _ _ _ _ Hfound) as [Hid _].
  unfold addParticipant, Child_findById, Activity_save. async. rewrite Hfound. simpl.
  assert (∀ st : nat,
            st ≠ 200%nat →
            ∃ a', findByKey Activity._id (params_id req) (Activities db) = Some a'
                 ∧ Activity.maxParticipants a' = Activity.maxParticipants a
                 ∧ (st = 200%nat →
                    (∃ c, body req !! "childId" = Some (VId c)
                          ∧ Activity.participants a' = Activity.participants a ++ [c])
                    ∧ reaches (length (Activity.participants a))
                              (Activity.maxParticipants a) = false
                    ∧ (Spec.whole (Activity.maxParticipants a) →
                       Spec.within (length (Activity.participants a'))
                                   (Activity.maxParticipants a')))
                 ∧ (Spec.whole (Activity.maxParticipants a) →
                    Spec.within (length (Activity.participants a))
                                (Activity.maxParticipants a) →
                    Spec.within (length (Activity.participants a'))
                                (Activity.maxParticipants a'))) as Hfail.
  { intros st Hst. exists a. by repeat split. }
  destruct (body req !! "childId") as [[|?|?|?|c|?|?|?]|] eqn:Hchild; simpl;
    try (split; [done|split; [by apply Hfail|split;
                                [by intros ? ? [=]|by intros ? [=]]]]).
  destruct (findByKey fst c (Children db)) as [child|] eqn:Hc; simpl.
  2: { split; [done|split; [by apply Hfail|split]].
       - intros ? ? [= <-] Hc'. congruence.
       - done. }
  destruct (truthy (child.2 !! "isActive")) eqn:Hactive; simpl.
  2: { split; [done|split; [by apply Hfail|split]].
       - intros ? ? [= <-] Hc' Hact. congruence.
       - done. }
  assert (∀ r : Response Activity.t,
            (∀ c0, Some (VId c : Value num) = Some (VId c0) →
               match findByKey fst c0 (Children db) with
               | Some child => truthy (child.2 !! "isActive") = false
               | None => True
               end → r = Spec.ChildNotFoundOrInactive)) as Hthere.
  { intros r c0 [= <-]. rewrite Hc. congruence. }
  case_bool_decide as Hdup; simpl.
  { split; [done|split; [by apply Hfail|split; [|by apply Hthere]]].
    intros ? ? [= <-] _ _. rewrite decide_True; [done|].
    apply list_elem_of_fmap in Hdup as (c' & [= ->] & Hin). done. }
  assert (c ∉ Activity.participants a) as Hnew.
  { intros Hin. apply Hdup, list_elem_of_fmap. by exists c. }
  destruct (reaches (length (Activity.participants a)) (Activity.maxParticipants a))
    eqn:Hfull; simpl.
  { split; [done|split; [by apply Hfail|split; [|by apply Hthere]]].
    intros ? ? [= <-] _ _. by rewrite decide_False. }
  unfold Activity.valid. simpl. destruct (atLeast 1 (Activity.maxParticipants a)); simpl.
  2: { split; [done|split; [by apply Hfail|split; [|by apply Hthere]]].
       intros ? ? [= <-] _ _. by rewrite decide_False. }
  rewrite <- Hid in *. rewrite !findByKey_replace_eq by done. rewrite Hfound. simpl.
  assert (Spec.whole (Activity.maxParticipants a) →
          Spec.within (length (Activity.participants a ++ [c]))
                      (Activity.maxParticipants a)) as Hwithin.
  { intros Hwhole. rewrite length_app, Nat.add_1_r. by apply within_S. }
  split; [done|]. split; [|split; [|by apply Hthere]].
  - eexists. split; [done|]. simpl. split; [done|]. split; [|intros Hwhole _; by apply Hwithin].
    intros _. split; [by eexists|]. split; [done|exact Hwithin].
  - intros ? ? [= <-] _ _. by rewrite decide_False.
Qed.

End ActivityProperties.

Lemma addParticipant_capacity_witness :
  let req : Request float unit :=
    Sample.request Sample.aTeacher 20 tt (list_to_map [("childId", VId 12)]) in
  ActivityController.addParticipant req Sample.school
  = (Spec.CapacityExceeded, Sample.school).
Proof.
  cbv zeta.
  destruct (addParticipant_capacity
              (Sample.request Sample.aTeacher 20 tt
                 (list_to_map [("childId", VId 12)] : Doc float))
              Sample.school Sample.aFullActivity) as (Hdb & _ & Hfull & _); [reflexivity|].
  specialize (Hfull 12%nat (12%nat, Sample.aChild "Amal" "Sunflower" [4%nat])).
  rewrite decide_False in Hfull by compute_done.
  rewrite (surjective_pairing (ActivityController.addParticipant _ _)).
  rewrite Hfull; [|reflexivity|reflexivity|vm_compute; reflexivity|reflexivity].
  rewrite Hdb; [done|].
  rewrite Hfull; [|reflexivity|reflexivity|vm_compute; reflexivity|reflexivity].
  by vm_compute.
Defined.

(** C2, as the specification states it, fails. A call on a full activity
    for a child that does not exist is answered "not found", not
    [CapacityExceeded]. On an activity that an update of [maxParticipants]
    has left over capacity, the participants outnumber [maxParticipants]
    after the call as before it. And on an activity whose [maxParticipants]
    an update has set to 2.5, the third child is added to the two that
    participate, and three participants pass the bound. *)
Lemma addParticipant_full_activity_other_answers :
  let unknown : Request float unit :=
    Sample.request Sample.aTeacher 20 tt (list_to_map [("childId", VId 99)]) in
  let third : Request float unit :=
    Sample.request Sample.aTeacher 21 tt (list_to_map [("childId", VId 12)]) in
  let fractional : Request float unit :=
    Sample.request Sample.aTeacher 23 tt (list_to_map [("childId", VId 12)]) in
  (reaches (length (Activity.participants Sample.aFullActivity))
           (Activity.maxParticipants Sample.aFullActivity) = true
   ∧ Spec.within (length (Activity.participants Sample.aFullActivity))
                 (Activity.maxParticipants Sample.aFullActivity)
   ∧ (ActivityController.addParticipant unknown Sample.school).1
     = Spec.ChildNotFoundOrInactive
   ∧ (ActivityController.addParticipant unknown Sample.school).1
     ≠ Spec.CapacityExceeded)
  ∧ (∃ a', findByKey Activity._id 21%nat
             (Activities (ActivityController.addParticipant third Sample.school).2)
           = Some a'
           ∧ ¬ Spec.within (length (Activity.participants a'))
                           (Activity.maxParticipants a'))
  ∧ (Spec.within (length (Activity.participants Sample.aFractionalActivity))
                 (Activity.maxParticipants Sample.aFractionalActivity)
     ∧ status (ActivityController.addParticipant fractional Sample.school).1 = 200%nat
     ∧ ∃ a', findByKey Activity._id 23%nat
               (Activities (ActivityController.addParticipant fractional Sample.school).2)
             = Some a'
             ∧ Activity.participants a' = [10; 11; 12]%nat
             ∧ Activity.maxParticipants a' = Finite (QArith_base.Qmake 5 2)
             ∧ ¬ Spec.within (length (Activity.participants a'))
                             (Activity.maxParticipants a')).
Proof.
  cbv zeta. split; [split; [|split; [|split]]|split; [|split; [|split]]].
  - reflexivity.
  - by vm_compute.
  - vm_compute. reflexivity.
  - by vm_compute.
  - eexists. split; [vm_compute; reflexivity|]. by vm_compute.
  - by vm_compute.
  - vm_compute. reflexivity.
  - eexists. split; [vm_compute; reflexivity|]. split; [reflexivity|].
    split; [reflexivity|]. by vm_compute.
Qed.

(* ===================================================================== *)
(** * Messages: who reads what, and the read timestamp *)
(* ===================================================================== *)

Section MessageProperties.
Context {num : Type}.
Import MessageController.

(** The hook stamps a message only when it has no timestamp yet. *)
Lemma preSave_keeps_readAt (now : Date) (original this : Message.t) :
  is_Some (Message.readAt this) → Message.preSave now original this = this.
Proof.
  intros Hread. unfold Message.preSave.
  rewrite (bool_decide_eq_true_2 _ Hread). simpl. by rewrite andb_false_r.
Qed.

(** Marking read is for the recipient only. *)
Lemma markAsRead_recipient_only (now : Date) (req : Request num unit) (db : DB num) :
  status (markAsRead now req db).1 = 200%nat →
  ∃ m, findByKey Message._id (params_id req) (Messages db) = Some m
       ∧ User.userId (user req) = Some (Message.recipient m).
Proof.
  unfold markAsRead, Message_save. async.
  destruct (findByKey Message._id (params_id req) (Messages db)) as [m|]; simpl; [|done].
  case_bool_decide as Hrecipient; simpl; [done|]. intros _. exists m.
  split; [done|].
  by destruct (decide (Some (Message.recipient m) = User.userId (user req))).
Qed.

(** Every call of [markAsRead] by the recipient stores the time of the call,
    whatever the message held before. *)
Lemma markAsRead_stores_now (now : Date) (req : Request num unit) (db : DB num)
    (m : Message.t) :
  findByKey Message._id (params_id req) (Messages db) = Some m →
  User.userId (user req) = Some (Message.recipient m) →
  Message.readAt <$> findByKey Message._id (params_id req)
                       (Messages (markAsRead now req db).2)
  = Some (Some now).
Proof.
  intros Hfound Hrecipient. destruct (findByKey_Some _ _ _ _ Hfound) as [Hid _].
  unfold markAsRead, Message_save. async. rewrite Hfound. simpl.
  rewrite bool_decide_eq_false_2 by (by intros ?). simpl.
  rewrite preSave_keeps_readAt by (by eexists). simpl. rewrite <- Hid.
  rewrite findByKey_replace_eq by done. by rewrite Hid, Hfound.
Qed.

(** Viewing a message marks it for the recipient at the transition of the
    flag only: a message that is read already is left as it is. *)
Lemma getMessageById_keeps_read (now : Date) (req : Request num unit) (db : DB num)
    (m : Message.t) :
  findByKey Message._id (params_id req) (Messages db) = Some m →
  Message.isRead m = true →
  (getMessageById now req db).2 = db.
Proof.
  intros Hfound Hread. unfold getMessageById, Message_save. async.
  rewrite Hfound. simpl. destruct (findByKey User._id _ _); simpl; [|done].
  by rewrite Hread, andb_false_r.
Qed.

(** The conversation listing returns the actor's own messages only. *)
Lemma getConversation_scope (req : Request num Query) (db : DB num) (page : Page) :
  data (getConversation req db).1 = Some page →
  ∀ m, m ∈ messages page →
       m ∈ Messages db
       ∧ (User.userId (user req) = Some (Message.sender m)
          ∨ User.userId (user req) = Some (Message.recipient m)).
Proof.
  unfold getConversation, paged. async.
  destruct (skipLimit _ _ _) as [ms|e] eqn:Hpage; simpl; [|done].
  intros [= <-] m Hm. simpl in Hm.
  apply (skipLimit_subset _ _ _ _ Hpage) in Hm.
  unfold newestFirst in Hm. rewrite elem_of_reverse in Hm.
  apply list_elem_of_In, filter_In in Hm as [Hin Hm].
  split; [by apply list_elem_of_In|].
  apply andb_prop in Hm as [_ Hm]. apply orb_prop in Hm as [Hm|Hm];
    apply bool_decide_eq_true in Hm; auto.
Qed.

(** The listing is scoped for parents, teachers and admins, and for them
    only. *)
Lemma getMessages_scope (req : Request num Query) (db : DB num) (page : Page) :
  User.role (user req) ∈ [parent; teacher; admin] →
  data (getMessages req db).1 = Some page →
  ∀ m, m ∈ messages page →
       m ∈ Messages db
       ∧ (User.userId (user req) = Some (Message.sender m)
          ∨ User.userId (user req) = Some (Message.recipient m)).
Proof.
  intros Hrole. unfold getMessages, paged. async.
  destruct (skipLimit _ _ _) as [ms|e] eqn:Hpage; simpl; [|done].
  intros [= <-] m Hm. simpl in Hm.
  apply (skipLimit_subset _ _ _ _ Hpage) in Hm.
  unfold newestFirst in Hm. rewrite elem_of_reverse in Hm.
  apply list_elem_of_In, filter_In in Hm as [Hin Hm].
  split; [by apply list_elem_of_In|].
  unfold messagesQuery in Hm. rewrite !andb_true_iff in Hm. destruct Hm as [[[Hm _] _] _].
  destruct (User.role (user req)); try (apply bool_decide_eq_true in Hm; auto).
  all: exfalso; clear -Hrole; set_solver.
Qed.

End MessageProperties.

(** Through the route as it is mounted, [req.user] is the user that
    [protect] has loaded. Where the users have no [userId], the handler
    compares the recipient with [undefined] and marks nothing. *)
Lemma PUT_messages_id_read_without_userId {num : Type} `{!Number num} `{!Regex}
    (now : Date) (auth : Auth.Authorization) (req : Request num unit) (db : DB num) :
  (∀ u, u ∈ Users db → User.userId u = None) →
  status (Routes.PUT_messages_id_read now auth req db).1 ≠ 200%nat
  ∧ (Routes.PUT_messages_id_read now auth req db).2 = db.
Proof.
  intros Hnone. unfold Routes.PUT_messages_id_read, Auth.route, Auth.protect.
  destruct auth as [| |id]; simpl; try done.
  destruct (findByKey User._id id (Users db)) as [u|] eqn:Hu; simpl; [|done].
  destruct (findByKey_Some _ _ _ _ Hu) as [_ Hin].
  destruct (User.isActive u); simpl; [|done].
  unfold MessageController.markAsRead. async.
  destruct (findByKey Message._id (params_id req) (Messages db)) as [m|]; simpl; [|done].
  rewrite (Hnone u Hin). by rewrite bool_decide_eq_true_2.
Qed.

(** C6 fails on the code: the second [markAsRead] of the recipient replaces
    the timestamp of the first. The calls are calls of the handler, for a
    [req.user] whose [userId] is the recipient of the message. *)
Lemma markAsRead_twice_overwrites_readAt :
  let req : Request float unit :=
    Sample.request (Sample.withUserId Sample.aParent) 30 tt ∅ in
  let first := MessageController.markAsRead 1000 req Sample.school in
  let second := MessageController.markAsRead 2000 req first.2 in
  findByKey Message._id 30%nat (Messages (Sample.school (num:=float)))
  = Some Sample.aNote
  ∧ User.userId (user req) = Some (Message.recipient Sample.aNote)
  ∧ status first.1 = 200%nat
  ∧ Message.readAt <$> findByKey Message._id 30%nat (Messages first.2) = Some (Some 1000)
  ∧ Message.isRead <$> findByKey Message._id 30%nat (Messages first.2) = Some true
  ∧ status second.1 = 200%nat
  ∧ Message.readAt <$> findByKey Message._id 30%nat (Messages second.2)
    = Some (Some 2000).
Proof. cbv zeta. repeat split; vm_compute; reflexivity. Qed.

(** C7 fails on the code: a user who is neither the sender nor the recipient
    of a message is served it by id, a user of a role other than parent,
    teacher and admin is served every message by the listing, and the
    by-child handler (which no route mounts) serves the messages about a
    child to whoever calls it; the conversation route serves the same user
    nothing. *)
Lemma getMessageById_serves_third_party :
  let byId : Request float unit := Sample.request Sample.anotherParent 30 tt ∅ in
  let byChild : Request float MessageController.Query :=
    Sample.request Sample.anotherParent 10 Sample.firstPage ∅ in
  Message.sender Sample.aNote ≠ 4%nat
  ∧ Message.recipient Sample.aNote ≠ 4%nat
  ∧ (Routes.GET_messages_id 1000 (Auth.Bearer 4) byId Sample.school).1
    = json 200 "" (Some Sample.aNote)
  ∧ Message.sender Sample.aNote ≠ 5%nat
  ∧ Message.recipient Sample.aNote ≠ 5%nat
  ∧ (MessageController.messages
       <$> data (Routes.GET_messages (Auth.Bearer 5) byChild Sample.school).1)
    = Some [Sample.aNote]
  ∧ (MessageController.messages
       <$> data (MessageController.getMessagesByChild byChild Sample.school).1)
    = Some [Sample.aNote]
  ∧ (MessageController.messages
       <$> data (Routes.GET_messages_conversation_childId
                   (Auth.Bearer 4) byChild Sample.school).1)
    = Some [].
Proof. cbv zeta. repeat split; try done; vm_compute; reflexivity. Qed.

(* ===================================================================== *)
(** * Collections: replacing twice, and replacing by the same *)
(* ===================================================================== *)

Section KeyedRewrites.
Context {A : Type} (key : A → ObjectId).

Lemma replaceByKey_twice (id : ObjectId) (x y : A) (l : list A) :
  key y = id →
  replaceByKey key id x (replaceByKey key id y l) = replaceByKey key id x l.
Proof.
  intros Hy. induction l as [|z l IH]; simpl; [done|].
  destruct (decide (key z = id)); simpl.
  - by rewrite decide_True.
  - rewrite decide_False by done. by rewrite IH.
Qed.

Lemma replaceByKey_same (id : ObjectId) (x : A) (l : list A) :
  findByKey key id l = Some x → replaceByKey key id x l = l.
Proof.
  induction l as [|z l IH]; simpl; [done|].
  destruct (decide (key z = id)); [by intros [= ->]|]. intros Hx. by rewrite IH.
Qed.
End KeyedRewrites.

Section AsyncFacts.
Context {num : Type}.

(** Looking a reference up reads the database and leaves it as it is. *)
Lemma findRef_db {A : Type} (find : ObjectId → DB num → option A)
    (id : option (Value num)) (db : DB num) :
  ∃ r, findRef find id db = (r, db).
Proof. unfold findRef. repeat case_match; eauto. Qed.


End AsyncFacts.

(* ===================================================================== *)
(** * Finance: creating, approving and deleting; the report over time *)
(* ===================================================================== *)

Section FinanceWrites.
Context {num : Type} `{!Number num} `{!Regex}.
Import FinanceController.

Lemma newTransaction_no_transactionType (now : Date) (req : Request num unit) :
  newTransaction now req !! "transactionType" = None.
Proof.
  unfold newTransaction. rewrite !lookup_insert_ne by done.
  apply map_lookup_filter_None. right. intros v _ Hin. simpl in Hin.
  repeat (apply elem_of_cons in Hin as [Hin|Hin]; [done|]).
  by apply elem_of_nil in Hin.
Qed.

Lemma Finance_create_refused (now : Date) (req : Request num unit) (db : DB num) :
  Finance_create now (newTransaction now req) db = (Throw "ValidationError", db).
Proof.
  unfold Finance_create, create.
  destruct (construct Finance.schema now (newTransaction now req)) as [d|] eqn:Hd;
    simpl; [exfalso|done].
  assert (present d "transactionType" = true) as Hpresent.
  { eapply construct_required; [done|]. simpl. unfold Finance.required. set_solver. }
  unfold present in Hpresent.
  rewrite (construct_lookup_None _ _ _ _ "transactionType" Hd) in Hpresent; [done| |done].
  apply newTransaction_no_transactionType.
Qed.

Lemma createTransaction_refused (now : Date) (req : Request num unit)
    (db : DB num) :
  (createTransaction now req db).2 = db
  ∧ status (createTransaction now req db).1 ∈ [400; 500]%nat
  ∧ (status (createTransaction now req db).1 = 400%nat →
     message (createTransaction now req db).1
     ∈ ["Validation failed"; "Related child not found"; "Related user not found"]).
Proof.
  set (good := λ out : Response (ObjectId * Doc num) * DB num,
         out.2 = db ∧ status out.1 ∈ [400; 500]%nat
         ∧ (status out.1 = 400%nat →
            message out.1 ∈ ["Validation failed"; "Related child not found";
                             "Related user not found"])).
  change (good (createTransaction now req db)).
  assert (∀ m : string, m ∈ ["Validation failed"; "Related child not found";
                             "Related user not found"] →
          good (json 400 m None, db)) as H400.
  { intros m Hm. unfold good. simpl. split; [done|]. split; [set_solver|done]. }
  assert (good (json 500 "Server error while creating transaction" None, db)) as H500.
  { unfold good. simpl. split; [done|]. split; [set_solver|done]. }
  clearbody good.
  unfold createTransaction. async.
  case_bool_decide as Hvalid; simpl; [|apply H400; set_solver].
  destruct (truthy (body req !! "relatedChild")); simpl.
  - destruct (findRef_db (λ i db, findByKey fst i (Children db))
                (body req !! "relatedChild") db) as [r ->].
    destruct r as [child|e]; simpl; [|exact H500].
    case_bool_decide; simpl; [|apply H400; set_solver].
    destruct (truthy (body req !! "relatedParent") || truthy (body req !! "relatedEmployee"));
      simpl.
    + destruct (findRef_db (λ i db, findByKey User._id i (Users db))
                  (if truthy (body req !! "relatedParent")
                   then body req !! "relatedParent"
                   else body req !! "relatedEmployee") db) as [r ->].
      destruct r as [u|e]; simpl; [|exact H500].
      case_bool_decide; simpl; [|apply H400; set_solver].
      rewrite Finance_create_refused. exact H500.
    + rewrite Finance_create_refused. exact H500.
  - destruct (truthy (body req !! "relatedParent") || truthy (body req !! "relatedEmployee"));
      simpl.
    + destruct (findRef_db (λ i db, findByKey User._id i (Users db))
                  (if truthy (body req !! "relatedParent")
                   then body req !! "relatedParent"
                   else body req !! "relatedEmployee") db) as [r ->].
      destruct r as [u|e]; simpl; [|exact H500].
      case_bool_decide; simpl; [|apply H400; set_solver].
      rewrite Finance_create_refused. exact H500.
    + rewrite Finance_create_refused. exact H500.
Qed.

Lemma Finance_save_refused (t : ObjectId * Doc num) (s : string) (db : DB num) :
  t.2 !! "status" = Some (VStr s) → s ∉ Finance.statuses →
  Finance_save t db = (Throw "ValidationError", db).
Proof.
  intros Hstatus Hs. unfold Finance_save.
  rewrite (castDoc_refused Finance.schema t.2 "status" (VStr s)); [done..|set_solver|].
  change (Finance.accept (num:=num) "status" (VStr s) = None).
  unfold Finance.accept. simpl. by rewrite bool_decide_eq_false_2.
Qed.

Lemma approveTransaction_refused (now : Date) (req : Request num unit)
    (db : DB num) :
  (approveTransaction now req db).2 = db
  ∧ status (approveTransaction now req db).1 ≠ 200%nat
  ∧ (validationErrors req = [] →
     is_Some (findByKey fst (params_id req) (Finances db)) →
     (approveTransaction now req db).1
     = json 500 "Server error while processing transaction approval" None).
Proof.
  unfold approveTransaction, Finance_findById. async.
  case_bool_decide as Hvalid; simpl; [|done].
  destruct (findByKey fst (params_id req) (Finances db)) as [t|] eqn:Hfound; simpl.
  2: { split; [done|]. split; [done|]. by intros _ [? ?]. }
  match goal with
  | |- context [Finance_save ?x db] =>
      rewrite (Finance_save_refused x
                 (if truthy (body req !! "approved") then "approved" else "rejected"))
  end; [done| |].
  - simpl. destruct (body req !! "approvalNotes") as [notes|];
      [destruct (truthy (Some notes))|];
      rewrite ?lookup_insert_ne by done; by rewrite lookup_insert_eq.
  - unfold Finance.statuses. destruct (truthy _); set_solver.
Qed.

(** Deleting has no lock: an existing transaction is removed whatever its
    status; the others stay. *)
Theorem deleteTransaction_removes (req : Request num unit) (db : DB num)
    (t : ObjectId * Doc num) :
  validationErrors req = [] →
  findByKey fst (params_id req) (Finances db) = Some t →
  let out := deleteTransaction req db in
  out.1 = json 200 "Transaction deleted successfully" None
  ∧ Finances out.2 = deleteByKey fst (params_id req) (Finances db)
  ∧ (∀ id, id ≠ params_id req →
           findByKey fst id (Finances out.2) = findByKey fst id (Finances db))
  ∧ (NoDup (fst <$> Finances db) →
     findByKey fst (params_id req) (Finances out.2) = None)
  ∧ Users out.2 = Users db ∧ Children out.2 = Children db.
Proof.
  intros Hvalid Hfound. cbv zeta.
  unfold deleteTransaction, Finance_findById, Finance_findByIdAndDelete. async.
  rewrite bool_decide_eq_true_2 by done. simpl. rewrite Hfound. simpl.
  split; [done|]. split; [done|]. split; [|split; [|done]].
  - intros id Hne. by apply findByKey_delete_ne.
  - apply findByKey_delete_eq.
Qed.

Lemma deleteTransaction_subset (req : Request num unit) (db : DB num)
    (t : ObjectId * Doc num) :
  t ∈ Finances (deleteTransaction req db).2 → t ∈ Finances db.
Proof.
  unfold deleteTransaction, Finance_findById, Finance_findByIdAndDelete. async.
  case_bool_decide; simpl; [|done].
  destruct (findByKey fst (params_id req) (Finances db)); simpl; [|done].
  apply elem_of_deleteByKey.
Qed.

(** No call stores a status from outside the enum of the model: a property
    that no status of the enum has, and no stored status has, is had by no
    stored status after the call. *)
Lemma afterCall_status (bad : option (Value num) → Prop) (db : DB num)
    (c : FinanceCall * Request num unit) :
  ¬ bad None →
  (∀ s, s ∈ Finance.statuses → ¬ bad (Some (VStr s))) →
  (∀ t, t ∈ Finances db → ¬ bad (t.2 !! "status")) →
  ∀ t, t ∈ Finances (afterCall db c) → ¬ bad (t.2 !! "status").
Proof.
  intros Hnone Hs Hdb t. destruct c as [[now| |now|] req]; unfold afterCall; simpl.
  - rewrite (proj1 (createTransaction_refused now req db)). apply Hdb.
  - destruct (updateTransaction_runs req db)
      as [Hv|Hv Hf|t0 Hv Hf Hst|t0 Hv Hf Hopen Happly|t0 d' Hv Hf Hopen Happly]; simpl;
      try apply Hdb.
    intros [->|Ht]%elem_of_replaceByKey; [|by apply Hdb]. simpl.
    destruct (applyUpdate_stored _ _ _ _ _ Happly) as (given & _ & Hstored).
    rewrite (Hstored "status"). rewrite decide_True by set_solver.
    destruct (given !! "status") as [v|] eqn:Hv'.
    + change (accept Finance.schema "status" v) with (Finance.accept (num:=num) "status" v).
      unfold Finance.accept. simpl. unfold oneOf.
      destruct v; try done. case_bool_decide; [by apply Hs|done].
    + apply Hdb. by destruct (findByKey_Some _ _ _ _ Hf).
  - rewrite (proj1 (approveTransaction_refused now req db)). apply Hdb.
  - intros Ht%deleteTransaction_subset. by apply Hdb.
Qed.

Lemma afterCalls_status (bad : option (Value num) → Prop)
    (calls : list (FinanceCall * Request num unit)) (db : DB num) :
  ¬ bad None →
  (∀ s, s ∈ Finance.statuses → ¬ bad (Some (VStr s))) →
  (∀ t, t ∈ Finances db → ¬ bad (t.2 !! "status")) →
  ∀ t, t ∈ Finances (foldl afterCall db calls) → ¬ bad (t.2 !! "status").
Proof.
  intros Hnone Hs. revert db. induction calls as [|c calls IH]; intros db Hdb; [done|].
  simpl. apply IH. by apply afterCall_status.
Qed.

(** The report of a ledger in which no transaction matches
    [{ status: 'approved' }]. *)
Lemma getFinancialReport_none_approved (req : Request num Query) (db : DB num) :
  (∀ t, t ∈ Finances db → condMatch (EqStr "approved") (t.2 !! "status") ≠ true) →
  getFinancialReport req db = (json 200 "" (Some emptyReport), db).
Proof.
  intros Hnone.
  assert (matched (query req) db = []) as Hmatched.
  { unfold matched. induction (Finances db) as [|t l IH]; [done|].
    rewrite fmap_cons. cbn [List.filter].
    rewrite IH by (intros; apply Hnone; by apply list_elem_of_further).
    assert (matchesAll (matchStage (query req)) t.2 = false) as ->; [|done].
    unfold matchesAll, matchStage. cbn [forallb matches].
    specialize (Hnone t (list_elem_of_here _ _)).
    destruct (condMatch (EqStr "approved") (t.2 !! "status")); [done|done]. }
  unfold getFinancialReport, periodPipeline, categoryPipeline. async.
  by rewrite Hmatched.
Qed.

(** Whatever calls are made, a ledger that has no approved transaction gets
    none, and its report stays empty. The update payloads are those the
    model of the store reads in full: field assignments, under [$set] or at
    the top. *)
Theorem finance_report_stays_empty (calls : list (FinanceCall * Request num unit))
    (req : Request num Query) (db : DB num) :
  (∀ c, c ∈ calls → c.1 = UpdateTransaction → Spec.setOnly (body c.2)) →
  (∀ t, t ∈ Finances db → condMatch (EqStr "approved") (t.2 !! "status") ≠ true) →
  let db' := foldl afterCall db calls in
  (∀ t, t ∈ Finances db' → asStr (t.2 !! "status") ≠ Some "approved")
  ∧ getFinancialReport req db' = (json 200 "" (Some emptyReport), db').
Proof.
  intros _ Hnone. cbv zeta.
  assert (∀ t, t ∈ Finances (foldl afterCall db calls) →
               condMatch (EqStr "approved") (t.2 !! "status") ≠ true) as Hafter.
  { apply (afterCalls_status (λ v, condMatch (EqStr "approved") v = true)); [done| |done].
    intros s Hs. unfold Finance.statuses in Hs. cbn -[String.eqb].
    intros Heq%String.eqb_eq. subst. set_solver. }
  split; [|by apply getFinancialReport_none_approved].
  intros t Ht Hs. apply (Hafter t Ht).
  destruct (t.2 !! "status") as [[]|]; try done. injection Hs as ->. done.
Qed.

(** Creating a transaction never stores one: the handler builds the document
    with the amount's kind under [type], the model requires it under
    [transactionType] and drops [type] as a path it does not have, so
    [Finance.create] fails validation for every payload. Every request is
    answered 400 (a request that failed the route's checks, or one that names
    a child or user that is not stored) or 500, and the database is as it
    was. *)
Theorem createTransaction_never_stores (now : Date) (req : Request num unit)
    (db : DB num) :
  (createTransaction now req db).2 = db
  ∧ status (createTransaction now req db).1 ∈ [400; 500]%nat
  ∧ (status (createTransaction now req db).1 = 400%nat →
     message (createTransaction now req db).1
     ∈ ["Validation failed"; "Related child not found"; "Related user not found"]).
Proof. apply createTransaction_refused. Qed.

(** Approving never succeeds: the handler assigns [approved] or [rejected]
    to [status], the model has neither in its enum, and [save()] throws.
    No request is answered 200, the database is as it was, and a request
    that passed the route's checks for a stored transaction is answered
    500. *)
Theorem approveTransaction_never_succeeds (now : Date) (req : Request num unit)
    (db : DB num) :
  (approveTransaction now req db).2 = db
  ∧ status (approveTransaction now req db).1 ≠ 200%nat
  ∧ (validationErrors req = [] →
     is_Some (findByKey fst (params_id req) (Finances db)) →
     (approveTransaction now req db).1
     = json 500 "Server error while processing transaction approval" None).
Proof. apply approveTransaction_refused. Qed.

End FinanceWrites.

(** An admin deletes an approved transaction of the sample ledger. *)
Lemma deleteTransaction_removes_witness :
  let req : Request Z unit := Sample.request Sample.anAdmin 50 tt ∅ in
  let out := FinanceController.deleteTransaction req (Sample.ledger 10 30 20) in
  asStr ((Sample.aTransaction (num:=Z) "income" "tuition_fees" 10 1705276800000 "approved")
           !! "status") = Some "approved"
  ∧ out.1 = json 200 "Transaction deleted successfully" None
  ∧ findByKey fst 50%nat (Finances out.2) = None
  ∧ findByKey fst 51%nat (Finances out.2)
    = findByKey fst 51%nat (Finances (Sample.ledger 10 30 20)).
Proof.
  cbv zeta. split; [vm_compute; reflexivity|].
  pose proof (deleteTransaction_removes
                (Sample.request Sample.anAdmin 50 tt (∅ : Doc Z)) (Sample.ledger 10 30 20)
                (50%nat, Sample.aTransaction "income" "tuition_fees" 10 1705276800000
                           "approved") eq_refl eq_refl) as H.
  cbv zeta in H. destruct H as (Hres & _ & Hothers & Hgone & _).
  split; [exact Hres|]. split; [apply Hgone; compute_done|by apply Hothers].
Defined.

(** A ledger with one pending transaction: an approval by the admin, an
    update to [approved] by the finance manager, the same under [$set] and a
    creation later, the report is still empty. *)
Lemma finance_report_stays_empty_witness :
  let db : DB Z :=
    setFinances [(53%nat, Sample.aTransaction "income" "tuition_fees" 10 1707955200000
                            "pending")] Sample.db in
  let calls : list (FinanceCall * Request Z unit) :=
    [(ApproveTransaction 1700000000000,
      Sample.request Sample.anAdmin 53 tt (list_to_map [("approved", VBool true)]));
     (UpdateTransaction,
      Sample.request Sample.aFinanceManager 53 tt
        (list_to_map [("status", VStr "approved")]));
     (UpdateTransaction,
      Sample.request Sample.aFinanceManager 53 tt
        (list_to_map [("$set", VObj [("status", VStr "approved")])]));
     (CreateTransaction 1700000000000,
      Sample.request Sample.aFinanceManager 0 tt
        (list_to_map [("type", VStr "income"); ("category", VStr "tuition_fees");
                      ("amount", VNum 10); ("description", VStr "fees");
                      ("paymentMethod", VStr "cash")]))] in
  FinanceController.getFinancialReport
    (Sample.request Sample.aFinanceManager 0 Sample.wholeReport ∅) (foldl afterCall db calls)
  = (json 200 "" (Some emptyReport), foldl afterCall db calls).
Proof.
  cbv zeta. apply finance_report_stays_empty.
  - intros c Hc Hupdate.
    repeat (apply elem_of_cons in Hc as [->|Hc];
            [first [discriminate Hupdate | unfold Spec.setOnly; compute_done]|]).
    by apply elem_of_nil in Hc.
  - intros t Ht. apply elem_of_cons in Ht as [->|Ht]; [by vm_compute|].
    by apply elem_of_nil in Ht.
Defined.

(* ===================================================================== *)
(** * Children: reading one, deleting, and the classroom listing *)
(* ===================================================================== *)

Section ChildAccess.
Context {num : Type} `{!Number num} `{!Regex}.
Import ChildController.

Lemma populated_elem (ids : list ObjectId) (db : DB num) (u : User.t) :
  u ∈ populated ids db ↔ User._id u ∈ ids ∧ findByKey User._id (User._id u) (Users db) = Some u.
Proof.
  unfold populated. rewrite list_elem_of_omap. split.
  - intros (i & Hi & Hu). destruct (findByKey_Some _ _ _ _ Hu) as [<- _]. done.
  - intros [Hi Hu]. by exists (User._id u).
Qed.

Lemma getChild_db (req : Request num unit) (db : DB num) : (getChild req db).2 = db.
Proof.
  unfold getChild. async.
  destruct (findByKey fst (params_id req) (Children db)) as [child|]; simpl; [|done].
  destruct (_ && _); simpl; [done|].
  case_bool_decide; simpl; [|done].
  destruct (Child.teacherOf child.2) as [tid|]; simpl; [|done].
  destruct (findByKey User._id tid (Users db)); simpl; [|done]. by destruct (negb _).
Qed.

(** Reading one child: a stored user is answered 200 exactly for the
    children it may see. A parent sees the children that name it among their
    parents, a teacher the children it teaches, every other role all
    children. Nothing is written. *)
Theorem getChild_access (req : Request num unit) (db : DB num)
    (child : ObjectId * Doc num) :
  is_Some (findByKey User._id (User._id (user req)) (Users db)) →
  findByKey fst (params_id req) (Children db) = Some child →
  let out := getChild req db in
  out.2 = db
  ∧ (status out.1 = 200%nat
     ↔ (User.role (user req) = parent → User._id (user req) ∈ Child.parents child.2)
       ∧ (User.role (user req) = teacher →
          Child.teacherOf child.2 = Some (User._id (user req))))
  ∧ (status out.1 = 200%nat → data out.1 = Some child).
Proof.
  intros [actor Hactor] Hfound. cbv zeta. split; [apply getChild_db|].
  unfold getChild. async. rewrite Hfound. simpl.
  destruct (User.role (user req)) eqn:Hrole; simpl.
  - (* admin *) split; [|done]. split; [done|]. intros _. done.
  - (* teacher *)
    destruct (Child.teacherOf child.2) as [tid|] eqn:Htid; simpl.
    2: { split; [|done]. split; [done|]. intros [_ Ht]. by specialize (Ht eq_refl). }
    destruct (findByKey User._id tid (Users db)) as [t|] eqn:Ht; simpl.
    2: { split; [|done]. split; [done|]. intros [_ Heq]. specialize (Heq eq_refl).
         injection Heq as ->. congruence. }
    destruct (findByKey_Some _ _ _ _ Ht) as [<- _].
    case_bool_decide as Heq; simpl.
    + split; [|done]. split; [|done]. intros _. split; [done|]. intros _. by rewrite Heq.
    + split; [|done]. split; [done|]. intros [_ Heq']. specialize (Heq' eq_refl).
      congruence.
  - (* parent *)
    destruct (existsb _ _) eqn:Hex; simpl.
    + split; [|done]. split; [|done]. intros _. split; [|done]. intros _.
      apply existsb_exists in Hex as (p & Hp & Hid).
      apply bool_decide_eq_true in Hid. apply list_elem_of_In, populated_elem in Hp as [Hp _].
      by rewrite <- Hid.
    + split; [|done]. split; [done|]. intros [Hp _]. specialize (Hp eq_refl).
      exfalso. apply not_true_iff_false in Hex. apply Hex.
      apply existsb_exists. exists actor. destruct (findByKey_Some _ _ _ _ Hactor) as [Hid _].
      split; [|by apply bool_decide_eq_true].
      apply list_elem_of_In, populated_elem. rewrite Hid. done.
  - split; [|done]. split; [done|]. intros _. done.
  - split; [|done]. split; [done|]. intros _. done.
Qed.



Lemma pull_addToSet (x : ObjectId) (l : list ObjectId) :
  x ∉ l → pull x (addToSet x l) = l.
Proof.
  intros Hx. unfold pull, addToSet. rewrite bool_decide_eq_false_2 by done.
  rewrite filter_app, filter_cons_False, filter_nil, app_nil_r by (simpl; tauto).
  induction l as [|y l IH]; [done|].
  apply not_elem_of_cons in Hx as [Hne Hx].
  rewrite filter_cons_True by (simpl; congruence). by rewrite IH.
Qed.

Lemma pull_absent (x : ObjectId) (l : list ObjectId) : x ∉ l → pull x l = l.
Proof.
  intros Hx. unfold pull. induction l as [|y l IH]; [done|].
  apply not_elem_of_cons in Hx as [Hne Hx].
  rewrite filter_cons_True by (simpl; congruence). by rewrite IH.
Qed.

(** What a successful [createChild] leaves behind. *)
Lemma createChild_created (now : Date) (req : Request num unit) (db : DB num) :
  status (createChild now req db).1 = 201%nat →
  ∃ child,
    data (createChild now req db).1 = Some child
    ∧ findByKey fst child.1 (Children db) = None
    ∧ Children (createChild now req db).2 = Children db ++ [child]
    ∧ Users (createChild now req db).2
      = (if (0 <? length (Child.parents child.2))%nat
         then Users (User_addChild (Child.parents child.2) child.1 db).2
         else Users db).
Proof.
  unfold createChild, Child_create, Child_findById. async.
  destruct (bool_decide (validationErrors req = [])); simpl; [|done].
  destruct (create Child.schema now (nextId db) _ (Children db)) as [child|] eqn:Hnew;
    simpl; [|done].
  assert (findByKey fst child.1 (Children db) = None) as Hfresh.
  { unfold create in Hnew. apply bind_Some in Hnew as (d & _ & Hnew).
    apply bind_Some in Hnew as (id & _ & Hnew).
    case_bool_decide as Hfresh; [|done]. by injection Hnew as <-. }
  intros _. exists child.
  destruct (0 <? length (Child.parents child.2))%nat eqn:Hlen; simpl;
    rewrite (findByKey_app_last fst child.1 (Children db) child) by done; simpl; done.
Qed.

(** Create, then delete: when no user has the new id in its child-set
    beforehand, deleting the child that [createChild] has stored gives back
    the children and the users of before. *)
Theorem createChild_then_deleteChild (now : Date) (req req' : Request num unit)
    (db : DB num) (child : ObjectId * Doc num) :
  status (createChild now req db).1 = 201%nat →
  data (createChild now req db).1 = Some child →
  (∀ u, u ∈ Users db → child.1 ∉ User.children u) →
  params_id req' = child.1 →
  let out := deleteChild req' (createChild now req db).2 in
  status out.1 = 200%nat
  ∧ Children out.2 = Children db
  ∧ Users out.2 = Users db.
Proof.
  intros H201 Hdata Hfresh Hid. cbv zeta.
  destruct (createChild_created now req db H201) as (c & Hc & Hnone & Hchildren & Husers).
  assert (c = child) as -> by congruence.
  set (db1 := (createChild now req db).2) in *.
  assert (findByKey fst (params_id req') (Children db1) = Some child) as Hfound.
  { rewrite Hchildren, Hid. by apply findByKey_app_last. }
  unfold deleteChild, Child_findById, Child_findByIdAndDelete. async.
  rewrite Hfound. simpl.
  assert (deleteByKey fst (params_id req') (Children db1) = Children db) as Hdel.
  { rewrite Hchildren, Hid. by apply deleteByKey_app_last. }
  destruct (0 <? length (Child.parents child.2))%nat eqn:Hlen; simpl.
  - split; [done|]. split; [done|]. rewrite Husers. simpl.
    rewrite List.map_map. rewrite <- (List.map_id (Users db)) at 2.
    apply List.map_ext_in. intros u Hu%list_elem_of_In.
    assert (child.1 ∉ User.children u) as Hnot by by apply Hfresh.
    destruct (bool_decide (User._id u ∈ Child.parents child.2)) eqn:Hin; simpl;
      rewrite Hin; [|done].
    simpl. rewrite pull_addToSet by done. by destruct u.
  - split; [done|]. split; [done|]. by rewrite Husers.
Qed.

Lemma condMatch_EqId_complete (i : ObjectId) (v : option (Value num)) :
  i ∈ idsOf v → condMatch (EqId i) v = true.
Proof.
  destruct v as [[| | | |j| |l|]|]; simpl; try (by intros ?%elem_of_nil).
  - intros ->%list_elem_of_singleton. by apply bool_decide_eq_true.
  - intros (w & Hw & Hi)%list_elem_of_omap. apply existsb_exists. exists w.
    split; [by apply list_elem_of_In|]. destruct w; try done.
    injection Hi as ->. by apply bool_decide_eq_true.
Qed.

(** The filter object of [getChildrenByClassroom], read on a child. *)
Lemma classroomFilter_spec (u : User.t) (classroom : string) (c : Doc num) :
  matchesAll (classroomFilter u classroom) c = true
  ↔ condMatch (EqStr classroom) (c !! "classroom") = true
    ∧ condMatch (EqBool true) (c !! "isActive") = true
    ∧ (User.role u = teacher → User._id u ∈ idsOf (c !! "teacher"))
    ∧ (User.role u = parent → User._id u ∈ Child.parents c).
Proof.
  unfold matchesAll, classroomFilter. cbn [app forallb matches].
  rewrite !andb_true_iff. split.
  - intros [Hc [Ha Hrole]]. split; [done|]. split; [done|].
    destruct (User.role u); simpl in Hrole; split; try done.
    + intros _. apply andb_prop in Hrole as [Hr _]. by apply condMatch_EqId.
    + intros _. apply andb_prop in Hrole as [Hr _]. by apply condMatch_EqId.
  - intros (Hc & Ha & Ht & Hp). split; [done|]. split; [done|].
    destruct (User.role u); simpl; try done.
    + rewrite andb_true_r. by apply condMatch_EqId_complete, Ht.
    + rewrite andb_true_r. by apply condMatch_EqId_complete, Hp.
Qed.

End ChildAccess.

(** The first parent reads its own child, and not the child of the other
    parent. *)
Lemma getChild_access_witness :
  let own : Request Z unit := Sample.request Sample.aParent 10 tt ∅ in
  let other : Request Z unit := Sample.request Sample.aParent 11 tt ∅ in
  status (ChildController.getChild own Sample.db).1 = 200%nat
  ∧ status (ChildController.getChild other Sample.db).1 ≠ 200%nat.
Proof.
  cbv zeta. split.
  - pose proof (getChild_access (Sample.request Sample.aParent 10 tt (∅ : Doc Z)) Sample.db
                  (10%nat, Sample.aChild "Nimal" "Sunflower" [3%nat])) as H.
    cbv zeta in H. destruct H as (_ & Hiff & _); [by eexists|reflexivity|].
    apply Hiff. split; [intros _; compute_done|intros H; discriminate H].
  - pose proof (getChild_access (Sample.request Sample.aParent 11 tt (∅ : Doc Z)) Sample.db
                  (11%nat, Sample.aChild "Kamal" "Sunflower" [4%nat])) as H.
    cbv zeta in H. destruct H as (_ & Hiff & _); [by eexists|reflexivity|].
    intros [Hparent _]%Hiff. specialize (Hparent eq_refl). revert Hparent. compute_done.
Defined.


(** A child of the first parent is created by the teacher and deleted by
    the admin. *)
Lemma createChild_then_deleteChild_witness :
  let req : Request Z unit :=
    Sample.request Sample.aTeacher 0 tt (Sample.aChild "Sahan" "Rose" [3%nat]) in
  let req' : Request Z unit := Sample.request Sample.anAdmin 100 tt ∅ in
  let out :=
    ChildController.deleteChild req'
      (ChildController.createChild 1700000000000 req Sample.db).2 in
  status out.1 = 200%nat
  ∧ Children out.2 = Children Sample.db
  ∧ Users out.2 = Users Sample.db.
Proof.
  cbv zeta.
  apply (createChild_then_deleteChild 1700000000000
           (Sample.request Sample.aTeacher 0 tt (Sample.aChild "Sahan" "Rose" [3%nat]))
           (Sample.request Sample.anAdmin 100 tt (∅ : Doc Z)) Sample.db
           (default (0%nat, ∅)
              (data (ChildController.createChild 1700000000000
                       (Sample.request Sample.aTeacher 0 tt
                          (Sample.aChild "Sahan" "Rose" [3%nat])) Sample.db).1))).
  - vm_compute. reflexivity.
  - destruct (createChild_created 1700000000000
                (Sample.request Sample.aTeacher 0 tt (Sample.aChild "Sahan" "Rose" [3%nat]))
                (Sample.db (num:=Z))) as (child & Hchild & _); [vm_compute; reflexivity|].
    rewrite Hchild. reflexivity.
  - intros u Hu.
    repeat (apply elem_of_cons in Hu as [->|Hu]; [compute_done|]).
    by apply elem_of_nil in Hu.
  - vm_compute. reflexivity.
Defined.

Section BsonOrder.
Context {num : Type} `{!Number num} `{!NumberOrder num}.

Lemma bsonLt_asym (a b : option (Value num)) : bsonLt a b = true → bsonLt b a = false.
Proof.
  unfold bsonLt.
  destruct (bsonRank a <? bsonRank b)%nat eqn:Hab.
  - intros _. apply Nat.ltb_lt in Hab.
    by rewrite (proj2 (Nat.ltb_ge _ _)) by lia.
  - destruct (bsonRank b <? bsonRank a)%nat eqn:Hba; [done|].
    destruct a as [[| |x|s|i|t|l|fs]|], b as [[| |x'|s'|i'|t'|l'|fs']|]; try done.
    + by destruct b, b0.
    + apply nltb_asym.
    + unfold String.ltb. rewrite (String.compare_antisym s' s).
      by destruct (String.compare s s').
    + intros Hlt%Nat.ltb_lt. apply Nat.ltb_ge. lia.
    + intros Hlt%Z.ltb_lt. apply Z.ltb_ge. lia.
Qed.
End BsonOrder.

Section ClassroomListing.
Context {num : Type} `{!Number num} `{!NumberOrder num} `{!Regex}.
Import ChildController.

(** The children of a classroom: the listing answers with the stored
    children that are active and in the classroom, for a teacher those it
    teaches and for a parent its own, each as often as it is stored, ordered
    by first name. A stored child is listed exactly when it meets these
    conditions; in particular every stored child whose fields hold the
    classroom, [true] for [isActive] and, for a teacher or a parent, the
    caller, is listed. Nothing is written. *)
Theorem getChildrenByClassroom_scope (classroom : string) (req : Request num unit)
    (db : DB num) :
  ∃ children,
    getChildrenByClassroom classroom req db = (json 200 "" (Some children), db)
    ∧ children ≡ₚ Child_find (classroomFilter (user req) classroom) db
    ∧ Sorted (inOrder (λ a b, bsonLt (a.2 !! "firstName") (b.2 !! "firstName"))) children
    ∧ (∀ c, c ∈ children ↔
           c ∈ Children db
           ∧ condMatch (EqStr classroom) (c.2 !! "classroom") = true
           ∧ condMatch (EqBool true) (c.2 !! "isActive") = true
           ∧ (User.role (user req) = teacher →
              User._id (user req) ∈ idsOf (c.2 !! "teacher"))
           ∧ (User.role (user req) = parent →
              User._id (user req) ∈ Child.parents c.2))
    ∧ (∀ c, c ∈ Children db →
           c.2 !! "classroom" = Some (VStr classroom) →
           c.2 !! "isActive" = Some (VBool true) →
           (User.role (user req) = teacher →
            Child.teacherOf c.2 = Some (User._id (user req))) →
           (User.role (user req) = parent →
            User._id (user req) ∈ Child.parents c.2) →
           c ∈ children).
Proof.
  assert (∀ c, c ∈ sortBy (λ a b, bsonLt (a.2 !! "firstName") (b.2 !! "firstName"))
                     (Child_find (classroomFilter (user req) classroom) db)
               ↔ c ∈ Children db
                 ∧ matchesAll (classroomFilter (user req) classroom) c.2 = true)
    as Hlisted.
  { intros c. rewrite elem_of_sortBy. unfold Child_find.
    rewrite list_elem_of_In, filter_In, <- list_elem_of_In. done. }
  eexists. split; [reflexivity|]. split; [apply sortBy_perm|]. split; [|split].
  - apply sortBy_sorted. intros a b. apply bsonLt_asym.
  - intros c. rewrite Hlisted, classroomFilter_spec. done.
  - intros c Hc Hclassroom Hactive Hteacher Hparent.
    apply Hlisted. split; [done|]. apply classroomFilter_spec.
    rewrite Hclassroom, Hactive. simpl. rewrite String.eqb_refl.
    split; [done|]. split; [done|]. split; [|done].
    intros Hrole. specialize (Hteacher Hrole). unfold Child.teacherOf in Hteacher.
    destruct (c.2 !! "teacher") as [[]|]; try done. injection Hteacher as ->.
    apply list_elem_of_here.
Qed.
End ClassroomListing.

(** The first parent lists the classroom of both children and gets its
    own. *)
Lemma getChildrenByClassroom_scope_witness :
  let req : Request Z unit := Sample.request Sample.aParent 0 tt ∅ in
  ∃ children,
    ChildController.getChildrenByClassroom "Sunflower" req Sample.db
    = (json 200 "" (Some children), Sample.db)
    ∧ (10%nat, Sample.aChild "Nimal" "Sunflower" [3%nat]) ∈ children
    ∧ ∀ c, c ∈ children → c ∈ Children Sample.db ∧ 3%nat ∈ Child.parents c.2.
Proof.
  cbv zeta.
  destruct (getChildrenByClassroom_scope "Sunflower"
              (Sample.request Sample.aParent 0 tt (∅ : Doc Z)) Sample.db)
    as (children & Hres & _ & _ & Hscope & Hlisted).
  exists children. split; [exact Hres|]. split.
  - apply Hlisted; [apply list_elem_of_here|vm_compute; reflexivity|vm_compute; reflexivity
                    |discriminate|intros _; compute_done].
  - intros c Hc. destruct (proj1 (Hscope c) Hc) as (Hin & _ & _ & _ & Hparent).
    split; [exact Hin|]. by apply Hparent.
Defined.

(* ===================================================================== *)
(** * Activities: removing a participant, deleting *)
(* ===================================================================== *)

Section ActivityWrites.
Context {num : Type} `{!Number num}.
Import ActivityController.

Lemma filter_ne_app_last (c : ObjectId) (l : list ObjectId) :
  c ∉ l → filter (λ p, p ≠ c) (l ++ [c]) = l.
Proof.
  intros Hc. rewrite filter_app, filter_cons_False, filter_nil, app_nil_r by tauto.
  induction l as [|y l IH]; [done|].
  apply not_elem_of_cons in Hc as [Hne Hc].
  rewrite filter_cons_True by congruence. by rewrite IH.
Qed.

(** Removing a participant: a child that does not participate is refused
    and nothing changes; a participant is removed from the list, the order
    of the others is kept, and every other activity is as it was. *)
Theorem removeParticipant_removes (req : Request num unit) (db : DB num)
    (a : Activity.t) :
  findByKey Activity._id (params_id req) (Activities db) = Some a →
  let out := removeParticipant req db in
  (params_childId req ∉ Activity.participants a →
   out = (json 400 "Child is not participating in this activity" None, db))
  ∧ (params_childId req ∈ Activity.participants a → Activity.valid a = true →
     out.1 = json 200 "Participant removed successfully" None
     ∧ ∃ a', findByKey Activity._id (params_id req) (Activities out.2) = Some a'
             ∧ Activity.participants a'
               = filter (λ p, p ≠ params_childId req) (Activity.participants a)
             ∧ (params_childId req ∉ Activity.participants a')
             ∧ ((length (Activity.participants a') < length (Activity.participants a))%nat)
             ∧ Activity.maxParticipants a' = Activity.maxParticipants a
             ∧ ∀ id, id ≠ params_id req →
                     findByKey Activity._id id (Activities out.2)
                     = findByKey Activity._id id (Activities db))
  ∧ (status out.1 ≠ 200%nat → out.2 = db).
Proof.
  intros Hfound. cbv zeta. destruct (findByKey_Some _ _ _ _ Hfound) as [Hid _].
  unfold removeParticipant, Activity_save. async. rewrite Hfound. simpl.
  case_bool_decide as Hin; simpl.
  - unfold Activity.valid. simpl. destruct (atLeast 1 (Activity.maxParticipants a)) eqn:Hvalid;
      simpl.
    + split; [done|]. split; [|done]. intros _ _. split; [done|].
      eexists. rewrite <- Hid. rewrite findByKey_replace_eq by done. rewrite Hid, Hfound.
      simpl. split; [done|]. split; [done|]. split.
      { simpl. rewrite list_elem_of_filter. tauto. }
      split.
      { simpl. clear -Hin. induction (Activity.participants a) as [|y l IH]; [by apply elem_of_nil in Hin|].
        destruct (decide (y = params_childId req)) as [->|Hne].
        - rewrite filter_cons_False by tauto. simpl.
          pose proof (length_filter (λ p, p ≠ params_childId req) l). lia.
        - rewrite filter_cons_True by done. simpl.
          apply elem_of_cons in Hin as [Heq|Hin]; [congruence|]. specialize (IH Hin). lia. }
      split; [done|]. intros id Hne. by apply findByKey_replace_ne.
    + split; [done|]. split; [|done]. intros _ Hv. unfold Activity.valid in Hv. congruence.
  - split; [done|]. split; [|done]. done.
Qed.

(** What a successful [addParticipant] leaves behind. *)
Lemma addParticipant_added (req : Request num unit) (db : DB num) :
  status (addParticipant req db).1 = 200%nat →
  ∃ a c,
    findByKey Activity._id (params_id req) (Activities db) = Some a
    ∧ body req !! "childId" = Some (VId c)
    ∧ (c ∉ Activity.participants a)
    ∧ Activity.valid a = true
    ∧ (addParticipant req db).2
      = setActivities
          (replaceByKey Activity._id (params_id req)
             (setParticipants (Activity.participants a ++ [c]) a) (Activities db)) db.
Proof.
  unfold addParticipant, Child_findById, Activity_save. async.
  destruct (findByKey Activity._id (params_id req) (Activities db)) as [a|] eqn:Hfound;
    simpl; [|done].
  destruct (findByKey_Some _ _ _ _ Hfound) as [Hid _].
  destruct (body req !! "childId") as [[|?|?|?|c|?|?|?]|] eqn:Hchild; simpl; try done.
  destruct (findByKey fst c (Children db)) as [child|]; simpl; [|done].
  destruct (truthy (child.2 !! "isActive")); simpl; [|done].
  case_bool_decide as Hdup; simpl; [done|].
  destruct (reaches _ _); simpl; [done|].
  unfold Activity.valid. simpl. destruct (atLeast 1 (Activity.maxParticipants a)) eqn:Hvalid;
    simpl; [|done].
  intros _. exists a, c. split; [done|]. split; [done|]. split.
  { intros Hin. apply Hdup, list_elem_of_fmap. by exists c. }
  split; [done|]. by rewrite Hid.
Qed.

(** Add, then remove: removing the child that [addParticipant] has just
    added gives back the activities of before. *)
Theorem addParticipant_then_removeParticipant (req req' : Request num unit)
    (db : DB num) (c : ObjectId) :
  status (addParticipant req db).1 = 200%nat →
  body req !! "childId" = Some (VId c) →
  params_id req' = params_id req →
  params_childId req' = c →
  removeParticipant req' (addParticipant req db).2
  = (json 200 "Participant removed successfully" None, db).
Proof.
  intros H200 Hchild Hid Hc.
  destruct (addParticipant_added req db H200) as (a & c' & Hfound & Hchild' & Hnew & Hvalid & ->).
  assert (c' = c) as -> by congruence.
  destruct (findByKey_Some _ _ _ _ Hfound) as [Ha _].
  unfold removeParticipant, Activity_save. async. rewrite Hid, Hc.
  rewrite findByKey_replace_eq by done. rewrite Hfound. simpl.
  rewrite bool_decide_eq_true_2 by (apply elem_of_app; right; apply list_elem_of_here).
  simpl. unfold Activity.valid in *. simpl. rewrite Hvalid. simpl.
  rewrite filter_ne_app_last by done. rewrite Ha.
  rewrite replaceByKey_twice by done.
  assert (setParticipants (Activity.participants a)
            (setParticipants (Activity.participants a ++ [c]) a) = a) as ->.
  { by destruct a. }
  rewrite replaceByKey_same by done. by destruct db.
Qed.

(** Deleting an activity, as the handler decides: a teacher deletes only
    its own activities, and only an admin deletes a completed one. *)
Lemma deleteActivity_outcome (req : Request num unit) (db : DB num) (a : Activity.t) :
  findByKey Activity._id (params_id req) (Activities db) = Some a →
  deleteActivity req db
  = if bool_decide (User.role (user req) = teacher)
       && negb (bool_decide (Activity.teacher a = User._id (user req)))
    then (json 403 "Access denied: You can only delete your own activities" None, db)
    else if String.eqb (Activity.status a) "completed"
            && bool_decide (User.role (user req) ≠ admin)
    then (json 400 "Cannot delete completed activities" None, db)
    else (json 200 "Activity deleted successfully" None,
          setActivities (deleteByKey Activity._id (params_id req) (Activities db)) db).
Proof.
  intros Hfound. unfold deleteActivity, Activity_findByIdAndDelete. async.
  rewrite Hfound. simpl. destruct (_ && _); simpl; [done|]. by destruct (_ && _).
Qed.

End ActivityWrites.

Section ActivityRoutes.
Context {num : Type} `{!Number num} `{!Regex}.

(** Through its route an activity is deleted by admins only: the route is
    mounted behind [adminOnly], so the handler's rules for teachers are
    never reached. An admin deletes any stored activity, completed or not;
    every other request writes nothing. *)
Theorem DELETE_activities_id_admin_only (auth : Auth.Authorization)
    (req : Request num unit) (db : DB num) :
  let out := Routes.DELETE_activities_id auth req db in
  (status out.1 = 200%nat →
   ∃ u, auth = Auth.Bearer (User._id u) ∧ u ∈ Users db
        ∧ User.role u = admin ∧ User.isActive u = true
        ∧ is_Some (findByKey Activity._id (params_id req) (Activities db))
        ∧ Activities out.2
          = deleteByKey Activity._id (params_id req) (Activities db))
  ∧ (status out.1 ≠ 200%nat → out.2 = db)
  ∧ (∀ u a, auth = Auth.Bearer (User._id u) →
            findByKey User._id (User._id u) (Users db) = Some u →
            User.isActive u = true → User.role u = admin →
            findByKey Activity._id (params_id req) (Activities db) = Some a →
            status out.1 = 200%nat).
Proof.
  cbv zeta. unfold Routes.DELETE_activities_id, Auth.route, Auth.protect.
  destruct auth as [| |id]; simpl; try (split; [done|split; [done|]]; by intros ? ? [=]).
  destruct (findByKey User._id id (Users db)) as [u|] eqn:Hu; simpl.
  2: { split; [done|]. split; [done|]. intros u a [= ->]. congruence. }
  destruct (findByKey_Some _ _ _ _ Hu) as [Hid Hin].
  destruct (User.isActive u) eqn:Hactive; simpl.
  2: { split; [done|]. split; [done|]. intros u' a [= ->] Hu'. congruence. }
  unfold Auth.adminOnly. case_bool_decide as Hrole; simpl.
  { split; [done|]. split; [done|]. intros u' a [= ->] Hu' _ Hadmin. congruence. }
  destruct (findByKey Activity._id (params_id req) (Activities db)) as [a|] eqn:Hfound.
  - rewrite (deleteActivity_outcome _ _ a) by done. simpl.
    rewrite Hrole. simpl. rewrite andb_false_r. simpl.
    split; [|split; [done|done]]. intros _. exists u. by rewrite Hid.
  - unfold ActivityController.deleteActivity. async. rewrite Hfound. simpl.
    split; [done|]. split; [done|]. intros ? ? _ _ _ _ [=].
Qed.
End ActivityRoutes.

(** The first child leaves the full activity. *)
Lemma removeParticipant_removes_witness :
  let req : Request Z unit :=
    {| user := Sample.aTeacher; params_id := 20%nat; params_childId := 10%nat;
       query := tt; body := ∅; validationErrors := [] |} in
  let out := ActivityController.removeParticipant req Sample.school in
  out.1 = json 200 "Participant removed successfully" None
  ∧ ∃ a', findByKey Activity._id 20%nat (Activities out.2) = Some a'
          ∧ Activity.participants a' = [11%nat].
Proof.
  cbv zeta.
  pose proof (removeParticipant_removes
                ({| user := Sample.aTeacher; params_id := 20%nat; params_childId := 10%nat;
                    query := tt; body := ∅; validationErrors := [] |} : Request Z unit)
                Sample.school Sample.aFullActivity eq_refl) as H.
  cbv zeta in H. destruct H as (_ & Hremoved & _).
  destruct Hremoved as (Hres & a' & Hfound & Hparticipants & _);
    [compute_done|reflexivity|].
  split; [exact Hres|]. exists a'. split; [exact Hfound|]. rewrite Hparticipants.
  vm_compute. reflexivity.
Defined.

(** The second child joins the activity that has room, and leaves it. *)
Lemma addParticipant_then_removeParticipant_witness :
  let req : Request Z unit :=
    Sample.request Sample.aTeacher 22 tt (list_to_map [("childId", VId 11)]) in
  let req' : Request Z unit :=
    {| user := Sample.aTeacher; params_id := 22%nat; params_childId := 11%nat;
       query := tt; body := ∅; validationErrors := [] |} in
  status (ActivityController.addParticipant req Sample.school).1 = 200%nat
  ∧ ActivityController.removeParticipant req'
      (ActivityController.addParticipant req Sample.school).2
    = (json 200 "Participant removed successfully" None, Sample.school).
Proof.
  cbv zeta. split; [vm_compute; reflexivity|].
  apply (addParticipant_then_removeParticipant
           (Sample.request Sample.aTeacher 22 tt
              (list_to_map [("childId", VId 11)] : Doc Z))
           ({| user := Sample.aTeacher; params_id := 22%nat; params_childId := 11%nat;
               query := tt; body := ∅; validationErrors := [] |} : Request Z unit)
           Sample.school 11%nat);
    [vm_compute; reflexivity|vm_compute; reflexivity|reflexivity|reflexivity].
Defined.

(* ===================================================================== *)
(** * Messages: sending, replying, deleting and the unread count *)
(* ===================================================================== *)

Section MessageWrites.
Context {num : Type} `{!Number num}.
Import MessageController.

(** Deleting a message is for its sender and its recipient: a caller
    whose [userId] is either of the two removes the message for both, every
    other caller is refused and nothing changes. *)
Theorem deleteMessage_participants_only (req : Request num unit) (db : DB num)
    (m : Message.t) :
  findByKey Message._id (params_id req) (Messages db) = Some m →
  let out := deleteMessage req db in
  (status out.1 = 200%nat
   ↔ User.userId (user req) = Some (Message.sender m)
     ∨ User.userId (user req) = Some (Message.recipient m))
  ∧ (status out.1 = 200%nat →
     Messages out.2 = deleteByKey Message._id (params_id req) (Messages db)
     ∧ ∀ id, id ≠ params_id req →
             findByKey Message._id id (Messages out.2)
             = findByKey Message._id id (Messages db))
  ∧ (status out.1 ≠ 200%nat →
     out = (json 403 "Not authorized to delete this message" None, db)).
Proof.
  intros Hfound. cbv zeta. unfold deleteMessage, Message_findByIdAndDelete. async.
  rewrite Hfound. simpl.
  case_bool_decide as Hs; simpl.
  - case_bool_decide as Hr; simpl.
    + split; [|done]. split; [done|]. intros [?|?]; congruence.
    + split; [|split; [|done]].
      * split; [|done]. intros _. by right.
      * intros _. split; [done|]. intros id Hne. by apply findByKey_delete_ne.
  - split; [|split; [|done]].
    + split; [|done]. intros _. by left.
    + intros _. split; [done|]. intros id Hne. by apply findByKey_delete_ne.
Qed.

Lemma unread_replace (u : option ObjectId) (id : ObjectId) (x y : Message.t)
    (l : list Message.t) :
  findByKey Message._id id l = Some x →
  (unread u (replaceByKey Message._id id y l)
   + (if bool_decide (Some (Message.recipient x) = u) && negb (Message.isRead x)
      then 1 else 0)
   = unread u l
     + (if bool_decide (Some (Message.recipient y) = u) && negb (Message.isRead y)
        then 1 else 0))%nat.
Proof.
  unfold unread. induction l as [|z l IH]; simpl; [done|].
  destruct (decide (Message._id z = id)).
  - intros [= ->]. simpl.
    destruct (bool_decide (Some (Message.recipient x) = u) && negb (Message.isRead x));
      destruct (bool_decide (Some (Message.recipient y) = u) && negb (Message.isRead y));
      simpl; lia.
  - intros Hx. specialize (IH Hx). simpl.
    destruct (bool_decide (Some (Message.recipient z) = u) && negb (Message.isRead z));
      simpl; lia.
Qed.

(** Marking read and the unread count: after a caller whose [userId] is
    the recipient has marked a message, its count of unread messages is one
    less if the message was unread and the same if it was read already. *)
Theorem markAsRead_lowers_unread_count (now : Date) (req req' : Request num unit)
    (db : DB num) (m : Message.t) :
  findByKey Message._id (params_id req) (Messages db) = Some m →
  User.userId (user req) = Some (Message.recipient m) →
  user req' = user req →
  ∃ n, getUnreadCount req' db = (json 200 "" (Some n), db)
       ∧ (getUnreadCount req' (markAsRead now req db).2).1
         = json 200 "" (Some (if Message.isRead m then n else (n - 1)%nat))
       ∧ (Message.isRead m = false → (0 < n)%nat).
Proof.
  intros Hfound Hrecipient Huser.
  exists (unread (User.userId (user req)) (Messages db)).
  unfold getUnreadCount. async. rewrite Huser. split; [done|].
  unfold markAsRead, Message_save. async. rewrite Hfound. simpl.
  rewrite bool_decide_eq_false_2 by (by intros ?). simpl.
  rewrite preSave_keeps_readAt by (by eexists).
  pose proof (unread_replace (User.userId (user req)) (params_id req) m (setRead now m)
                (Messages db) Hfound) as Hcount.
  simpl in Hcount. rewrite andb_false_r in Hcount.
  rewrite (bool_decide_eq_true_2 _ (eq_sym Hrecipient)) in Hcount. simpl in Hcount.
  destruct (findByKey_Some _ _ _ _ Hfound) as [-> _].
  destruct (Message.isRead m); simpl in *.
  - split; [|done]. do 2 f_equal. lia.
  - split; [|lia]. do 2 f_equal. lia.
Qed.


Lemma fromSender_sender (u : User.t) (fields : Doc num) :
  asId (fromSender u fields !! "sender") = User.userId u.
Proof.
  unfold fromSender. destruct (User.userId u).
  - by rewrite lookup_insert_eq.
  - by rewrite lookup_delete_eq.
Qed.

Lemma fromSender_lookup (u : User.t) (fields : Doc num) (k : string) :
  k ≠ "sender" → fromSender u fields !! k = fields !! k.
Proof.
  intros Hk. unfold fromSender. destruct (User.userId u).
  - by rewrite lookup_insert_ne.
  - by rewrite lookup_delete_ne.
Qed.

Lemma construct_inv (id : ObjectId) (fields : Doc num) (m : Message.t) :
  Message.construct id fields = Some m →
  Message._id m = id
  ∧ asId (fields !! "sender") = Some (Message.sender m)
  ∧ asId (fields !! "recipient") = Some (Message.recipient m)
  ∧ asId (fields !! "child") = Some (Message.child m)
  ∧ fields !! "subject" ≫= name 200 = Some (VStr (Message.subject m))
  ∧ fields !! "content" ≫= name 1000 = Some (VStr (Message.content m))
  ∧ fields !! "messageType" ≫= oneOf Message.messageTypes
    = Some (VStr (Message.messageType m))
  ∧ Message.isRead m = false
  ∧ Message.readAt m = None
  ∧ match fields !! "parentMessage" with
    | Some (VId p) => Message.parentMessage m = Some p
    | _ => Message.parentMessage m = None
    end.
Proof.
  unfold Message.construct. intros H.
  apply bind_Some in H as (sender & Hsender & H).
  apply bind_Some in H as (recipient & Hrecipient & H).
  apply bind_Some in H as (child & Hchild & H).
  apply bind_Some in H as (subject & Hsubject & H).
  apply bind_Some in H as (content & Hcontent & H).
  apply bind_Some in H as (messageType & HmessageType & H).
  apply bind_Some in H as (priority & Hpriority & H).
  apply bind_Some in H as (parentMessage & Hparent & H).
  injection H as <-. simpl. repeat split; try done.
  - destruct (fields !! "subject" ≫= name 200) as [[]|]; try done.
    by injection Hsubject as ->.
  - destruct (fields !! "content" ≫= name 1000) as [[]|]; try done.
    by injection Hcontent as ->.
  - destruct (fields !! "messageType" ≫= oneOf Message.messageTypes) as [[]|]; try done.
    by injection HmessageType as ->.
  - destruct (fields !! "parentMessage") as [[]|]; by simplify_eq.
Qed.


#[local] Arguments name : simpl never.
#[local] Arguments trim : simpl never.
#[local] Arguments utf16Length : simpl never.

Lemma name_Some (n : nat) (v w : Value num) :
  name n v = Some w →
  ∃ s, v = VStr s ∧ w = VStr (trim s) ∧ trim s ≠ "" ∧ (utf16Length (trim s) ≤ n)%nat.
Proof.
  unfold name. destruct v as [| | |s| | | |]; try done.
  destruct (negb (String.eqb (trim s) "")) eqn:Hne; simpl; [|done].
  destruct (utf16Length (trim s) <=? n)%nat eqn:Hlen; [|done].
  intros [= <-]. exists s. split; [done|]. split; [done|]. split.
  - intros Heq. rewrite Heq in Hne. done.
  - by apply Nat.leb_le.
Qed.

(** Replying: the reply goes from the caller (its sender is
    [req.user.userId]) to the other party of the original message (to its
    recipient when the caller sent the original, to its sender otherwise),
    about the same child, under the subject of the original with [Re: ] in
    front; a request that is not answered 201 writes nothing. A reply whose
    subject would pass 200 UTF-16 code units, the [maxlength] of the path,
    is refused with 500. *)
Theorem replyToMessage_addresses (req : Request num unit) (db : DB num)
    (original : Message.t) :
  findByKey Message._id (params_id req) (Messages db) = Some original →
  let out := replyToMessage req db in
  (status out.1 = 201%nat →
   ∃ reply, data out.1 = Some reply
        ∧ Messages out.2 = Messages db ++ [reply]
        ∧ User.userId (user req) = Some (Message.sender reply)
        ∧ Message.recipient reply
          = (if decide (User.userId (user req) = Some (Message.sender original))
             then Message.recipient original else Message.sender original)
        ∧ Message.child reply = Message.child original
        ∧ Message.parentMessage reply = Some (Message._id original)
        ∧ Message.messageType reply = Message.messageType original
        ∧ Message.subject reply = trim ("Re: " +:+ Message.subject original)
        ∧ Message.isRead reply = false)
  ∧ (status out.1 ≠ 201%nat → out.2 = db)
  ∧ ((200 < utf16Length (trim ("Re: " +:+ Message.subject original)))%nat →
     status out.1 = 500%nat).
Proof.
  intros Hfound. cbv zeta. unfold replyToMessage, Message_create. async.
  rewrite Hfound. simpl.
  destruct (Message.construct (nextId db) _) as [reply|] eqn:Hreply; simpl.
  - split; [|split; [done|]].
    + intros _. exists reply. split; [done|]. split; [done|].
      apply construct_inv in Hreply
        as (_ & Hsender & Hrecipient & Hchild & Hsubject & _ & Htype & Hread & _ & Hparent).
      rewrite fromSender_sender in Hsender.
      rewrite fromSender_lookup, lookup_insert_eq in Hrecipient by done.
      rewrite fromSender_lookup, !lookup_insert_ne, lookup_insert_eq in Hchild by done.
      rewrite fromSender_lookup, !lookup_insert_ne, lookup_insert_eq in Hsubject by done.
      rewrite fromSender_lookup, !lookup_insert_ne, lookup_insert_eq in Htype by done.
      rewrite fromSender_lookup, !lookup_insert_ne, lookup_insert_eq in Hparent by done.
      simpl in *. injection Hrecipient as <-. injection Hchild as <-.
      apply name_Some in Hsubject as (s & [= <-] & [= ->] & _).
      unfold oneOf in Htype. case_bool_decide; [|done]. injection Htype as <-.
      repeat split; try done.
      case_bool_decide as Hsent; [rewrite decide_True|rewrite decide_False];
        congruence.
    + intros Hlong. exfalso.
      apply construct_inv in Hreply as (_ & _ & _ & _ & Hsubject & _).
      rewrite fromSender_lookup, !lookup_insert_ne, lookup_insert_eq in Hsubject by done.
      simpl in Hsubject.
      apply name_Some in Hsubject as (s & [= <-] & _ & _ & Hlen). lia.
  - split; [done|]. split; [done|]. done.
Qed.

Lemma trimStart_blank (s : string) : trimStart s = "" → trimEnd s = "".
Proof. destruct s as [|c s]; [done|]. intros Hs. unfold trimEnd. by rewrite Hs. Qed.

(** The subject of a reply to a message whose subject is stored trimmed. *)
Lemma trim_Re (s : string) :
  trimEnd s = s → s ≠ "" → trim ("Re: " +:+ s) = "Re: " +:+ s.
Proof.
  intros Hs Hne. unfold trim.
  change ("Re: " +:+ s)
    with (String "R"%char (String "e"%char (String ":"%char (String " "%char s)))).
  assert (String.eqb (trimStart s) "" = false) as Hblank.
  { destruct (String.eqb_spec (trimStart s) "") as [Hb|]; [|done].
    apply trimStart_blank in Hb. congruence. }
  destruct s as [|c s]; [done|].
  change (trimStart (String "R" (String "e" (String ":" (String " " (String c s))))))
    with (String "R"%char (String "e"%char (String ":"%char
            (String " "%char (String c s))))).
  change (trimEnd (String "R" (String "e" (String ":" (String " " (String c s))))))
    with (String "R"%char (String "e"%char (String ":"%char
            (if String.eqb (trimStart (String c s)) "" then EmptyString
             else String " "%char (trimEnd (String c s)))))).
  by rewrite Hblank, Hs.
Qed.

Lemma utf16Length_Re (s : string) : utf16Length ("Re: " +:+ s) = (4 + utf16Length s)%nat.
Proof. reflexivity. Qed.

(** Threads have a depth: each reply puts [Re: ] in front of the subject,
    and a reply to a message whose stored subject has more than 196 UTF-16
    code units is refused with 500 and stores nothing. *)
Theorem replyToMessage_subject_limit (req : Request num unit) (db : DB num)
    (original : Message.t) :
  findByKey Message._id (params_id req) (Messages db) = Some original →
  trimEnd (Message.subject original) = Message.subject original →
  (196 < utf16Length (Message.subject original))%nat →
  status (replyToMessage req db).1 = 500%nat ∧ (replyToMessage req db).2 = db.
Proof.
  intros Hfound Htrimmed Hlong.
  assert (Message.subject original ≠ "") as Hne.
  { intros Heq. rewrite Heq in Hlong. unfold utf16Length in Hlong. lia. }
  unfold replyToMessage, Message_create. async. rewrite Hfound. simpl.
  destruct (Message.construct (nextId db) _) as [reply|] eqn:Hreply; simpl; [|done].
  exfalso. apply construct_inv in Hreply as (_ & _ & _ & _ & Hsubject & _).
  rewrite fromSender_lookup, !lookup_insert_ne, lookup_insert_eq in Hsubject by done.
  simpl in Hsubject.
  apply name_Some in Hsubject as (s & [= <-] & _ & _ & Hlen).
  rewrite trim_Re, utf16Length_Re in Hlen by done. lia.
Qed.

End MessageWrites.

(** The recipient of the note deletes it; the other parent may not. *)
Lemma deleteMessage_participants_only_witness :
  let recipient : Request Z unit :=
    Sample.request (Sample.withUserId Sample.aParent) 30 tt ∅ in
  let stranger : Request Z unit :=
    Sample.request (Sample.withUserId Sample.anotherParent) 30 tt ∅ in
  status (MessageController.deleteMessage recipient Sample.school).1 = 200%nat
  ∧ findByKey Message._id 30%nat
      (Messages (MessageController.deleteMessage recipient Sample.school).2) = None
  ∧ MessageController.deleteMessage stranger Sample.school
    = (json 403 "Not authorized to delete this message" None, Sample.school).
Proof.
  cbv zeta.
  pose proof (deleteMessage_participants_only
                (Sample.request (Sample.withUserId Sample.aParent) 30 tt (∅ : Doc Z))
                Sample.school Sample.aNote eq_refl) as H.
  pose proof (deleteMessage_participants_only
                (Sample.request (Sample.withUserId Sample.anotherParent) 30 tt (∅ : Doc Z))
                Sample.school Sample.aNote eq_refl) as H'.
  cbv zeta in H, H'. destruct H as (Hiff & Hdeleted & _), H' as (Hiff' & _ & Hrefused).
  assert (status (MessageController.deleteMessage
                    (Sample.request (Sample.withUserId Sample.aParent) 30 tt (∅ : Doc Z))
                    Sample.school).1
          = 200%nat) as H200 by (apply Hiff; by right).
  split; [exact H200|]. split.
  - destruct (Hdeleted H200) as [-> _]. reflexivity.
  - apply Hrefused. intros [Hs|Hr]%Hiff'; [discriminate Hs|discriminate Hr].
Defined.

(** The first parent has one unread message, and none once it has marked
    the note. *)
Lemma markAsRead_lowers_unread_count_witness :
  let req : Request Z unit := Sample.request (Sample.withUserId Sample.aParent) 30 tt ∅ in
  (MessageController.getUnreadCount req Sample.school).1 = json 200 "" (Some 1%nat)
  ∧ (MessageController.getUnreadCount req
       (MessageController.markAsRead 1700000000000 req Sample.school).2).1
    = json 200 "" (Some 0%nat).
Proof.
  cbv zeta.
  destruct (markAsRead_lowers_unread_count 1700000000000
              (Sample.request (Sample.withUserId Sample.aParent) 30 tt (∅ : Doc Z))
              (Sample.request (Sample.withUserId Sample.aParent) 30 tt (∅ : Doc Z))
              Sample.school Sample.aNote eq_refl eq_refl eq_refl)
    as (n & Hbefore & Hafter & _).
  assert (n = 1%nat) as ->.
  { apply (f_equal (λ out, from_option id 0%nat (data out.1))) in Hbefore.
    symmetry. exact Hbefore. }
  split; [by rewrite Hbefore|exact Hafter].
Defined.

(** The first parent replies to the note of the teacher. *)
Lemma replyToMessage_addresses_witness :
  let req : Request Z unit :=
    Sample.request (Sample.withUserId Sample.aParent) 30 tt
      (list_to_map [("content", VStr "Thank you")]) in
  ∃ reply,
    data (MessageController.replyToMessage req Sample.school).1 = Some reply
    ∧ Message.sender reply = 3%nat
    ∧ Message.recipient reply = 2%nat
    ∧ Message.child reply = 10%nat
    ∧ Message.subject reply = "Re: Nap time".
Proof.
  cbv zeta.
  pose proof (replyToMessage_addresses
                (Sample.request (Sample.withUserId Sample.aParent) 30 tt
                   (list_to_map [("content", VStr "Thank you")] : Doc Z))
                Sample.school Sample.aNote eq_refl) as H.
  cbv zeta in H. destruct H as (Hreply & _).
  destruct Hreply as (reply & Hdata & _ & Hsender & Hrecipient & Hchild & _ & _ & Hsubject & _);
    [vm_compute; reflexivity|].
  exists reply. split; [exact Hdata|]. split; [by injection Hsender|].
  split; [exact Hrecipient|]. split; [exact Hchild|exact Hsubject].
Defined.

(** A message under a subject of 197 characters cannot be replied to. *)
Lemma replyToMessage_subject_limit_witness :
  let long : Message.t :=
    {| Message._id := 31%nat; Message.sender := 2%nat; Message.recipient := 3%nat;
       Message.child := 10%nat;
       Message.subject := String.string_of_list_ascii (repeat "x"%char 197);
       Message.content := "Slept well today"; Message.messageType := "general";
       Message.priority := "medium"; Message.isRead := false;
       Message.readAt := None; Message.parentMessage := None |} in
  let db : DB Z := setMessages [long] Sample.school in
  let req : Request Z unit :=
    Sample.request (Sample.withUserId Sample.aParent) 31 tt
      (list_to_map [("content", VStr "Thank you")]) in
  status (MessageController.replyToMessage req db).1 = 500%nat
  ∧ (MessageController.replyToMessage req db).2 = db.
Proof.
  cbv zeta. eapply replyToMessage_subject_limit.
  - reflexivity.
  - vm_compute. reflexivity.
  - apply Nat.ltb_lt. vm_compute. reflexivity.
Defined.

(** The limit is one of UTF-16 code units, not of bytes: a subject of 150
    times the letter e with an acute accent, which is 300 bytes of UTF-8,
    is replied to, and the subject of the reply has 154 code units. *)
Lemma replyToMessage_counts_code_units :
  let accented : string :=
    String.concat "" (repeat (String (ascii_of_nat 195) (String (ascii_of_nat 169) ""))
                             150) in
  let original : Message.t :=
    {| Message._id := 31%nat; Message.sender := 2%nat; Message.recipient := 3%nat;
       Message.child := 10%nat; Message.subject := accented;
       Message.content := "Slept well today"; Message.messageType := "general";
       Message.priority := "medium"; Message.isRead := false;
       Message.readAt := None; Message.parentMessage := None |} in
  let db : DB Z := setMessages [original] Sample.school in
  let req : Request Z unit :=
    Sample.request (Sample.withUserId Sample.aParent) 31 tt
      (list_to_map [("content", VStr "Thank you")]) in
  String.length accented = 300%nat
  ∧ utf16Length accented = 150%nat
  ∧ status (MessageController.replyToMessage req db).1 = 201%nat
  ∧ (utf16Length ∘ Message.subject <$> data (MessageController.replyToMessage req db).1)
    = Some 154%nat.
Proof. cbv zeta. repeat split; vm_compute; reflexivity. Qed.

(* ===================================================================== *)
(** * The gates of the routes *)
(* ===================================================================== *)

Section Gates.
Context {num : Type} `{!Number num} `{!Regex}.

(** The gate in front of a child's progress reports holds back parents
    only: a parent is refused for a child that is not in its child-set, and
    every other role, staff and finance included, passes for every child. *)
Theorem parentAccess_restricts_parents_only (req : Request num unit) (db : DB num)
    (u : User.t) :
  findByKey User._id (User._id u) (Users db) = Some u →
  User.isActive u = true →
  let out := Routes.GET_progress_child_childId (Auth.Bearer (User._id u)) req db in
  out.2 = db
  ∧ (status out.1 = 403%nat
     ↔ User.role u = parent ∧ params_childId req ∉ User.children u)
  ∧ (status out.1 ≠ 403%nat →
     out.1 = json 501 "Progress controller not yet implemented" None).
Proof.
  intros Hu Hactive. cbv zeta.
  unfold Routes.GET_progress_child_childId, Auth.route, Auth.protect.
  rewrite Hu, Hactive. simpl. unfold Auth.parentAccess.
  destruct (User.role u) eqn:Hrole; simpl.
  1,2,4,5: split; [done|]; split; [|done]; split; [done|]; by intros [? _].
  case_bool_decide as Hin; simpl.
  - split; [done|]. split; [|done]. split; [done|]. by intros [_ ?].
  - split; [done|]. split; [|done]. done.
Qed.

(** The finance routes by role: a teacher, a parent or a staff member is
    refused on creating, updating and reporting, and everyone but an admin,
    the finance manager included, is refused on approving and deleting. A
    refused request writes nothing. *)
Theorem finance_routes_role_gates (u : User.t) (now : Date)
    (req : Request num unit) (q : Request num FinanceController.Query) (db : DB num) :
  findByKey User._id (User._id u) (Users db) = Some u →
  User.isActive u = true →
  let auth := Auth.Bearer (User._id u) in
  (User.role u ∉ [finance; admin] →
   Routes.POST_finance now auth req db
   = (json 403 "Finance Manager or Admin access required" None, db)
   ∧ Routes.PUT_finance_id auth req db
     = (json 403 "Finance Manager or Admin access required" None, db)
   ∧ Routes.GET_finance_report auth q db
     = (json 403 "Finance Manager or Admin access required" None, db))
  ∧ (User.role u ≠ admin →
     Routes.PUT_finance_id_approve now auth req db
     = (json 403 "Admin access required" None, db)
     ∧ Routes.DELETE_finance_id auth req db
       = (json 403 "Admin access required" None, db)).
Proof.
  intros Hu Hactive. cbv zeta.
  unfold Routes.POST_finance, Routes.PUT_finance_id, Routes.GET_finance_report,
    Routes.PUT_finance_id_approve, Routes.DELETE_finance_id, Auth.route, Auth.protect.
  rewrite Hu, Hactive. simpl. unfold Auth.financeAccess, Auth.adminOnly. split.
  - intros Hrole. by rewrite bool_decide_eq_false_2.
  - intros Hrole. by rewrite bool_decide_eq_true_2.
Qed.

End Gates.

(** The first parent is refused the progress reports of the other
    parent's child. *)
Lemma parentAccess_restricts_parents_only_witness :
  let req : Request Z unit := Sample.request Sample.aParent 11 tt ∅ in
  status (Routes.GET_progress_child_childId (Auth.Bearer 3) req Sample.db).1 = 403%nat
  ∧ (Routes.GET_progress_child_childId (Auth.Bearer 3) req Sample.db).2 = Sample.db.
Proof.
  cbv zeta.
  pose proof (parentAccess_restricts_parents_only
                (Sample.request Sample.aParent 11 tt (∅ : Doc Z)) Sample.db
                Sample.aParent eq_refl eq_refl) as H.
  cbv zeta in H. destruct H as (Hdb & Hiff & _).
  split; [|exact Hdb]. apply Hiff. split; [reflexivity|compute_done].
Defined.

(** The teacher is refused on updating and on deleting a transaction. *)
Lemma finance_routes_role_gates_witness :
  let req : Request Z unit :=
    Sample.request Sample.aTeacher 53 tt (list_to_map [("status", VStr "pending")]) in
  Routes.PUT_finance_id (Auth.Bearer 2) req (Sample.ledger 10 30 20)
  = (json 403 "Finance Manager or Admin access required" None, Sample.ledger 10 30 20)
  ∧ Routes.DELETE_finance_id (Auth.Bearer 2) req (Sample.ledger 10 30 20)
    = (json 403 "Admin access required" None, Sample.ledger 10 30 20).
Proof.
  cbv zeta.
  pose proof (finance_routes_role_gates Sample.aTeacher 1700000000000
                (Sample.request Sample.aTeacher 53 tt
                   (list_to_map [("status", VStr "pending")] : Doc Z))
                (Sample.request Sample.aTeacher 0 Sample.wholeReport (∅ : Doc Z))
                (Sample.ledger 10 30 20) eq_refl eq_refl) as H.
  cbv zeta in H. destruct H as (Hfinance & Hadmin).
  destruct Hfinance as (_ & Hput & _); [compute_done|].
  destruct Hadmin as (_ & Hdelete); [discriminate|].
  split; [exact Hput|exact Hdelete].
Defined.

(* ===================================================================== *)
(** * The virtuals of the models: age and duration *)
(* ===================================================================== *)

Section Virtuals.

(** The age of a child is the number of its birthdays that are not after
    today: the birthday number [age] is today or before, the next one is
    still to come. A date of birth after today gives a negative age. *)
Theorem age_counts_birthdays (calendar : Date → Z * Z * Z) (today birthDate : Date)
    (age : Z) :
  let birthday (n : Z) : Z * Z * Z :=
    ((calendar birthDate).1.1 + n, (calendar birthDate).1.2, (calendar birthDate).2) in
  Child.age calendar today (Some birthDate) = Some age
  ↔ Spec.notAfter (birthday age) (calendar today)
    ∧ ¬ Spec.notAfter (birthday (age + 1)) (calendar today).
Proof.
  cbv zeta. unfold Child.age, Spec.notAfter. simpl.
  destruct (calendar today) as [[ty tm] td], (calendar birthDate) as [[by_ bm] bd]. simpl.
  destruct (tm - bm <? 0) eqn:Hm; simpl.
  - apply Z.ltb_lt in Hm. split; [intros [= <-]; lia|]. intros [? ?]. f_equal. lia.
  - apply Z.ltb_ge in Hm. destruct (tm - bm =? 0) eqn:Hm0; simpl.
    + apply Z.eqb_eq in Hm0. destruct (td <? bd) eqn:Hd.
      * apply Z.ltb_lt in Hd. split; [intros [= <-]; lia|]. intros [? ?]. f_equal. lia.
      * apply Z.ltb_ge in Hd. split; [intros [= <-]; lia|]. intros [? ?]. f_equal. lia.
    + apply Z.eqb_neq in Hm0. split; [intros [= <-]; lia|]. intros [? ?]. f_equal. lia.
Qed.

Lemma digitOf_bounds (c : ascii) (d : Z) : Activity.digitOf c = Some d → 0 ≤ d ≤ 9.
Proof.
  unfold Activity.digitOf. destruct (_ && _)%nat eqn:Hc; [|done].
  intros [= <-]. apply andb_prop in Hc as [?%Nat.leb_le ?%Nat.leb_le]. lia.
Qed.

Lemma timeOfDay_bounds (time : string) (t : Z) :
  Activity.timeOfDay time = Some t → 0 ≤ t < 1440.
Proof.
  unfold Activity.timeOfDay.
  destruct time as [|c1 [|c2 [|c3 [|c4 [|c5 [|c6 rest]]]]]]; try done.
  - intros H. apply bind_Some in H as (h & Hh%digitOf_bounds & H).
    apply bind_Some in H as (m1 & Hm1%digitOf_bounds & H).
    apply bind_Some in H as (m2 & Hm2%digitOf_bounds & H).
    destruct (_ && _) eqn:Hb; [|done].
    apply andb_prop in Hb as [_ ?%Z.leb_le]. injection H as <-. lia.
  - intros H. apply bind_Some in H as (h1 & Hh1%digitOf_bounds & H).
    apply bind_Some in H as (h2 & Hh2%digitOf_bounds & H).
    apply bind_Some in H as (m1 & Hm1%digitOf_bounds & H).
    apply bind_Some in H as (m2 & Hm2%digitOf_bounds & H).
    destruct (_ && _) eqn:Hb; [|done].
    apply andb_prop in Hb as [[_ ?%Z.leb_le]%andb_prop ?%Z.leb_le].
    injection H as <-. lia.
Qed.

(** The duration of an activity between two times that the schema admits:
    hours and minutes add up to the time between the two when the end is
    not before the start; when it is, and the difference is no whole number
    of hours, the two parts are negative and add up to an hour too much. *)
Theorem duration_hours_minutes (startTime endTime : string) (start finish : Z) :
  Activity.timeOfDay startTime = Some start →
  Activity.timeOfDay endTime = Some finish →
  let diff := finish - start in
  Activity.duration (Some startTime) (Some endTime)
  = Some (pretty (Activity.hoursOf diff) +:+ "h "
          +:+ pretty (Activity.minutesOf diff) +:+ "m")
  ∧ (start ≤ finish →
     Activity.hoursOf diff * 60 + Activity.minutesOf diff = diff
     ∧ 0 ≤ Activity.minutesOf diff < 60 ∧ 0 ≤ Activity.hoursOf diff < 24)
  ∧ (finish < start → diff mod 60 ≠ 0 →
     Activity.hoursOf diff * 60 + Activity.minutesOf diff = diff - 60
     ∧ Activity.hoursOf diff < 0 ∧ Activity.minutesOf diff < 0).
Proof.
  intros Hs He. cbv zeta.
  pose proof (timeOfDay_bounds _ _ Hs) as Hsb.
  pose proof (timeOfDay_bounds _ _ He) as Heb.
  split; [|split].
  - unfold Activity.duration.
    destruct startTime; [done|]. destruct endTime; [done|].
    cbn [String.eqb orb]. by rewrite Hs, He.
  - intros Hle. unfold Activity.hoursOf, Activity.minutesOf.
    rewrite Z.rem_mod_nonneg by lia.
    pose proof (Z.div_mod (finish - start) 60). pose proof (Z.mod_pos_bound (finish - start) 60).
    pose proof (Z.div_le_upper_bound (finish - start) 60 23).
    pose proof (Z.div_pos (finish - start) 60). lia.
  - intros Hlt Hmod. unfold Activity.hoursOf, Activity.minutesOf.
    pose proof (Z.div_mod (finish - start) 60). pose proof (Z.mod_pos_bound (finish - start) 60).
    pose proof (Z.quot_rem' (finish - start) 60).
    pose proof (Z.rem_bound_pos_neg (finish - start) 60). lia.
Qed.

End Virtuals.

(** An hour and a half; and an end half an hour before the start. *)
Lemma duration_hours_minutes_witness :
  Activity.duration (Some "09:00") (Some "10:30") = Some "1h 30m"
  ∧ Activity.duration (Some "10:00") (Some "9:30") = Some "-1h -30m".
Proof.
  split.
  - pose proof (duration_hours_minutes "09:00" "10:30" 540 630 eq_refl eq_refl) as H.
    cbv zeta in H. destruct H as (-> & _). vm_compute. reflexivity.
  - pose proof (duration_hours_minutes "10:00" "9:30" 600 570 eq_refl eq_refl) as H.
    cbv zeta in H. destruct H as (-> & _). vm_compute. reflexivity.
Defined.
